(** * D-ack/bot: message-intake-to-response pipeline

    A shallow embedding of the server side of the chatbot console:
    the rule-based classifier ([server/nlp/simple-processor.ts]), the two
    response generators ([server/nlp/trainer.ts], [server/nlp/simple-trainer.ts]),
    the in-memory record store ([server/storage.ts], class [MemStorage]),
    the Telegram, WhatsApp and Messenger channel adapters
    ([server/platforms/]) and the dashboard fan-out ([server/websocket.ts]).

    Conventions.
    - A JavaScript string is a sequence of UTF-16 code units; the texts covered
      here are those whose code units lie below 256 (Basic Latin and Latin-1
      Supplement), written as a [string] with one character per code unit.
      On these, [length], [includes], [split], [replace], [trim] and
      [toLowerCase] are the ones of ECMA-262.
    - A JavaScript number is an exact rational ([Q]) where the code produces a
      fraction (the confidence [0.75]) and an integer ([Z]) where it only
      counts; every comparison and sum below is exact on doubles in the range
      of a 32-bit database column.  The quotients of the dashboard statistics
      are computed as the code computes them, in IEEE 754 binary64
      ([Double]).
    - [null]/[undefined] are [None].
    - An [async] method is a computation in the monad [M], which threads the
      process state and propagates a thrown value. *)

From Stdlib Require Import String Ascii List ZArith QArith Qround Bool Lia.
From Stdlib Require Import Sorted Permutation.
From Stdlib Require SpecFloat.
From stdpp Require Import base option gmap strings pretty.
Import ListNotations.

Local Open Scope string_scope.
Local Open Scope Z_scope.

(** ** JavaScript string primitives *)

Module Js.

(** The lower-case mapping of a code unit below 256: [A]-[Z] (65-90) and the
    capital letters of Latin-1 (192-222 without the multiplication sign 215)
    have their lower-case form 32 places up; every other code unit, the
    sharp s (223), the micro sign (181) and the y with diaeresis (255)
    included, is its own lower-case form. *)
Definition toLowerChar (c : ascii) : ascii :=
  let n := nat_of_ascii c in
  if (Nat.leb 65 n && Nat.leb n 90)
     || (Nat.leb 192 n && Nat.leb n 222 && negb (Nat.eqb n 215))
  then ascii_of_nat (n + 32) else c.

(** [String.prototype.toLowerCase] *)
Fixpoint toLowerCase (s : string) : string :=
  match s with
  | EmptyString => EmptyString
  | String c s' => String (toLowerChar c) (toLowerCase s')
  end.

(** The code units below 256 that [trim] strips: the white space TAB (9),
    VT (11), FF (12), SP (32) and NBSP (160), and the line terminators LF (10)
    and CR (13). *)
Definition isWhiteSpace (c : ascii) : bool :=
  let n := nat_of_ascii c in
  (Nat.leb 9 n && Nat.leb n 13)%bool || Nat.eqb n 32 || Nat.eqb n 160.

Fixpoint trimStart (s : string) : string :=
  match s with
  | EmptyString => EmptyString
  | String c s' => if isWhiteSpace c then trimStart s' else s
  end.

Fixpoint trimEnd (s : string) : string :=
  match s with
  | EmptyString => EmptyString
  | String c s' =>
      match trimEnd s' with
      | EmptyString => if isWhiteSpace c then EmptyString else String c EmptyString
      | t => String c t
      end
  end.

(** [String.prototype.trim] *)
Definition trim (s : string) : string := trimEnd (trimStart s).

(** [hay.includes(needle)] *)
Fixpoint includes (hay needle : string) : bool :=
  if String.prefix needle hay then true
  else match hay with
       | EmptyString => false
       | String _ hay' => includes hay' needle
       end.

(** [s.split(' ')]: the pieces between single spaces, empty ones kept. *)
Fixpoint split_space (s : string) : list string :=
  match s with
  | EmptyString => [EmptyString]
  | String c s' =>
      if Ascii.eqb c " " then EmptyString :: split_space s'
      else match split_space s' with
           | [] => [String c EmptyString]
           | t :: ts => String c t :: ts
           end
  end.

(** [list.includes(x)] on an array of strings *)
Definition arrayIncludes (l : list string) (x : string) : bool :=
  existsb (String.eqb x) l.

(** [array.slice(0, n)] *)
Definition slice0 {A} (n : nat) (l : list A) : list A := firstn n l.

Fixpoint dropChars (n : nat) (s : string) : string :=
  match n, s with
  | O, _ => s
  | S n', String _ s' => dropChars n' s'
  | S _, EmptyString => EmptyString
  end.

(** The first occurrence of [pat] in [s]: the text before it and the text
    after it. *)
Fixpoint splitAtFirst (pat s : string) : option (string * string) :=
  if String.prefix pat s then Some (EmptyString, dropChars (String.length pat) s)
  else match s with
       | EmptyString => None
       | String c s' =>
           match splitAtFirst pat s' with
           | Some (b, a) => Some (String c b, a)
           | None => None
           end
       end.

(** [GetSubstitution] of ECMA-262 for a string pattern (no captures): in the
    replacement text [$$] is a dollar sign, [$&] the matched text,
    [$`] the text before the match and [$'] the text after it; any other
    [$] stays. *)
Fixpoint getSubstitution (matched before after t : string) : string :=
  match t with
  | EmptyString => EmptyString
  | String c rest =>
      if Ascii.eqb c "$" then
        match rest with
        | EmptyString => String c EmptyString
        | String d t' =>
            if Ascii.eqb d "$" then String "$" (getSubstitution matched before after t')
            else if Ascii.eqb d "&" then matched ++ getSubstitution matched before after t'
            else if Ascii.eqb d "`" then before ++ getSubstitution matched before after t'
            else if Ascii.eqb d "'" then after ++ getSubstitution matched before after t'
            else String c (getSubstitution matched before after rest)
        end
      else String c (getSubstitution matched before after rest)
  end.

(** [s.replace(pat, repl)] with a string pattern: only the first occurrence
    is replaced. *)
Definition replace (s pat repl : string) : string :=
  match splitAtFirst pat s with
  | None => s
  | Some (b, a) => b ++ getSubstitution pat b a repl ++ a
  end.

(** Truthiness of a string, of a number and of an optional value. *)
Definition truthyString (s : string) : bool :=
  match s with EmptyString => false | _ => true end.

Definition truthyInt (n : Z) : bool := negb (n =? 0).

(** Truthiness of a string that may be [undefined]. *)
Definition truthyOption (x : option string) : bool :=
  match x with
  | Some s => truthyString s
  | None => false
  end.

Definition truthyNum (q : Q) : bool := negb (Qnum q =? 0).

(** [x || d] on an optional string, number and integer. *)
Definition orString (x : option string) (d : string) : string :=
  match x with
  | Some s => if truthyString s then s else d
  | None => d
  end.

Definition orNullString (x : option string) : option string :=
  match x with
  | Some s => if truthyString s then Some s else None
  | None => None
  end.

Definition orNullNum (x : option Q) : option Q :=
  match x with
  | Some q => if truthyNum q then Some q else None
  | None => None
  end.

Definition orNullInt (x : option Z) : option Z :=
  match x with
  | Some n => if truthyInt n then Some n else None
  | None => None
  end.

End Js.

(** ** Numbers as doubles

    The binary64 format of IEEE 754: 53 bits of precision, round to nearest,
    ties to even. *)

Module Double.

Definition t : Type := SpecFloat.spec_float.

Definition prec : Z := 53.
Definition emax : Z := 1024.

(** The Number of an integer: exact for magnitudes up to 2^53. *)
Definition ofInt (n : Z) : t := SpecFloat.binary_normalize prec emax n 0 false.

(** [x / y] and [x * y] *)
Definition div (x y : t) : t := SpecFloat.SFdiv prec emax x y.

Definition mul (x y : t) : t := SpecFloat.SFmul prec emax x y.

(** [Math.round(x)] for a finite [x]: the integer nearest to [x], the upper
    one when two are equally near.  With [x] = [m * 2^e] this is the floor of
    [x + 1/2], taken exactly.  Both zeros give 0.  A NaN and the infinities,
    which [Math.round] returns as they are, are no integers; the quotients
    rounded in this development have a finite numerator and a non-zero
    denominator, and the value 0 stands for them here. *)
Definition round (x : t) : Z :=
  match x with
  | SpecFloat.S754_finite s m e =>
      let v := if s then Z.neg m else Z.pos m in
      if 0 <=? e then v * 2 ^ e
      else (2 * v + 2 ^ (- e)) / 2 ^ (1 - e)
  | _ => 0
  end.

End Double.

(** ** The rule-based classifier ([SimpleNLPProcessor]) *)

Inductive Sentiment := positive | negative | neutral.

Module ProcessedMessage.
Record t := mk {
  intent : string;
  entities : gmap string string;
  sentiment : Sentiment;
  confidence : Q;
  keywords : list string
}.
End ProcessedMessage.

Module SimpleNLPProcessor.

Definition classifyIntent (message : string) : string :=
  if Js.includes message "hello" || Js.includes message "hi" || Js.includes message "hey"
  then "greeting"
  else if Js.includes message "help" || Js.includes message "support"
  then "help_request"
  else if Js.includes message "thank" || Js.includes message "thanks"
  then "gratitude"
  else if Js.includes message "bye" || Js.includes message "goodbye"
  then "farewell"
  else if Js.includes message "price" || Js.includes message "cost" || Js.includes message "payment"
  then "pricing_inquiry"
  else if Js.includes message "delivery" || Js.includes message "shipping"
  then "delivery_inquiry"
  else "general_inquiry".

Definition positiveWords : list string :=
  ["good"; "great"; "excellent"; "amazing"; "wonderful"; "love"; "like"; "happy"; "pleased"].

Definition negativeWords : list string :=
  ["bad"; "terrible"; "awful"; "hate"; "dislike"; "angry"; "frustrated"; "disappointed"].

Definition analyzeSentiment (text : string) : Sentiment :=
  let words := Js.split_space text in
  let positiveCount := List.length (List.filter (Js.arrayIncludes positiveWords) words) in
  let negativeCount := List.length (List.filter (Js.arrayIncludes negativeWords) words) in
  if Nat.ltb negativeCount positiveCount then positive
  else if Nat.ltb positiveCount negativeCount then negative
  else neutral.

Definition stopWords : list string :=
  ["the"; "is"; "at"; "which"; "on"; "a"; "an"; "and"; "or"; "but"; "in"; "with";
   "to"; "for"; "of"; "as"; "by"; "that"; "this"; "it"; "from"; "they"; "we"; "say";
   "her"; "she"; "he"; "will"; "my"; "one"; "all"; "would"; "there"; "their"].

Definition extractKeywords (tokens : list string) : list string :=
  Js.slice0 5
    (List.filter
       (fun token => negb (Js.arrayIncludes stopWords token)
                     && Nat.ltb 2 (String.length token))
       tokens).

Definition processMessage (message : string) : ProcessedMessage.t :=
  let cleanMessage := Js.trim (Js.toLowerCase message) in
  let tokens :=
    List.filter (fun token => Nat.ltb 0 (String.length token))
                (Js.split_space cleanMessage) in
  ProcessedMessage.mk
    (classifyIntent cleanMessage)
    ∅
    (analyzeSentiment cleanMessage)
    (75 # 100)
    (extractKeywords tokens).

End SimpleNLPProcessor.

(** ** Data model ([shared/schema.ts])

    Timestamps are milliseconds since the epoch. *)

Module BotConfig.
Record t := mk {
  id : Z;
  name : string;
  language : string;
  tone : string;
  confidenceThreshold : Z;
  maxResponseTime : Z;
  fallbackMessage : string;
  autoTraining : bool;
  createdAt : Z;
  updatedAt : Z
}.
End BotConfig.

Module Platform.
Record t := mk {
  id : Z;
  name : string;
  status : string;
  apiKey : option string;
  webhookUrl : option string;
  config : option (gmap string string);
  messagesCount : Z;
  lastMessageAt : option Z;
  createdAt : Z;
  updatedAt : Z
}.
End Platform.

Module Conversation.
Record t := mk {
  id : Z;
  platformId : Z;
  userId : string;
  userName : option string;
  status : string;
  messagesCount : Z;
  lastMessageAt : option Z;
  createdAt : Z;
  updatedAt : Z
}.
End Conversation.

Module Message.
Record t := mk {
  id : Z;
  conversationId : Z;
  content : string;
  sender : string;
  confidence : option Q;
  responseTime : option Z;
  templateId : option Z;
  sentAt : Z
}.
End Message.

Module Template.
Record t := mk {
  id : Z;
  name : string;
  category : string;
  content : string;
  variables : option (list string);
  isActive : bool;
  usageCount : Z;
  createdAt : Z;
  updatedAt : Z
}.
End Template.

Module MlModel.
Record t := mk {
  id : Z;
  name : string;
  version : string;
  accuracy : Z;
  trainingData : option (list (string * string));
  status : string;
  lastTrainedAt : option Z;
  createdAt : Z
}.
End MlModel.

(** A value of the [details] map of a log entry or of a request body. *)
#[local] Unset Elimination Schemes.
Inductive JsVal :=
| JStr (s : string)
| JNum (q : Q)
| JInt (n : Z)
| JObj (fields : list (string * JsVal)).
#[local] Set Elimination Schemes.

Module Log.
Record t := mk {
  id : Z;
  level : string;
  message : string;
  details : option (list (string * JsVal));
  source : string;
  createdAt : Z
}.
End Log.

(** Insert and partial-update shapes ([InsertX], [Partial<InsertX>]). *)

Module InsertPlatform.
Record t := mk {
  name : string;
  status : option string;
  apiKey : option string;
  webhookUrl : option string;
  config : option (gmap string string)
}.
End InsertPlatform.

Module PartialPlatform.
Record t := mk {
  name : option string;
  status : option string;
  apiKey : option (option string);
  webhookUrl : option (option string);
  config : option (option (gmap string string));
  messagesCount : option Z;
  lastMessageAt : option (option Z)
}.
End PartialPlatform.

Module InsertConversation.
Record t := mk {
  platformId : Z;
  userId : string;
  userName : option string;
  status : option string
}.
End InsertConversation.

Module PartialConversation.
Record t := mk {
  platformId : option Z;
  userId : option string;
  userName : option (option string);
  status : option string;
  messagesCount : option Z;
  lastMessageAt : option (option Z)
}.
End PartialConversation.

Module InsertMessage.
Record t := mk {
  conversationId : Z;
  content : string;
  sender : string;
  confidence : option Q;
  responseTime : option Z;
  templateId : option Z
}.
End InsertMessage.

Module PartialTemplate.
Record t := mk {
  name : option string;
  category : option string;
  content : option string;
  variables : option (option (list string));
  isActive : option bool;
  usageCount : option Z
}.
End PartialTemplate.

Module InsertLog.
Record t := mk {
  level : string;
  message : string;
  details : option (list (string * JsVal));
  source : string
}.
End InsertLog.

Module PartialBotConfig.
Record t := mk {
  name : option string;
  language : option string;
  tone : option string;
  confidenceThreshold : option Z;
  maxResponseTime : option Z;
  fallbackMessage : option string;
  autoTraining : option bool
}.
End PartialBotConfig.

Module InsertTemplate.
Record t := mk {
  name : string;
  category : string;
  content : string;
  variables : option (list string);
  isActive : option bool;
  usageCount : option Z
}.
End InsertTemplate.

Module InsertMlModel.
Record t := mk {
  name : string;
  version : string;
  accuracy : option Z;
  trainingData : option (list (string * string));
  status : option string;
  lastTrainedAt : option Z
}.
End InsertMlModel.

Module PartialMlModel.
Record t := mk {
  name : option string;
  version : option string;
  accuracy : option Z;
  trainingData : option (option (list (string * string)));
  status : option string;
  lastTrainedAt : option (option Z)
}.
End PartialMlModel.

(** ** JavaScript [Map<number, V>]: entries in insertion order *)

Module JsMap.

Definition t (V : Type) : Type := list (Z * V).

Fixpoint get {V} (k : Z) (m : t V) : option V :=
  match m with
  | [] => None
  | (k', v) :: m' => if k' =? k then Some v else get k m'
  end.

(** [set] overwrites in place when the key exists and appends otherwise. *)
Fixpoint set {V} (k : Z) (v : V) (m : t V) : t V :=
  match m with
  | [] => [(k, v)]
  | (k', v') :: m' => if k' =? k then (k, v) :: m' else (k', v') :: set k v m'
  end.

Fixpoint delete {V} (k : Z) (m : t V) : t V :=
  match m with
  | [] => []
  | (k', v') :: m' => if k' =? k then m' else (k', v') :: delete k m'
  end.

(** [Array.from(map.values())] *)
Definition values {V} (m : t V) : list V := List.map snd m.

Definition keys {V} (m : t V) : list Z := List.map fst m.

End JsMap.

Arguments JsMap.values {V} m : simpl never.

(** ** The process state and the monad of [async] code *)

(** What a rejected promise or a [throw] carries: an [Error] with a message. *)
Inductive exn := Error (message : string).

Definition errorMessage (e : exn) : string :=
  match e with Error m => m end.

Inductive Outcome (A : Type) :=
| Ok (a : A)
| Throw (e : exn).
Arguments Ok {A} a.
Arguments Throw {A} e.

(** The methods of [IStorage] that the modelled code calls. *)
Inductive StorageOp :=
| GetBotConfig | GetAllPlatforms | GetPlatformByName | CreatePlatform | UpdatePlatform
| GetAllConversations | CreateConversation | UpdateConversation
| CreateMessage | GetRecentMessages
| GetAllTemplates | UpdateTemplate
| GetCurrentMlModel | CreateLog
| UpdateBotConfig | GetPlatform | GetConversation | GetMessagesByConversation
| GetTemplate | CreateTemplate | DeleteTemplate
| CreateMlModel | UpdateMlModel | GetLogs.

(** The result of one [fetch] to a platform API. *)
Inductive FetchOutcome :=
| FetchOk
| FetchNotOk (statusText : string)
| FetchThrows (message : string).

Inductive ConsoleLevel := ConsoleLog | ConsoleWarn | ConsoleError.

(** A [POST] request: the URL, the headers and the fields of the JSON
    body. *)
Record HttpRequest := mkHttpRequest {
  url : string;
  headers : list (string * string);
  body : list (string * JsVal)
}.

(** A request whose only header is the content type. *)
Definition mkRequest (url : string) (body : list (string * JsVal)) : HttpRequest :=
  mkHttpRequest url [("Content-Type", "application/json")] body.

(** The push channel ([WebSocketMessage], websocket.ts). *)
Inductive MessageType :=
| stats_update | new_message | platform_status | ml_update | log_update.

Module Stats.
Record t := mk {
  totalMessages : Z;
  activeUsers : Z;
  responseRate : Z;
  avgResponseTime : Z;
  todayMessages : Z;
  mlAccuracy : Z;
  activePlatforms : Z
}.
End Stats.

Inductive WsData :=
| DataStats (stats : Stats.t)
| DataPlatforms (platforms : list Platform.t)
| DataMessages (messages : list Message.t)
| DataModel (model : option MlModel.t)
| DataLog (log : Log.t).

Record WebSocketMessage := mkWsMessage {
  type : MessageType;
  data : WsData
}.

Inductive ReadyState := CONNECTING | OPEN | CLOSING | CLOSED.

(** Who sent a frame: the snapshot routine of a new connection or a
    broadcast.  The tag is bookkeeping of the model; the wire carries the
    message only. *)
Inductive Origin := FromSnapshot | FromBroadcast.

(** A [WebSocket] object with the frames sent through it, oldest first. *)
Record Socket := mkSocket {
  readyState : ReadyState;
  frames : list (Origin * WebSocketMessage)
}.

(** The [WebSocketManager]: its [clients] set in insertion order and the
    sockets it has been handed, by handle. *)
Record WsState := mkWsState {
  clients : list nat;
  sockets : gmap nat Socket
}.

Module MemStorage.
Record t := mk {
  platforms : JsMap.t Platform.t;
  conversations : JsMap.t Conversation.t;
  messages : JsMap.t Message.t;
  templates : JsMap.t Template.t;
  mlModels : JsMap.t MlModel.t;
  logs : JsMap.t Log.t;
  botConfigs : JsMap.t BotConfig.t;
  currentId : Z
}.
End MemStorage.

(** The state of the process and of its surroundings.  [ticks] counts the
    interactions with the outside so far (storage calls, clock reads, HTTP
    calls); the three oracles say, for the interaction at a given tick, whether
    a storage call rejects and with which message, what the clock shows and
    how a [fetch] ends.  [calls] lists the storage methods invoked, oldest
    first. *)
Record World := mkWorld {
  storage : MemStorage.t;
  ticks : nat;
  rejects : StorageOp -> nat -> option string;
  clock : nat -> Z;
  fetches : nat -> FetchOutcome;
  console : list (ConsoleLevel * string);
  requests : list HttpRequest;
  calls : list StorageOp;
  wss : WsState
}.

Definition M (A : Type) : Type := World -> Outcome A * World.

Global Instance M_ret : MRet M := fun A a w => (Ok a, w).

Global Instance M_bind : MBind M := fun A B k m w =>
  match m w with
  | (Ok a, w') => k a w'
  | (Throw e, w') => (Throw e, w')
  end.

Definition throw {A} (e : exn) : M A := fun w => (Throw e, w).

(** [try { body } catch (error) { handler }] *)
Definition try_catch {A} (body : M A) (handler : exn -> M A) : M A := fun w =>
  match body w with
  | (Ok a, w') => (Ok a, w')
  | (Throw e, w') => handler e w'
  end.

Definition tick (w : World) : World :=
  mkWorld (storage w) (S (ticks w)) (rejects w) (clock w) (fetches w)
          (console w) (requests w) (calls w) (wss w).

Definition withStorage (s : MemStorage.t) (w : World) : World :=
  mkWorld s (ticks w) (rejects w) (clock w) (fetches w)
          (console w) (requests w) (calls w) (wss w).

(** [Date.now()] and [new Date()] *)
Definition dateNow : M Z := fun w => (Ok (clock w (ticks w)), tick w).

Definition consoleWrite (l : ConsoleLevel) (text : string) : M unit := fun w =>
  (Ok tt,
   mkWorld (storage w) (ticks w) (rejects w) (clock w) (fetches w)
           (console w ++ [(l, text)]) (requests w) (calls w) (wss w)).

(** [await fetch(url, {method: 'POST', body})]: the request goes out, and the
    promise resolves to a response or rejects. *)
Definition fetch (r : HttpRequest) : M FetchOutcome := fun w =>
  let w' := mkWorld (storage w) (S (ticks w)) (rejects w) (clock w) (fetches w)
                    (console w) (requests w ++ [r]) (calls w) (wss w) in
  match fetches w (ticks w) with
  | FetchThrows m => (Throw (Error m), w')
  | o => (Ok o, w')
  end.

(** The state once a storage method has been entered. *)
Definition called (op : StorageOp) (w : World) : World :=
  mkWorld (storage w) (S (ticks w)) (rejects w) (clock w) (fetches w)
          (console w) (requests w) (calls w ++ [op]) (wss w).

(** [await storage.op(...)]: the call is recorded; it rejects when the store
    is unavailable at this moment and runs the method otherwise. *)
Definition await (op : StorageOp) {A} (method : M A) : M A := fun w =>
  match rejects w op (ticks w) with
  | Some m => (Throw (Error m), called op w)
  | None => method (called op w)
  end.

Definition withWss (x : WsState) (w : World) : World :=
  mkWorld (storage w) (ticks w) (rejects w) (clock w) (fetches w)
          (console w) (requests w) (calls w) x.

Definition getStorage : M MemStorage.t := fun w => (Ok (storage w), w).

Definition putStorage (s : MemStorage.t) : M unit := fun w => (Ok tt, withStorage s w).

(** ** The in-memory record store ([MemStorage]) *)

Module Storage.

Import MemStorage.

Definition setPlatforms (v : JsMap.t Platform.t) (s : t) : t :=
  mk v (conversations s) (messages s) (templates s) (mlModels s) (logs s)
     (botConfigs s) (currentId s).

Definition setConversations (v : JsMap.t Conversation.t) (s : t) : t :=
  mk (platforms s) v (messages s) (templates s) (mlModels s) (logs s)
     (botConfigs s) (currentId s).

Definition setMessages (v : JsMap.t Message.t) (s : t) : t :=
  mk (platforms s) (conversations s) v (templates s) (mlModels s) (logs s)
     (botConfigs s) (currentId s).

Definition setTemplates (v : JsMap.t Template.t) (s : t) : t :=
  mk (platforms s) (conversations s) (messages s) v (mlModels s) (logs s)
     (botConfigs s) (currentId s).

Definition setLogs (v : JsMap.t Log.t) (s : t) : t :=
  mk (platforms s) (conversations s) (messages s) (templates s) (mlModels s) v
     (botConfigs s) (currentId s).

Definition setCurrentId (v : Z) (s : t) : t :=
  mk (platforms s) (conversations s) (messages s) (templates s) (mlModels s) (logs s)
     (botConfigs s) v.

(** [this.currentId++] *)
Definition nextId : M Z :=
  s ← getStorage;
  putStorage (setCurrentId (currentId s + 1) s);;
  mret (currentId s).

Definition getBotConfig : M (option BotConfig.t) :=
  await GetBotConfig (s ← getStorage; mret (JsMap.get 1 (botConfigs s))).

Definition getAllPlatforms : M (list Platform.t) :=
  await GetAllPlatforms (s ← getStorage; mret (JsMap.values (platforms s))).

Definition getPlatformByName (name : string) : M (option Platform.t) :=
  await GetPlatformByName
    (s ← getStorage;
     mret (List.find (fun p => String.eqb (Platform.name p) name)
                     (JsMap.values (platforms s)))).

Definition createPlatform (insertPlatform : InsertPlatform.t) : M Platform.t :=
  await CreatePlatform
    (id ← nextId;
     createdAt ← dateNow;
     updatedAt ← dateNow;
     let platform :=
       Platform.mk id
         (InsertPlatform.name insertPlatform)
         (Js.orString (InsertPlatform.status insertPlatform) "inactive")
         (Js.orNullString (InsertPlatform.apiKey insertPlatform))
         (Js.orNullString (InsertPlatform.webhookUrl insertPlatform))
         (InsertPlatform.config insertPlatform)
         0 None createdAt updatedAt in
     s ← getStorage;
     putStorage (setPlatforms (JsMap.set id platform (platforms s)) s);;
     mret platform).

(** [{ ...existing, ...platformUpdate, updatedAt }] *)
Definition mergePlatform (existing : Platform.t) (u : PartialPlatform.t) (updatedAt : Z)
  : Platform.t :=
  Platform.mk (Platform.id existing)
    (default (Platform.name existing) (PartialPlatform.name u))
    (default (Platform.status existing) (PartialPlatform.status u))
    (default (Platform.apiKey existing) (PartialPlatform.apiKey u))
    (default (Platform.webhookUrl existing) (PartialPlatform.webhookUrl u))
    (default (Platform.config existing) (PartialPlatform.config u))
    (default (Platform.messagesCount existing) (PartialPlatform.messagesCount u))
    (default (Platform.lastMessageAt existing) (PartialPlatform.lastMessageAt u))
    (Platform.createdAt existing)
    updatedAt.

Definition updatePlatform (id : Z) (platformUpdate : PartialPlatform.t) : M Platform.t :=
  await UpdatePlatform
    (s ← getStorage;
     match JsMap.get id (platforms s) with
     | None => throw (Error "Platform not found")
     | Some existing =>
         updatedAt ← dateNow;
         let updated := mergePlatform existing platformUpdate updatedAt in
         s ← getStorage;
         putStorage (setPlatforms (JsMap.set id updated (platforms s)) s);;
         mret updated
     end).

Definition getAllConversations : M (list Conversation.t) :=
  await GetAllConversations (s ← getStorage; mret (JsMap.values (conversations s))).

Definition createConversation (insertConversation : InsertConversation.t)
  : M Conversation.t :=
  await CreateConversation
    (id ← nextId;
     createdAt ← dateNow;
     updatedAt ← dateNow;
     let conversation :=
       Conversation.mk id
         (InsertConversation.platformId insertConversation)
         (InsertConversation.userId insertConversation)
         (Js.orNullString (InsertConversation.userName insertConversation))
         (Js.orString (InsertConversation.status insertConversation) "active")
         0 None createdAt updatedAt in
     s ← getStorage;
     putStorage (setConversations (JsMap.set id conversation (conversations s)) s);;
     mret conversation).

Definition mergeConversation (existing : Conversation.t) (u : PartialConversation.t)
    (updatedAt : Z) : Conversation.t :=
  Conversation.mk (Conversation.id existing)
    (default (Conversation.platformId existing) (PartialConversation.platformId u))
    (default (Conversation.userId existing) (PartialConversation.userId u))
    (default (Conversation.userName existing) (PartialConversation.userName u))
    (default (Conversation.status existing) (PartialConversation.status u))
    (default (Conversation.messagesCount existing) (PartialConversation.messagesCount u))
    (default (Conversation.lastMessageAt existing) (PartialConversation.lastMessageAt u))
    (Conversation.createdAt existing)
    updatedAt.

Definition updateConversation (id : Z) (conversationUpdate : PartialConversation.t)
  : M Conversation.t :=
  await UpdateConversation
    (s ← getStorage;
     match JsMap.get id (conversations s) with
     | None => throw (Error "Conversation not found")
     | Some existing =>
         updatedAt ← dateNow;
         let updated := mergeConversation existing conversationUpdate updatedAt in
         s ← getStorage;
         putStorage (setConversations (JsMap.set id updated (conversations s)) s);;
         mret updated
     end).

Definition createMessage (insertMessage : InsertMessage.t) : M Message.t :=
  await CreateMessage
    (id ← nextId;
     sentAt ← dateNow;
     let message :=
       Message.mk id
         (InsertMessage.conversationId insertMessage)
         (InsertMessage.content insertMessage)
         (InsertMessage.sender insertMessage)
         (Js.orNullNum (InsertMessage.confidence insertMessage))
         (Js.orNullInt (InsertMessage.responseTime insertMessage))
         (Js.orNullInt (InsertMessage.templateId insertMessage))
         sentAt in
     s ← getStorage;
     putStorage (setMessages (JsMap.set id message (messages s)) s);;
     mret message).

(** [sort((a, b) => b.sentAt - a.sentAt)]: a stable sort, newest first. *)
Fixpoint insertBySentAt (x : Message.t) (sorted : list Message.t) : list Message.t :=
  match sorted with
  | [] => [x]
  | e :: r =>
      if Message.sentAt e <=? Message.sentAt x then x :: e :: r
      else e :: insertBySentAt x r
  end.

Definition sortBySentAtDesc (l : list Message.t) : list Message.t :=
  List.fold_right insertBySentAt [] l.

Definition getRecentMessages (limit : nat) : M (list Message.t) :=
  await GetRecentMessages
    (s ← getStorage;
     mret (Js.slice0 limit (sortBySentAtDesc (JsMap.values (messages s))))).

Definition getAllTemplates : M (list Template.t) :=
  await GetAllTemplates (s ← getStorage; mret (JsMap.values (templates s))).

(** [{ ...existing, ...templateUpdate, variables: Array.isArray(...) ? ... , updatedAt }] *)
Definition mergeTemplate (existing : Template.t) (u : PartialTemplate.t) (updatedAt : Z)
  : Template.t :=
  Template.mk (Template.id existing)
    (default (Template.name existing) (PartialTemplate.name u))
    (default (Template.category existing) (PartialTemplate.category u))
    (default (Template.content existing) (PartialTemplate.content u))
    (match PartialTemplate.variables u with
     | Some (Some vs) => Some vs
     | _ => Template.variables existing
     end)
    (default (Template.isActive existing) (PartialTemplate.isActive u))
    (default (Template.usageCount existing) (PartialTemplate.usageCount u))
    (Template.createdAt existing)
    updatedAt.

Definition updateTemplate (id : Z) (templateUpdate : PartialTemplate.t) : M Template.t :=
  await UpdateTemplate
    (s ← getStorage;
     match JsMap.get id (templates s) with
     | None => throw (Error "Template not found")
     | Some existing =>
         updatedAt ← dateNow;
         let updated := mergeTemplate existing templateUpdate updatedAt in
         s ← getStorage;
         putStorage (setTemplates (JsMap.set id updated (templates s)) s);;
         mret updated
     end).

Definition getCurrentMlModel : M (option MlModel.t) :=
  await GetCurrentMlModel
    (s ← getStorage;
     mret (List.find (fun m => String.eqb (MlModel.status m) "ready")
                     (JsMap.values (mlModels s)))).

Definition createLog (insertLog : InsertLog.t) : M Log.t :=
  await CreateLog
    (id ← nextId;
     createdAt ← dateNow;
     let log :=
       Log.mk id
         (InsertLog.level insertLog)
         (InsertLog.message insertLog)
         (InsertLog.details insertLog)
         (InsertLog.source insertLog)
         createdAt in
     s ← getStorage;
     putStorage (setLogs (JsMap.set id log (logs s)) s);;
     mret log).

(** The remaining methods of [MemStorage]. *)

Definition setMlModels (v : JsMap.t MlModel.t) (s : t) : t :=
  mk (platforms s) (conversations s) (messages s) (templates s) v (logs s)
     (botConfigs s) (currentId s).

Definition setBotConfigs (v : JsMap.t BotConfig.t) (s : t) : t :=
  mk (platforms s) (conversations s) (messages s) (templates s) (mlModels s) (logs s)
     v (currentId s).

(** [{ ...existing, ...config, updatedAt }] *)
Definition mergeBotConfig (existing : BotConfig.t) (u : PartialBotConfig.t) (updatedAt : Z)
  : BotConfig.t :=
  BotConfig.mk (BotConfig.id existing)
    (default (BotConfig.name existing) (PartialBotConfig.name u))
    (default (BotConfig.language existing) (PartialBotConfig.language u))
    (default (BotConfig.tone existing) (PartialBotConfig.tone u))
    (default (BotConfig.confidenceThreshold existing)
             (PartialBotConfig.confidenceThreshold u))
    (default (BotConfig.maxResponseTime existing) (PartialBotConfig.maxResponseTime u))
    (default (BotConfig.fallbackMessage existing) (PartialBotConfig.fallbackMessage u))
    (default (BotConfig.autoTraining existing) (PartialBotConfig.autoTraining u))
    (BotConfig.createdAt existing)
    updatedAt.

Definition updateBotConfig (config : PartialBotConfig.t) : M BotConfig.t :=
  await UpdateBotConfig
    (s ← getStorage;
     match JsMap.get 1 (botConfigs s) with
     | None => throw (Error "Bot config not found")
     | Some existing =>
         updatedAt ← dateNow;
         let updated := mergeBotConfig existing config updatedAt in
         s ← getStorage;
         putStorage (setBotConfigs (JsMap.set 1 updated (botConfigs s)) s);;
         mret updated
     end).

Definition getPlatform (id : Z) : M (option Platform.t) :=
  await GetPlatform (s ← getStorage; mret (JsMap.get id (platforms s))).

Definition getConversation (id : Z) : M (option Conversation.t) :=
  await GetConversation (s ← getStorage; mret (JsMap.get id (conversations s))).

Definition getMessagesByConversation (conversationId : Z) : M (list Message.t) :=
  await GetMessagesByConversation
    (s ← getStorage;
     mret (List.filter (fun m => Message.conversationId m =? conversationId)
                       (JsMap.values (messages s)))).

Definition getTemplate (id : Z) : M (option Template.t) :=
  await GetTemplate (s ← getStorage; mret (JsMap.get id (templates s))).

Definition createTemplate (insertTemplate : InsertTemplate.t) : M Template.t :=
  await CreateTemplate
    (id ← nextId;
     createdAt ← dateNow;
     updatedAt ← dateNow;
     let template :=
       Template.mk id
         (InsertTemplate.name insertTemplate)
         (InsertTemplate.category insertTemplate)
         (InsertTemplate.content insertTemplate)
         (InsertTemplate.variables insertTemplate)
         (default true (InsertTemplate.isActive insertTemplate))
         0 createdAt updatedAt in
     s ← getStorage;
     putStorage (setTemplates (JsMap.set id template (templates s)) s);;
     mret template).

Definition deleteTemplate (id : Z) : M unit :=
  await DeleteTemplate
    (s ← getStorage;
     putStorage (setTemplates (JsMap.delete id (templates s)) s)).

Definition createMlModel (insertMlModel : InsertMlModel.t) : M MlModel.t :=
  await CreateMlModel
    (id ← nextId;
     createdAt ← dateNow;
     let model :=
       MlModel.mk id
         (InsertMlModel.name insertMlModel)
         (InsertMlModel.version insertMlModel)
         (default 0 (Js.orNullInt (InsertMlModel.accuracy insertMlModel)))
         (InsertMlModel.trainingData insertMlModel)
         (Js.orString (InsertMlModel.status insertMlModel) "training")
         (InsertMlModel.lastTrainedAt insertMlModel)
         createdAt in
     s ← getStorage;
     putStorage (setMlModels (JsMap.set id model (mlModels s)) s);;
     mret model).

(** [{ ...existing, ...modelUpdate }] *)
Definition mergeMlModel (existing : MlModel.t) (u : PartialMlModel.t) : MlModel.t :=
  MlModel.mk (MlModel.id existing)
    (default (MlModel.name existing) (PartialMlModel.name u))
    (default (MlModel.version existing) (PartialMlModel.version u))
    (default (MlModel.accuracy existing) (PartialMlModel.accuracy u))
    (default (MlModel.trainingData existing) (PartialMlModel.trainingData u))
    (default (MlModel.status existing) (PartialMlModel.status u))
    (default (MlModel.lastTrainedAt existing) (PartialMlModel.lastTrainedAt u))
    (MlModel.createdAt existing).

Definition updateMlModel (id : Z) (modelUpdate : PartialMlModel.t) : M MlModel.t :=
  await UpdateMlModel
    (s ← getStorage;
     match JsMap.get id (mlModels s) with
     | None => throw (Error "ML Model not found")
     | Some existing =>
         let updated := mergeMlModel existing modelUpdate in
         putStorage (setMlModels (JsMap.set id updated (mlModels s)) s);;
         mret updated
     end).

(** [sort((a, b) => b.createdAt - a.createdAt)]: a stable sort, newest first. *)
Fixpoint insertByCreatedAt (x : Log.t) (sorted : list Log.t) : list Log.t :=
  match sorted with
  | [] => [x]
  | e :: r =>
      if Log.createdAt e <=? Log.createdAt x then x :: e :: r
      else e :: insertByCreatedAt x r
  end.

Definition getLogs (limit : nat) : M (list Log.t) :=
  await GetLogs
    (s ← getStorage;
     mret (Js.slice0 limit
             (List.fold_right insertByCreatedAt [] (JsMap.values (logs s))))).

End Storage.

(** [a < b] on numbers *)
Definition ltNum (a b : Q) : bool := negb (Qle_bool b a).

(** What a response generator returns. *)
Module BotResponse.
Record t := mk {
  response : string;
  confidence : Q;
  templateId : option Z
}.
End BotResponse.

(** [a > b] on numbers *)
Definition gtNum (a b : Q) : bool := ltNum b a.

Module TrainingData.
Record t := mk {
  text : string;
  intent : string;
  response : option string
}.
End TrainingData.

(** What [trainFromConversations] returns. *)
Module TrainResult.
Record t := mk {
  accuracy : Q;
  samples : Z
}.
End TrainResult.

(** [SimpleNLPProcessor.trainClassifier]: it only prints the number of
    examples. *)
Definition trainClassifier (examples : list (string * string)) : M unit :=
  consoleWrite ConsoleLog
    ("Training with " ++ pretty (Z.of_nat (List.length examples)) ++ " examples").

(** [Math.round] *)
Definition mathRoundQ (q : Q) : Z := Qfloor (q + (1 # 2))%Q.

(** ** Reading a property of a plain object

    [entities[variable]] on an object made by an object literal finds an own
    property or, failing that, what the object inherits from
    [Object.prototype]. *)

Module JsObject.

(** The functions of [Object.prototype] (ECMA-262, 20.1.3 and B.2.2). *)
Inductive Method :=
| Constructor | HasOwnProperty | IsPrototypeOf | PropertyIsEnumerable
| ToLocaleString | ToString | ValueOf
| DefineGetter | DefineSetter | LookupGetter | LookupSetter.

Definition methods : list (string * Method) :=
  [ ("constructor", Constructor); ("hasOwnProperty", HasOwnProperty);
    ("isPrototypeOf", IsPrototypeOf); ("propertyIsEnumerable", PropertyIsEnumerable);
    ("toLocaleString", ToLocaleString); ("toString", ToString); ("valueOf", ValueOf);
    ("__defineGetter__", DefineGetter); ("__defineSetter__", DefineSetter);
    ("__lookupGetter__", LookupGetter); ("__lookupSetter__", LookupSetter) ].

(** A value read from an object whose own properties are strings. *)
Inductive Value :=
| Text (s : string)      (* an own property *)
| Inherited (m : Method) (* a function of [Object.prototype] *)
| Prototype.             (* [__proto__]: the object [Object.prototype] *)

(** [Object.prototype[key]]; [None] is [undefined]. *)
Definition inherited (key : string) : option Value :=
  if String.eqb key "__proto__" then Some Prototype
  else option_map (fun entry => Inherited (snd entry))
                  (List.find (fun entry => String.eqb (fst entry) key) methods).

(** [o[key]] *)
Definition get (o : gmap string string) (key : string) : option Value :=
  match o !! key with
  | Some s => Some (Text s)
  | None => inherited key
  end.

(** Truthiness of what was read: a function and an object are truthy. *)
Definition truthy (v : Value) : bool :=
  match v with
  | Text s => Js.truthyString s
  | Inherited _ | Prototype => true
  end.

(** The [TypeError] of a method that needs an object as its [this]; the
    wording is the engine's (V8's here), the language fixes the kind of
    error only. *)
Definition typeError (m : Method) : exn :=
  match m with
  | ToLocaleString =>
      Error "Object.prototype.toLocaleString called on null or undefined"
  | _ => Error "Cannot convert undefined or null to object"
  end.

(** [ToString(Call(m, undefined, «matched, position, string»))]: what
    [String.prototype.replace] obtains from a function given as its second
    argument.  [Object(matched)] is a String object whose string is
    [matched]; [toString] names the class of [undefined]; [isPrototypeOf]
    answers [false] for an argument that is no object before it looks at
    [this]; the other methods convert [this] to an object first and
    throw. *)
Definition callOnUndefined (m : Method) (matched : string) : Outcome string :=
  match m with
  | Constructor => Ok matched
  | ToString => Ok "[object Undefined]"
  | IsPrototypeOf => Ok "false"
  | _ => Throw (typeError m)
  end.

(** [s.replace(pat, v)] with a string pattern.  A replacement that is no
    function is converted to a string ([Object.prototype] to
    ["[object Object]"]) and goes through [GetSubstitution]; a function is
    called when the pattern occurs, and only then, and its result is
    inserted as it is. *)
Definition replace (s pat : string) (v : Value) : Outcome string :=
  match v with
  | Text repl => Ok (Js.replace s pat repl)
  | Prototype => Ok (Js.replace s pat "[object Object]")
  | Inherited m =>
      match Js.splitAtFirst pat s with
      | None => Ok s
      | Some (before, after) =>
          match callOnUndefined m pat with
          | Ok r => Ok (before ++ r ++ after)
          | Throw e => Throw e
          end
      end
  end.

End JsObject.

(** ** The template-backed response selector ([MLTrainer], trainer.ts) *)

Module MLTrainer.

(** The predicate of [templates.find]. *)
Definition matchesIntent (intent : string) (t : Template.t) : bool :=
  Js.includes (Js.toLowerCase (Template.category t)) intent
  || Js.includes (Js.toLowerCase (Template.name t)) intent.

(** One turn of the loop over the declared variables. *)
Definition substituteVariable (entities : gmap string string)
    (response variable : string) : Outcome string :=
  match JsObject.get entities variable with
  | Some entityValue =>
      if JsObject.truthy entityValue
      then JsObject.replace response ("{" ++ variable ++ "}") entityValue
      else Ok response
  | None => Ok response
  end.

(** The loop: it ends at the first turn that throws. *)
Fixpoint substituteEach (entities : gmap string string) (variables : list string)
    (response : string) : Outcome string :=
  match variables with
  | [] => Ok response
  | variable :: rest =>
      match substituteVariable entities response variable with
      | Ok response' => substituteEach entities rest response'
      | Throw e => Throw e
      end
  end.

(** The substitution step: the template content with the declared variables
    replaced, in the order of their declaration. *)
Definition substituteVariables (t : Template.t) (entities : gmap string string)
  : Outcome string :=
  match Template.variables t with
  | Some variables => substituteEach entities variables (Template.content t)
  | None => Ok (Template.content t)
  end.

Definition intentResponses : list (string * string) :=
  [ ("greeting", "Hello! How can I help you today?");
    ("farewell", "Thank you for contacting us. Have a great day!");
    ("help", "I'm here to help. What do you need assistance with?");
    ("order_inquiry",
     "I can help you with your order. Could you please provide your order number?");
    ("pricing",
     "I'd be happy to provide pricing information. What product are you interested in?");
    ("product_info", "What would you like to know about our products?");
    ("complaint",
     "I apologize for any inconvenience. Let me help resolve this issue for you.");
    ("gratitude", "You're welcome! Is there anything else I can help you with?");
    ("cancel_request",
     "I understand you'd like to cancel. Let me help you with that process.");
    ("delivery_inquiry",
     "I can check on your delivery status. Please provide your order number.") ].

(** [intentResponses[intent]] for a label that is a key of the table or the
    name of no property at all; the seven labels of the classifier are
    such. *)
Definition lookupIntent (intent : string) : option string :=
  option_map snd (List.find (fun kv => String.eqb (fst kv) intent) intentResponses).

Definition usageUpdate (n : Z) : PartialTemplate.t :=
  PartialTemplate.mk None None None None None (Some n).

(** The body of [generateResponse] after the classifier has run. *)
Definition respond (processed : ProcessedMessage.t) : M BotResponse.t :=
  botConfig ← Storage.getBotConfig;
  match botConfig with
  | None => throw (Error "Bot configuration not found")
  | Some botConfig =>
      if ltNum (ProcessedMessage.confidence processed)
               (inject_Z (BotConfig.confidenceThreshold botConfig))
      then mret (BotResponse.mk (BotConfig.fallbackMessage botConfig)
                                (ProcessedMessage.confidence processed) None)
      else
        templates ← Storage.getAllTemplates;
        match List.find (matchesIntent (ProcessedMessage.intent processed)) templates with
        | Some matchingTemplate =>
            match substituteVariables matchingTemplate
                    (ProcessedMessage.entities processed) with
            | Throw error => throw error
            | Ok response =>
                Storage.updateTemplate (Template.id matchingTemplate)
                  (usageUpdate (Template.usageCount matchingTemplate + 1));;
                mret (BotResponse.mk response (ProcessedMessage.confidence processed)
                                     (Some (Template.id matchingTemplate)))
            end
        | None =>
            let response :=
              Js.orString (lookupIntent (ProcessedMessage.intent processed))
                          (BotConfig.fallbackMessage botConfig) in
            mret (BotResponse.mk response (ProcessedMessage.confidence processed) None)
        end
  end.

Definition generateResponse (message : string) (platformId : Z) : M BotResponse.t :=
  respond (SimpleNLPProcessor.processMessage message).

(** The entries of [responseIntentMap], in the order [Object.entries] lists
    them. *)
Definition responseIntentMap : list (string * string) :=
  [ ("hello", "greeting"); ("hi", "greeting"); ("welcome", "greeting");
    ("goodbye", "farewell"); ("bye", "farewell");
    ("help", "help"); ("assist", "help"); ("support", "help");
    ("order", "order_inquiry"); ("tracking", "order_inquiry");
    ("price", "pricing"); ("cost", "pricing");
    ("product", "product_info"); ("information", "product_info");
    ("sorry", "complaint"); ("apologize", "complaint");
    ("thank", "gratitude");
    ("cancel", "cancel_request"); ("refund", "cancel_request");
    ("delivery", "delivery_inquiry"); ("shipping", "delivery_inquiry") ].

Definition inferIntentFromResponse (response : string) : option string :=
  let lowerResponse := Js.toLowerCase response in
  option_map snd
    (List.find (fun entry => Js.includes lowerResponse (fst entry)) responseIntentMap).

(** [Math.min(50, Math.floor(trainingData.length * 0.2))] *)
Definition testSize (trainingData : list TrainingData.t) : nat :=
  Z.to_nat (Z.min 50 (Qfloor (inject_Z (Z.of_nat (List.length trainingData)) * (2 # 10))%Q)).

Definition calculateAccuracy (trainingData : list TrainingData.t) : Q :=
  match trainingData with
  | [] => 0
  | _ =>
      let correct :=
        List.length
          (List.filter
             (fun sample =>
                let processed := SimpleNLPProcessor.processMessage (TrainingData.text sample) in
                String.eqb (ProcessedMessage.intent processed) (TrainingData.intent sample)
                && gtNum (ProcessedMessage.confidence processed) 70)
             (firstn (testSize trainingData) trainingData)) in
      if Nat.ltb 0 (testSize trainingData)
      then (inject_Z (Z.of_nat correct) / inject_Z (Z.of_nat (testSize trainingData)))%Q
      else 0
  end.

(** The inner loop of [trainFromConversations]: the adjacent pairs of a user
    message and the bot message after it, with the intent inferred from the
    bot's text. *)
Fixpoint trainingPairs (messages : list Message.t) : list TrainingData.t :=
  match messages with
  | [] => []
  | userMessage :: rest =>
      match rest with
      | [] => []
      | botMessage :: _ =>
          (if String.eqb (Message.sender userMessage) "user"
              && String.eqb (Message.sender botMessage) "bot"
           then match inferIntentFromResponse (Message.content botMessage) with
                | Some intent =>
                    if Js.truthyString intent
                    then [TrainingData.mk (Message.content userMessage) intent
                            (Some (Message.content botMessage))]
                    else []
                | None => []
                end
           else [])
          ++ trainingPairs rest
      end
  end.

(** The outer loop: one [getMessagesByConversation] per conversation. *)
Fixpoint collectTrainingData (conversations : list Conversation.t)
    (trainingData : list TrainingData.t) : M (list TrainingData.t) :=
  match conversations with
  | [] => mret trainingData
  | conversation :: rest =>
      messages ← Storage.getMessagesByConversation (Conversation.id conversation);
      collectTrainingData rest (trainingData ++ trainingPairs messages)
  end.

Definition trainFromConversations : M TrainResult.t :=
  try_catch
    (conversations ← Storage.getAllConversations;
     trainingData ← collectTrainingData conversations [];
     trainClassifier
       (List.map (fun d => (TrainingData.text d, TrainingData.intent d)) trainingData);;
     let accuracy := calculateAccuracy trainingData in
     currentModel ← Storage.getCurrentMlModel;
     match currentModel with
     | Some currentModel =>
         lastTrainedAt ← dateNow;
         Storage.updateMlModel (MlModel.id currentModel)
           (PartialMlModel.mk None None
              (Some (mathRoundQ (accuracy * 100)))
              (Some (Some (List.map (fun d => (TrainingData.text d, TrainingData.intent d))
                                    trainingData)))
              (Some "ready")
              (Some (Some lastTrainedAt)));;
         mret tt
     | None => mret tt
     end;;
     Storage.createLog
       (InsertLog.mk "info" "ML model training completed"
          (Some [("accuracy", JNum accuracy);
                 ("samples", JInt (Z.of_nat (List.length trainingData)))])
          "ml_trainer");;
     mret (TrainResult.mk (inject_Z (mathRoundQ (accuracy * 100)))
                          (Z.of_nat (List.length trainingData))))
    (fun error =>
       Storage.createLog
         (InsertLog.mk "error" "ML model training failed"
            (Some [("error", JStr (errorMessage error))]) "ml_trainer");;
       throw error).

End MLTrainer.

(** ** The canned response generator ([SimpleMLTrainer], simple-trainer.ts) *)

Module SimpleResponse.
Record t := mk {
  response : string;
  confidence : Q;
  intent : string
}.
End SimpleResponse.

Module SimpleMLTrainer.

(** The [switch] over the classified intent. *)
Definition cannedResponse (intent : string) : string :=
  if String.eqb intent "greeting" then "Hello! How can I help you today?"
  else if String.eqb intent "help_request"
  then "I'm here to help! What do you need assistance with?"
  else if String.eqb intent "gratitude"
  then "You're welcome! Is there anything else I can help you with?"
  else if String.eqb intent "farewell" then "Goodbye! Have a great day!"
  else if String.eqb intent "pricing_inquiry"
  then "I can help you with pricing information. What specific product or service are you interested in?"
  else if String.eqb intent "delivery_inquiry"
  then "I can provide delivery information. Could you please share your order details?"
  else "Thank you for your message. How can I assist you today?".

Definition generateResponse (message : string) (platformId : Z) : M SimpleResponse.t :=
  let processed := SimpleNLPProcessor.processMessage message in
  mret (SimpleResponse.mk (cannedResponse (ProcessedMessage.intent processed))
                          (ProcessedMessage.confidence processed)
                          (ProcessedMessage.intent processed)).

Definition simulatedTrainingData : list (string * string) :=
  [("hello", "greeting"); ("help me", "help_request");
   ("thank you", "gratitude"); ("goodbye", "farewell")].

Definition trainFromConversations : M TrainResult.t :=
  try_catch
    (trainClassifier simulatedTrainingData;;
     let accuracy := 85 # 100 in
     currentModel ← Storage.getCurrentMlModel;
     match currentModel with
     | Some currentModel =>
         lastTrainedAt ← dateNow;
         Storage.updateMlModel (MlModel.id currentModel)
           (PartialMlModel.mk None None (Some (mathRoundQ (accuracy * 100))) None
              (Some "ready") (Some (Some lastTrainedAt)));;
         mret tt
     | None =>
         lastTrainedAt ← dateNow;
         Storage.createMlModel
           (InsertMlModel.mk "Default Model" "1.0.0"
              (Some (mathRoundQ (accuracy * 100))) None (Some "ready")
              (Some lastTrainedAt));;
         mret tt
     end;;
     Storage.createLog
       (InsertLog.mk "info" "ML model training completed"
          (Some [("accuracy", JNum accuracy);
                 ("samples", JInt (Z.of_nat (List.length simulatedTrainingData)))])
          "ml_trainer");;
     mret (TrainResult.mk accuracy (Z.of_nat (List.length simulatedTrainingData))))
    (fun error =>
       Storage.createLog
         (InsertLog.mk "error" "Training failed"
            (Some [("error", JStr ("Error: " ++ errorMessage error))]) "ml_trainer");;
       throw error).

Definition cannedResponses : list string :=
  [ "Hello! How can I help you today?";
    "I'm here to help! What do you need assistance with?";
    "You're welcome! Is there anything else I can help you with?";
    "Goodbye! Have a great day!";
    "I can help you with pricing information. What specific product or service are you interested in?";
    "I can provide delivery information. Could you please share your order details?";
    "Thank you for your message. How can I assist you today?" ].

End SimpleMLTrainer.

(** ** The Telegram channel adapter ([TelegramHandler], platforms/telegram.ts) *)

Module Telegram.
Record User := mkUser {
  id : Z;
  first_name : option string;
  last_name : option string
}.
Record Chat := mkChat { chat_id : Z }.
(** The [message] object of an update. *)
Record Message := mkMessage {
  from : option User;
  chat : option Chat;
  text : option string
}.
(** The webhook body. *)
Record Update := mkUpdate { message : option Message }.
End Telegram.

Record HttpResponse := mkHttpResponse {
  statusCode : Z;
  sent : string
}.

Module TelegramHandler.

Section Handler.

(** [process.env.TELEGRAM_BOT_TOKEN || ''] *)
Variable botToken : string.

Definition typeError (property : string) : exn :=
  Error ("Cannot read properties of undefined (reading '" ++ property ++ "')").

Definition errorDetails (e : exn) : list (string * JsVal) :=
  [("error", JStr (errorMessage e))].

Definition sendMessage (chatId : Z) (message : string) : M unit :=
  if negb (Js.truthyString botToken) then
    consoleWrite ConsoleWarn "Telegram bot token not configured"
  else
    try_catch
      (response ← fetch (mkRequest
                           ("https://api.telegram.org/bot" ++ botToken ++ "/sendMessage")
                           [("chat_id", JInt chatId); ("text", JStr message)]);
       match response with
       | FetchNotOk statusText => throw (Error ("Telegram API error: " ++ statusText))
       | _ => mret tt
       end)
      (fun error =>
         Storage.createLog
           (InsertLog.mk "error" "Failed to send Telegram message"
              (Some (errorDetails error ++ [("chatId", JInt chatId)])%list)
              "telegram");;
         mret tt).

Definition userName (u : Telegram.User) : string :=
  Js.trim (default "undefined" (Telegram.first_name u) ++ " "
           ++ Js.orString (Telegram.last_name u) "").

(** The blocks of the [try] body of [processIncomingMessage], in the
    order of the source. *)

(** Get or create platform. *)
Definition resolvePlatform : M Platform.t :=
  found ← Storage.getPlatformByName "telegram";
  match found with
  | Some p => mret p
  | None =>
      Storage.createPlatform
        (InsertPlatform.mk "telegram" (Some "active") (Some botToken)
                           None (Some ∅))
  end.

(** Get or create conversation, once the stored ones have been read. *)
Definition resolveConversation (platform : Platform.t) (from : Telegram.User)
    (convs : list Conversation.t) : M Conversation.t :=
  match List.find
          (fun c => (Conversation.platformId c =? Platform.id platform)
                    && String.eqb (Conversation.userId c)
                                  (pretty (Telegram.id from)))
          convs with
  | Some c => mret c
  | None =>
      Storage.createConversation
        (InsertConversation.mk (Platform.id platform)
           (pretty (Telegram.id from)) (Some (userName from)) (Some "active"))
  end.

(** Store incoming message, generate bot response, store bot response.
    The value is the generated response with the measured response
    time. *)
Definition recordExchange (startTime : Z) (message : Telegram.Message)
    (platform : Platform.t) (conversation : Conversation.t)
  : M (SimpleResponse.t * Z) :=
  Storage.createMessage
    (InsertMessage.mk (Conversation.id conversation)
       (Js.orString (Telegram.text message) "[Media]") "user" None None None);;
  generated ← SimpleMLTrainer.generateResponse
                (Js.orString (Telegram.text message) "") (Platform.id platform);
  now ← dateNow;
  let responseTime := now - startTime in
  Storage.createMessage
    (InsertMessage.mk (Conversation.id conversation)
       (SimpleResponse.response generated) "bot"
       (Some (SimpleResponse.confidence generated)) (Some responseTime) None);;
  mret (generated, responseTime).

(** Update platform message count, update conversation, log the outcome. *)
Definition updateCounters (platform : Platform.t) (conversation : Conversation.t)
    (from : Telegram.User) (chat : Telegram.Chat)
    (confidence : Q) (responseTime : Z) : M unit :=
  lastMessageAt ← dateNow;
  Storage.updatePlatform (Platform.id platform)
    (PartialPlatform.mk None None None None None
       (Some (Platform.messagesCount platform + 1))
       (Some (Some lastMessageAt)));;
  lastMessageAt ← dateNow;
  Storage.updateConversation (Conversation.id conversation)
    (PartialConversation.mk None None None None
       (Some (Conversation.messagesCount conversation + 2))
       (Some (Some lastMessageAt)));;
  Storage.createLog
    (InsertLog.mk "info" "Telegram message processed successfully"
       (Some [("userId", JInt (Telegram.id from));
              ("confidence", JNum confidence);
              ("responseTime", JInt responseTime);
              ("chatId", JInt (Telegram.chat_id chat))])
       "telegram");;
  mret tt.

(** The body of the [try] block.  Reading [message.from.id] or
    [message.chat.id] of an absent object throws a [TypeError]; for [from]
    that happens while the conversation is looked up or, when no stored
    conversation belongs to the platform, while the arguments of
    [createConversation] are evaluated: in both cases after
    [getAllConversations] and before any further store call. *)
Definition pipeline (startTime : Z) (message : Telegram.Message) : M unit :=
  platform ← resolvePlatform;
  convs ← Storage.getAllConversations;
  match Telegram.from message with
  | None => throw (typeError "id")
  | Some from =>
      conversation ← resolveConversation platform from convs;
      exchange ← recordExchange startTime message platform conversation;
      match Telegram.chat message with
      | None => throw (typeError "id")
      | Some chat =>
          sendMessage (Telegram.chat_id chat)
                      (SimpleResponse.response (fst exchange));;
          updateCounters platform conversation from chat
            (SimpleResponse.confidence (fst exchange)) (snd exchange)
      end
  end.

Definition processIncomingMessage (message : Telegram.Message) : M unit :=
  startTime ← dateNow;
  try_catch
    (pipeline startTime message)
    (fun error =>
       Storage.createLog
         (InsertLog.mk "error" "Failed to process Telegram message"
            (Some (errorDetails error)) "telegram");;
       mret tt).

(** The webhook route.  The value is the response sent to the caller; a
    throw means that the handler rejected without answering. *)
Definition handleMessage (update : Telegram.Update) : M HttpResponse :=
  try_catch
    (match Telegram.message update with
     | Some message => processIncomingMessage message
     | None => mret tt
     end;;
     mret (mkHttpResponse 200 "OK"))
    (fun error =>
       consoleWrite ConsoleError "Telegram webhook error:";;
       Storage.createLog
         (InsertLog.mk "error" "Telegram webhook processing failed"
            (Some (errorDetails error)) "telegram");;
       mret (mkHttpResponse 500 "Internal Server Error")).

(** [setWebhook], called by the platform route for a Telegram platform with
    an API key.  The body of an accepted request is taken to be JSON; the
    parsed value is printed and returned, and is not represented here. *)
Definition setWebhook (webhookUrl : string) : M unit :=
  if negb (Js.truthyString botToken) then
    throw (Error "Telegram bot token not configured")
  else
    try_catch
      (response ← fetch (mkRequest
                           ("https://api.telegram.org/bot" ++ botToken ++ "/setWebhook")
                           [("url", JStr webhookUrl)]);
       match response with
       | FetchNotOk statusText =>
           throw (Error ("Failed to set Telegram webhook: " ++ statusText))
       | _ => consoleWrite ConsoleLog "Telegram webhook set:"
       end)
      (fun error =>
         Storage.createLog
           (InsertLog.mk "error" "Failed to set Telegram webhook"
              (Some (errorDetails error ++ [("webhookUrl", JStr webhookUrl)])%list)
              "telegram");;
         throw error).

End Handler.

End TelegramHandler.

(** ** Webhook verification

    The query of a verification request of the WhatsApp or the Messenger
    route; a parameter that is absent is
    [undefined].  Parameters given once, as strings, are covered. *)
Record VerifyQuery := mkVerifyQuery {
  hub_mode : option string;
  hub_verify_token : option string;
  hub_challenge : option string
}.

(** What the verification route sends: a status and the body handed to
    [send]. *)
Record VerifyResponse := mkVerifyResponse {
  verifyStatus : Z;
  verifyBody : option string
}.

(** [a === b] on values that are a string or [undefined] *)
Definition strictEq (a b : option string) : bool :=
  match a, b with
  | Some x, Some y => String.eqb x y
  | None, None => true
  | _, _ => false
  end.

(** ** Pipelines that are started and not waited for

    The WhatsApp and Messenger routes call their pipeline from [async]
    callbacks of [forEach], whose promises nobody awaits.  A pipeline so
    started runs up to its first [await] at once and is resumed by the event
    loop later; between an [await] and the resumption after it the other
    tasks of the process run.  What they do to the store by then is given by
    [others], from the number of interactions so far. *)

Section Tasks.

Variable others : nat -> MemStorage.t -> MemStorage.t.

(** The other tasks take their turn. *)
Definition yield : M unit := fun w =>
  (Ok tt, withStorage (others (ticks w) (storage w)) w).

(** [await p]: the call [p] is made, the task is suspended while the others
    run, and it goes on with the value of [p] or with its error. *)
Definition awaited {A} (p : M A) : M A := fun w =>
  match p w with
  | (o, w1) => (o, withStorage (others (ticks w1) (storage w1)) w1)
  end.

End Tasks.

(** A call whose promise is kept for later: the call is made, and its value
    or its error is what the promise will give. *)
Definition promised {A} (p : M A) : M (Outcome A) := fun w =>
  match p w with
  | (o, w1) => (Ok o, w1)
  end.

(** The value or the error of a promise that has settled. *)
Definition settled {A} (o : Outcome A) : M A := fun w => (o, w).

(** A property read with [?.forEach]: absent ([undefined] or [null]), an
    array, or a value of another kind, which has no [forEach]. *)
Inductive Items (A : Type) :=
| Absent
| Array (items : list A)
| NoArray.
Arguments Absent {A}.
Arguments Array {A} items.
Arguments NoArray {A}.

(** The [TypeError] of calling [forEach] on a value that has none; the
    wording is the engine's. *)
Definition notAFunction (callee : string) : exn :=
  Error (callee ++ " is not a function").

(** What a route that starts pipelines hands back: the response it sent and
    the pipelines it has started, in the order of their start. *)
Record Delivery (P : Type) := mkDelivery {
  answer : HttpResponse;
  pending : list P
}.
Arguments mkDelivery {P} answer pending.
Arguments answer {P} d.
Arguments pending {P} d.

(** ** The WhatsApp channel adapter ([WhatsAppHandler]) *)

Module WhatsApp.
(** An element of [change.value.messages]. *)
Record Message := mkMessage {
  from : string;
  profile_name : option string;   (* [message.profile?.name] *)
  text_body : option string       (* [message.text?.body] *)
}.
Record Change := mkChange {
  field : option string;
  messages : Items Message        (* [change.value?.messages] *)
}.
Record Entry := mkEntry { changes : Items Change }.
(** The webhook body. *)
Record Body := mkBody {
  object : option string;
  entry : Items Entry
}.
End WhatsApp.

Module WhatsAppHandler.

Section Handler.

(** [process.env.WHATSAPP_VERIFY_TOKEN], [WHATSAPP_API_KEY],
    [WHATSAPP_ACCESS_TOKEN] and [WHATSAPP_PHONE_NUMBER_ID] *)
Variable verifyTokenEnv : option string.
Variable apiKeyEnv : option string.
Variable accessToken : option string.
Variable phoneNumberId : option string.

Variable others : nat -> MemStorage.t -> MemStorage.t.

Definition verifyWebhook (query : VerifyQuery) : M VerifyResponse :=
  let mode := hub_mode query in
  let token := hub_verify_token query in
  let challenge := hub_challenge query in
  if strictEq mode (Some "subscribe") && strictEq token verifyTokenEnv then
    consoleWrite ConsoleLog "WhatsApp webhook verified";;
    mret (mkVerifyResponse 200 challenge)
  else
    mret (mkVerifyResponse 403 (Some "Forbidden")).

Definition errorDetails (e : exn) : list (string * JsVal) :=
  [("error", JStr (errorMessage e))].

Definition sendMessage (to message : string) : M unit :=
  if negb (Js.truthyOption accessToken) || negb (Js.truthyOption phoneNumberId) then
    consoleWrite ConsoleWarn "WhatsApp credentials not configured"
  else
    try_catch
      (response ← awaited others
                    (fetch (mkHttpRequest
                              ("https://graph.facebook.com/v17.0/"
                               ++ default "" phoneNumberId ++ "/messages")
                              [("Authorization", "Bearer " ++ default "" accessToken);
                               ("Content-Type", "application/json")]
                              [("messaging_product", JStr "whatsapp");
                               ("to", JStr to);
                               ("text", JObj [("body", JStr message)])]));
       match response with
       | FetchNotOk statusText => throw (Error ("WhatsApp API error: " ++ statusText))
       | _ => mret tt
       end)
      (fun error =>
         awaited others
           (Storage.createLog
              (InsertLog.mk "error" "Failed to send WhatsApp message"
                 (Some (errorDetails error ++ [("to", JStr to)])%list)
                 "whatsapp"));;
         mret tt).

(** A pipeline that has been started: its message, the time it started at
    and the platform lookup it has made and now waits for. *)
Record Pending := mkPending {
  message : WhatsApp.Message;
  startTime : Z;
  lookup : Outcome (option Platform.t)
}.

(** [processIncomingMessage] up to its first [await]: the clock is read and
    [getPlatformByName] is called. *)
Definition start (message : WhatsApp.Message) : M Pending :=
  startTime ← dateNow;
  found ← promised (Storage.getPlatformByName "whatsapp");
  mret (mkPending message startTime found).

(** The blocks of the [try] body, in the order of the source. *)

(** Get or create platform, from the lookup that was pending. *)
Definition resolvePlatform (found : Outcome (option Platform.t)) : M Platform.t :=
  found ← settled found;
  match found with
  | Some p => mret p
  | None =>
      awaited others
        (Storage.createPlatform
           (InsertPlatform.mk "whatsapp" (Some "active") (Js.orNullString apiKeyEnv)
                              None (Some ∅)))
  end.

(** Get or create conversation, once the stored ones have been read. *)
Definition resolveConversation (platform : Platform.t) (message : WhatsApp.Message)
    (convs : list Conversation.t) : M Conversation.t :=
  match List.find
          (fun c => (Conversation.platformId c =? Platform.id platform)
                    && String.eqb (Conversation.userId c) (WhatsApp.from message))
          convs with
  | Some c => mret c
  | None =>
      awaited others
        (Storage.createConversation
           (InsertConversation.mk (Platform.id platform) (WhatsApp.from message)
              (Some (Js.orString (WhatsApp.profile_name message) "Unknown User"))
              (Some "active")))
  end.

(** Store incoming message, generate bot response, store bot response. *)
Definition recordExchange (startTime : Z) (message : WhatsApp.Message)
    (platform : Platform.t) (conversation : Conversation.t)
  : M (SimpleResponse.t * Z) :=
  awaited others
    (Storage.createMessage
       (InsertMessage.mk (Conversation.id conversation)
          (Js.orString (WhatsApp.text_body message) "[Media]") "user" None None None));;
  generated ← awaited others
                (SimpleMLTrainer.generateResponse
                   (Js.orString (WhatsApp.text_body message) "") (Platform.id platform));
  now ← dateNow;
  let responseTime := now - startTime in
  awaited others
    (Storage.createMessage
       (InsertMessage.mk (Conversation.id conversation)
          (SimpleResponse.response generated) "bot"
          (Some (SimpleResponse.confidence generated)) (Some responseTime) None));;
  mret (generated, responseTime).

(** Update platform message count, update conversation, log the outcome. *)
Definition updateCounters (platform : Platform.t) (conversation : Conversation.t)
    (message : WhatsApp.Message) (confidence : Q) (responseTime : Z) : M unit :=
  lastMessageAt ← dateNow;
  awaited others
    (Storage.updatePlatform (Platform.id platform)
       (PartialPlatform.mk None None None None None
          (Some (Platform.messagesCount platform + 1))
          (Some (Some lastMessageAt))));;
  lastMessageAt ← dateNow;
  awaited others
    (Storage.updateConversation (Conversation.id conversation)
       (PartialConversation.mk None None None None
          (Some (Conversation.messagesCount conversation + 2))
          (Some (Some lastMessageAt))));;
  awaited others
    (Storage.createLog
       (InsertLog.mk "info" "WhatsApp message processed successfully"
          (Some [("userId", JStr (WhatsApp.from message));
                 ("confidence", JNum confidence);
                 ("responseTime", JInt responseTime);
                 ("intent", JStr "processed")])
          "whatsapp"));;
  mret tt.

(** The body of the [try] block from the resumption after the first
    [await] on. *)
Definition pipeline (p : Pending) : M unit :=
  platform ← resolvePlatform (lookup p);
  convs ← awaited others Storage.getAllConversations;
  conversation ← resolveConversation platform (message p) convs;
  exchange ← recordExchange (startTime p) (message p) platform conversation;
  awaited others
    (sendMessage (WhatsApp.from (message p)) (SimpleResponse.response (fst exchange)));;
  updateCounters platform conversation (message p)
    (SimpleResponse.confidence (fst exchange)) (snd exchange).

(** The rest of [processIncomingMessage] for a pipeline that was started:
    the others have run, then the [try] body goes on under its [catch]. *)
Definition resume (p : Pending) : M unit :=
  yield others;;
  try_catch
    (pipeline p)
    (fun error =>
       awaited others
         (Storage.createLog
            (InsertLog.mk "error" "Failed to process WhatsApp message"
               (Some (errorDetails error)) "whatsapp"));;
       mret tt).

(** [await this.processIncomingMessage(message)] *)
Definition processIncomingMessage (message : WhatsApp.Message) : M unit :=
  p ← start message;
  resume p.

(** The three nested [forEach] loops.  Each callback is an [async]
    function: it starts the pipelines of its messages one after the other,
    and a [TypeError] inside it (a [changes] or [messages] value without
    [forEach]) rejects the callback's promise, which nobody looks at, and
    starts nothing. *)
Fixpoint startEach (messages : list WhatsApp.Message) : M (list Pending) :=
  match messages with
  | [] => mret []
  | message :: rest =>
      p ← start message;
      ps ← startEach rest;
      mret (p :: ps)
  end.

Definition startChange (change : WhatsApp.Change) : M (list Pending) :=
  if strictEq (WhatsApp.field change) (Some "messages") then
    match WhatsApp.messages change with
    | Array messages => startEach messages
    | Absent | NoArray => mret []
    end
  else mret [].

Fixpoint startChanges (changes : list WhatsApp.Change) : M (list Pending) :=
  match changes with
  | [] => mret []
  | change :: rest =>
      ps ← startChange change;
      qs ← startChanges rest;
      mret (ps ++ qs)%list
  end.

Definition startEntry (entry : WhatsApp.Entry) : M (list Pending) :=
  match WhatsApp.changes entry with
  | Array changes => startChanges changes
  | Absent | NoArray => mret []
  end.

Fixpoint startEntries (entries : list WhatsApp.Entry) : M (list Pending) :=
  match entries with
  | [] => mret []
  | entry :: rest =>
      ps ← startEntry entry;
      qs ← startEntries rest;
      mret (ps ++ qs)%list
  end.

(** The webhook route.  The value is the response sent to the caller with
    the pipelines left running; a throw means that the handler rejected
    without answering. *)
Definition handleMessage (body : WhatsApp.Body) : M (Delivery Pending) :=
  try_catch
    (started ←
       (if strictEq (WhatsApp.object body) (Some "whatsapp_business_account") then
          match WhatsApp.entry body with
          | Absent => mret []
          | Array entries => startEntries entries
          | NoArray => throw (notAFunction "body.entry?.forEach")
          end
        else mret []);
     mret (mkDelivery (mkHttpResponse 200 "OK") started))
    (fun error =>
       consoleWrite ConsoleError "WhatsApp webhook error:";;
       awaited others
         (Storage.createLog
            (InsertLog.mk "error" "WhatsApp webhook processing failed"
               (Some (errorDetails error)) "whatsapp"));;
       mret (mkDelivery (mkHttpResponse 500 "Internal Server Error") [])).

End Handler.

End WhatsAppHandler.

(** ** The Messenger channel adapter ([MessengerHandler]) *)

Module Messenger.
Record Sender := mkSender { id : string }.
Record Message := mkMessage { text : option string }.
(** An element of [entry.messaging]. *)
Record Event := mkEvent {
  sender : option Sender;
  message : option Message
}.
Record Entry := mkEntry { messaging : Items Event }.
(** The webhook body. *)
Record Body := mkBody {
  object : option string;
  entry : Items Entry
}.
End Messenger.

Module MessengerHandler.

Section Handler.

(** [process.env.MESSENGER_VERIFY_TOKEN] and [MESSENGER_ACCESS_TOKEN] *)
Variable verifyTokenEnv : option string.
Variable accessTokenEnv : option string.

Variable others : nat -> MemStorage.t -> MemStorage.t.

(** [this.verifyToken = process.env.MESSENGER_VERIFY_TOKEN || ''] *)
Definition verifyToken : string := Js.orString verifyTokenEnv "".

(** [this.accessToken = process.env.MESSENGER_ACCESS_TOKEN || ''] *)
Definition accessToken : string := Js.orString accessTokenEnv "".

Definition verifyWebhook (query : VerifyQuery) : M VerifyResponse :=
  let mode := hub_mode query in
  let token := hub_verify_token query in
  let challenge := hub_challenge query in
  if strictEq mode (Some "subscribe") && strictEq token (Some verifyToken) then
    consoleWrite ConsoleLog "Messenger webhook verified";;
    mret (mkVerifyResponse 200 challenge)
  else
    mret (mkVerifyResponse 403 (Some "Forbidden")).

Definition typeError (property : string) : exn :=
  Error ("Cannot read properties of undefined (reading '" ++ property ++ "')").

Definition errorDetails (e : exn) : list (string * JsVal) :=
  [("error", JStr (errorMessage e))].

Definition sendMessage (recipientId message : string) : M unit :=
  if negb (Js.truthyString accessToken) then
    consoleWrite ConsoleWarn "Messenger access token not configured"
  else
    try_catch
      (response ← awaited others
                    (fetch (mkRequest "https://graph.facebook.com/v17.0/me/messages"
                              [("recipient", JObj [("id", JStr recipientId)]);
                               ("message", JObj [("text", JStr message)]);
                               ("access_token", JStr accessToken)]));
       match response with
       | FetchNotOk statusText => throw (Error ("Messenger API error: " ++ statusText))
       | _ => mret tt
       end)
      (fun error =>
         awaited others
           (Storage.createLog
              (InsertLog.mk "error" "Failed to send Messenger message"
                 (Some (errorDetails error ++ [("recipientId", JStr recipientId)])%list)
                 "messenger"));;
         mret tt).

(** A pipeline that has been started: its event, the time it started at and
    the platform lookup it has made and now waits for. *)
Record Pending := mkPending {
  event : Messenger.Event;
  startTime : Z;
  lookup : Outcome (option Platform.t)
}.

(** [processIncomingMessage] up to its first [await]. *)
Definition start (event : Messenger.Event) : M Pending :=
  startTime ← dateNow;
  found ← promised (Storage.getPlatformByName "messenger");
  mret (mkPending event startTime found).

(** Get or create platform, from the lookup that was pending. *)
Definition resolvePlatform (found : Outcome (option Platform.t)) : M Platform.t :=
  found ← settled found;
  match found with
  | Some p => mret p
  | None =>
      awaited others
        (Storage.createPlatform
           (InsertPlatform.mk "messenger" (Some "active") (Some accessToken)
                              None (Some ∅)))
  end.

(** Get or create conversation, once the stored ones have been read. *)
Definition resolveConversation (platform : Platform.t) (sender : Messenger.Sender)
    (convs : list Conversation.t) : M Conversation.t :=
  match List.find
          (fun c => (Conversation.platformId c =? Platform.id platform)
                    && String.eqb (Conversation.userId c) (Messenger.id sender))
          convs with
  | Some c => mret c
  | None =>
      awaited others
        (Storage.createConversation
           (InsertConversation.mk (Platform.id platform) (Messenger.id sender)
              (Some "Messenger User") (Some "active")))
  end.

(** [event.message?.text] *)
Definition messageText (event : Messenger.Event) : option string :=
  match Messenger.message event with
  | Some m => Messenger.text m
  | None => None
  end.

(** Store incoming message, generate bot response, store bot response. *)
Definition recordExchange (startTime : Z) (event : Messenger.Event)
    (platform : Platform.t) (conversation : Conversation.t)
  : M (SimpleResponse.t * Z) :=
  awaited others
    (Storage.createMessage
       (InsertMessage.mk (Conversation.id conversation)
          (Js.orString (messageText event) "[Media]") "user" None None None));;
  generated ← awaited others
                (SimpleMLTrainer.generateResponse
                   (Js.orString (messageText event) "") (Platform.id platform));
  now ← dateNow;
  let responseTime := now - startTime in
  awaited others
    (Storage.createMessage
       (InsertMessage.mk (Conversation.id conversation)
          (SimpleResponse.response generated) "bot"
          (Some (SimpleResponse.confidence generated)) (Some responseTime) None));;
  mret (generated, responseTime).

(** Update platform message count, update conversation, log the outcome. *)
Definition updateCounters (platform : Platform.t) (conversation : Conversation.t)
    (sender : Messenger.Sender) (confidence : Q) (responseTime : Z) : M unit :=
  lastMessageAt ← dateNow;
  awaited others
    (Storage.updatePlatform (Platform.id platform)
       (PartialPlatform.mk None None None None None
          (Some (Platform.messagesCount platform + 1))
          (Some (Some lastMessageAt))));;
  lastMessageAt ← dateNow;
  awaited others
    (Storage.updateConversation (Conversation.id conversation)
       (PartialConversation.mk None None None None
          (Some (Conversation.messagesCount conversation + 2))
          (Some (Some lastMessageAt))));;
  awaited others
    (Storage.createLog
       (InsertLog.mk "info" "Messenger message processed successfully"
          (Some [("userId", JStr (Messenger.id sender));
                 ("confidence", JNum confidence);
                 ("responseTime", JInt responseTime)])
          "messenger"));;
  mret tt.

(** The body of the [try] block from the resumption after the first
    [await] on.  Reading [event.sender.id] of an absent sender throws a
    [TypeError] while the conversation is looked up or, when no stored
    conversation belongs to the platform, while the arguments of
    [createConversation] are evaluated: in both cases after
    [getAllConversations] and before any further store call. *)
Definition pipeline (p : Pending) : M unit :=
  platform ← resolvePlatform (lookup p);
  convs ← awaited others Storage.getAllConversations;
  match Messenger.sender (event p) with
  | None => throw (typeError "id")
  | Some sender =>
      conversation ← resolveConversation platform sender convs;
      exchange ← recordExchange (startTime p) (event p) platform conversation;
      awaited others
        (sendMessage (Messenger.id sender) (SimpleResponse.response (fst exchange)));;
      updateCounters platform conversation sender
        (SimpleResponse.confidence (fst exchange)) (snd exchange)
  end.

(** The rest of [processIncomingMessage] for a pipeline that was started. *)
Definition resume (p : Pending) : M unit :=
  yield others;;
  try_catch
    (pipeline p)
    (fun error =>
       awaited others
         (Storage.createLog
            (InsertLog.mk "error" "Failed to process Messenger message"
               (Some (errorDetails error)) "messenger"));;
       mret tt).

(** [await this.processIncomingMessage(event)] *)
Definition processIncomingMessage (event : Messenger.Event) : M unit :=
  p ← start event;
  resume p.

(** The two nested [forEach] loops, with [async] callbacks as in the
    WhatsApp route: the pipeline of every event that carries a message is
    started, and a [messaging] value without [forEach] starts nothing. *)
Fixpoint startEach (events : list Messenger.Event) : M (list Pending) :=
  match events with
  | [] => mret []
  | event :: rest =>
      ps ← match Messenger.message event with
           | Some _ => p ← start event; mret [p]
           | None => mret []
           end;
      qs ← startEach rest;
      mret (ps ++ qs)%list
  end.

Definition startEntry (entry : Messenger.Entry) : M (list Pending) :=
  match Messenger.messaging entry with
  | Array events => startEach events
  | Absent | NoArray => mret []
  end.

Fixpoint startEntries (entries : list Messenger.Entry) : M (list Pending) :=
  match entries with
  | [] => mret []
  | entry :: rest =>
      ps ← startEntry entry;
      qs ← startEntries rest;
      mret (ps ++ qs)%list
  end.

(** The webhook route. *)
Definition handleMessage (body : Messenger.Body) : M (Delivery Pending) :=
  try_catch
    (started ←
       (if strictEq (Messenger.object body) (Some "page") then
          match Messenger.entry body with
          | Absent => mret []
          | Array entries => startEntries entries
          | NoArray => throw (notAFunction "body.entry?.forEach")
          end
        else mret []);
     mret (mkDelivery (mkHttpResponse 200 "OK") started))
    (fun error =>
       consoleWrite ConsoleError "Messenger webhook error:";;
       awaited others
         (Storage.createLog
            (InsertLog.mk "error" "Messenger webhook processing failed"
               (Some (errorDetails error)) "messenger"));;
       mret (mkDelivery (mkHttpResponse 500 "Internal Server Error") [])).

End Handler.

End MessengerHandler.

(** ** The dashboard fan-out ([WebSocketManager], websocket.ts) *)

Module WebSocketManager.

Definition getWss : M WsState := fun w => (Ok (wss w), w).

Definition putWss (x : WsState) : M unit := fun w => (Ok tt, withWss x w).

(** [array.forEach(f)] with an effectful callback *)
Fixpoint forEach {A} (l : list A) (f : A -> M unit) : M unit :=
  match l with
  | [] => mret tt
  | x :: l' => f x;; forEach l' f
  end.

(** [Math.round] *)
Definition mathRound (x : Double.t) : Z := Double.round x.

Definition count {A} (f : A -> bool) (l : list A) : Z :=
  Z.of_nat (List.length (List.filter f l)).

Definition sumZ (l : list Z) : Z := List.fold_left Z.add l 0.

Definition sendToClient (origin : Origin) (ws : nat) (message : WebSocketMessage)
  : M unit :=
  st ← getWss;
  match sockets st !! ws with
  | Some sock =>
      match readyState sock with
      | OPEN =>
          putWss (mkWsState (clients st)
                    (<[ws := mkSocket OPEN (frames sock ++ [(origin, message)])]>
                       (sockets st)))
      | _ => mret tt
      end
  | None => mret tt
  end.

Definition broadcast (message : WebSocketMessage) : M unit :=
  st ← getWss;
  forEach (clients st) (fun client => sendToClient FromBroadcast client message).

Section Manager.

(** [d.setHours(0, 0, 0, 0)]: the start of the local day of a time. *)
Variable startOfDay : Z -> Z.

Definition calculateStats : M Stats.t :=
  platforms ← Storage.getAllPlatforms;
  conversations ← Storage.getAllConversations;
  recentMessages ← Storage.getRecentMessages 1000;
  mlModel ← Storage.getCurrentMlModel;
  now ← dateNow;
  let today := startOfDay now in
  let todayMessages :=
    List.filter (fun m => today <=? Message.sentAt m) recentMessages in
  let botMessages :=
    List.filter
      (fun m => String.eqb (Message.sender m) "bot"
                && match Message.responseTime m with
                   | Some t => Js.truthyInt t
                   | None => false
                   end)
      recentMessages in
  let total :=
    sumZ (List.map (fun m => default 0 (Message.responseTime m)) botMessages) in
  let avgResponseTime :=
    if Nat.ltb 0 (List.length botMessages)
    then mathRound
           (Double.div (Double.ofInt total)
                       (Double.ofInt (Z.of_nat (List.length botMessages))))
    else 0 in
  let userMessages :=
    List.filter (fun m => String.eqb (Message.sender m) "user") recentMessages in
  let responseRate :=
    if Nat.ltb 0 (List.length userMessages)
    then mathRound
           (Double.mul
              (Double.div (Double.ofInt (Z.of_nat (List.length botMessages)))
                          (Double.ofInt (Z.of_nat (List.length userMessages))))
              (Double.ofInt 100))
    else 100 in
  let activeUsers :=
    List.length
      (remove_dups
         (List.map Conversation.userId
            (List.filter
               (fun c => match Conversation.lastMessageAt c with
                         | Some t => today <=? t
                         | None => false
                         end)
               conversations))) in
  mret (Stats.mk
          (sumZ (List.map Platform.messagesCount platforms))
          (Z.of_nat activeUsers)
          responseRate
          avgResponseTime
          (Z.of_nat (List.length todayMessages))
          (match mlModel with
           | Some m => if Js.truthyInt (MlModel.accuracy m) then MlModel.accuracy m else 0
           | None => 0
           end)
          (count (fun p => String.eqb (Platform.status p) "active") platforms)).

(** The four sends of [sendInitialData], each with the reads it awaits. *)
Definition sendStats (ws : nat) : M unit :=
  stats ← calculateStats;
  sendToClient FromSnapshot ws (mkWsMessage stats_update (DataStats stats)).

Definition sendPlatforms (ws : nat) : M unit :=
  platforms ← Storage.getAllPlatforms;
  sendToClient FromSnapshot ws (mkWsMessage platform_status (DataPlatforms platforms)).

Definition sendRecentMessages (ws : nat) : M unit :=
  recentMessages ← Storage.getRecentMessages 10;
  sendToClient FromSnapshot ws (mkWsMessage new_message (DataMessages recentMessages)).

Definition sendModel (ws : nat) : M unit :=
  mlModel ← Storage.getCurrentMlModel;
  sendToClient FromSnapshot ws (mkWsMessage ml_update (DataModel mlModel)).

Definition snapshotStages (ws : nat) : list (M unit) :=
  [sendStats ws; sendPlatforms ws; sendRecentMessages ws; sendModel ws].

Definition snapshotFailed : M unit :=
  consoleWrite ConsoleError "Error sending initial WebSocket data:".

(** [sendInitialData] when nothing else runs between its awaits. *)
Definition sendInitialData (ws : nat) : M unit :=
  try_catch
    (sendStats ws;; sendPlatforms ws;; sendRecentMessages ws;; sendModel ws)
    (fun _ => snapshotFailed).

(** The synchronous part of the ['connection'] callback. *)
Definition onConnection (ws : nat) : M unit :=
  consoleWrite ConsoleLog "WebSocket client connected";;
  st ← getWss;
  putWss (mkWsState
            (if decide (ws ∈ clients st) then clients st else clients st ++ [ws])
            (sockets st)).

(** The ['close'] and ['error'] callbacks. *)
Definition onClose (ws : nat) : M unit :=
  consoleWrite ConsoleLog "WebSocket client disconnected";;
  st ← getWss;
  putWss (mkWsState
            (List.filter (fun c => negb (Nat.eqb c ws)) (clients st))
            (sockets st)).

Definition onError (ws : nat) : M unit :=
  consoleWrite ConsoleError "WebSocket error:";;
  st ← getWss;
  putWss (mkWsState
            (List.filter (fun c => negb (Nat.eqb c ws)) (clients st))
            (sockets st)).

(** The transport closes a socket: its [readyState] becomes [CLOSED]. *)
Definition closeSocket (ws : nat) (w : World) : World :=
  withWss (mkWsState (clients (wss w))
             (alter (fun sock => mkSocket CLOSED (frames sock)) ws (sockets (wss w))))
          w.

(** *** The event loop

    The server is one thread; an [async] routine runs until it awaits the
    store and is resumed later, and other callbacks run in between.  A
    snapshot routine in flight is recorded with the number of sends it
    has completed. *)
Record Loop := mkLoop {
  world : World;
  tasks : gmap nat nat
}.

Inductive Event :=
| Connect (ws : nat)                 (* a new socket is accepted *)
| Resume (ws : nat)                  (* the awaited reads of a snapshot routine arrive *)
| Broadcast (message : WebSocketMessage)  (* a timer or a route calls [broadcast] *)
| Close (ws : nat)                   (* a socket closes *)
| SocketError (ws : nat)             (* a socket reports an error *)
| StoreChange (f : MemStorage.t -> MemStorage.t).  (* a pipeline or a route writes *)

Definition exec (m : M unit) (w : World) : World := snd (m w).

Definition step (l : Loop) (e : Event) : Loop :=
  match e with
  | Connect ws =>
      match sockets (wss (world l)) !! ws with
      | Some _ => l
      | None =>
          let w := withWss (mkWsState (clients (wss (world l)))
                              (<[ws := mkSocket OPEN []]> (sockets (wss (world l)))))
                           (world l) in
          mkLoop (exec (onConnection ws) w) (<[ws := 0%nat]> (tasks l))
      end
  | Resume ws =>
      match tasks l !! ws with
      | Some k =>
          match nth_error (snapshotStages ws) k with
          | Some stage =>
              match stage (world l) with
              | (Ok _, w) => mkLoop w (<[ws := S k]> (tasks l))
              | (Throw _, w) => mkLoop (exec snapshotFailed w) (delete ws (tasks l))
              end
          | None => l
          end
      | None => l
      end
  | Broadcast message => mkLoop (exec (broadcast message) (world l)) (tasks l)
  | Close ws => mkLoop (exec (onClose ws) (closeSocket ws (world l))) (tasks l)
  | SocketError ws => mkLoop (exec (onError ws) (world l)) (tasks l)
  | StoreChange f => mkLoop (withStorage (f (storage (world l))) (world l)) (tasks l)
  end.

Definition run (l : Loop) (events : list Event) : Loop :=
  List.fold_left step events l.

(** The frames a socket has been sent, and those of them that came from
    its snapshot routine. *)
Definition framesOf (ws : nat) (l : Loop) : list (Origin * WebSocketMessage) :=
  match sockets (wss (world l)) !! ws with
  | Some sock => frames sock
  | None => []
  end.

Definition isSnapshot (f : Origin * WebSocketMessage) : bool :=
  match fst f with FromSnapshot => true | FromBroadcast => false end.



End Manager.

End WebSocketManager.

(** ** Sample states *)

Module Sample.

(** What [initializeDefaultData] builds, for a start time and the three
    random usage counts (the random last-activity offsets are taken as 0). *)
Definition defaultBotConfig (now : Z) : BotConfig.t :=
  BotConfig.mk 1 "LuvSmithCorp Bot" "en" "professional" 75 3
    "Sorry, I didn't understand that. Can you please rephrase?" true now now.

Definition defaultPlatforms (now : Z) : JsMap.t Platform.t :=
  [ (1, Platform.mk 1 "whatsapp" "active" None None (Some ∅) 847 (Some now) now now);
    (2, Platform.mk 2 "telegram" "active" None None (Some ∅) 523 (Some now) now now);
    (3, Platform.mk 3 "messenger" "active" None None (Some ∅) 477 (Some now) now now) ].

Definition defaultTemplates (now u1 u2 u3 : Z) : JsMap.t Template.t :=
  [ (1, Template.mk 1 "Welcome Message" "Greetings"
          "Hello! Welcome to LuvSmithCorp. How can I assist you today?"
          (Some []) true u1 now now);
    (2, Template.mk 2 "Order Support" "Customer Support"
          "I'd be happy to help you with your order. Could you please provide your order number?"
          (Some ["orderNumber"]) true u2 now now);
    (3, Template.mk 3 "Product Information" "Sales"
          "I can provide information about our products. What would you like to know?"
          (Some ["productName"]) true u3 now now) ].

Definition defaultModels (now : Z) : JsMap.t MlModel.t :=
  [ (1, MlModel.mk 1 "LuvSmithCorp NLP Model" "1.0.0" 94 (Some []) "ready"
          (Some (now - 7200000)) now) ].

Definition initialStorage (now u1 u2 u3 : Z) : MemStorage.t :=
  MemStorage.mk (defaultPlatforms now) [] [] (defaultTemplates now u1 u2 u3)
    (defaultModels now) [] [(1, defaultBotConfig now)] 10.

Definition neverRejects : StorageOp -> nat -> option string := fun _ _ => None.

(** A clock that advances one millisecond per interaction. *)
Definition steadyClock (start : Z) : nat -> Z := fun n => start + Z.of_nat n.

Definition worldOf (s : MemStorage.t) : World :=
  mkWorld s 0 neverRejects (steadyClock 1700000000000) (fun _ => FetchOk)
          [] [] [] (mkWsState [] ∅).

(** The freshly started server. *)
Definition freshWorld : World :=
  worldOf (initialStorage 1700000000000 12 34 56).

(** The same store after the operator lowered the confidence threshold
    to 0 through the configuration route. *)
Definition withThreshold (k : Z) (s : MemStorage.t) : MemStorage.t :=
  MemStorage.mk (MemStorage.platforms s) (MemStorage.conversations s)
    (MemStorage.messages s) (MemStorage.templates s) (MemStorage.mlModels s)
    (MemStorage.logs s)
    (List.map
       (fun kv =>
          (fst kv,
           BotConfig.mk (BotConfig.id (snd kv)) (BotConfig.name (snd kv))
             (BotConfig.language (snd kv)) (BotConfig.tone (snd kv)) k
             (BotConfig.maxResponseTime (snd kv)) (BotConfig.fallbackMessage (snd kv))
             (BotConfig.autoTraining (snd kv)) (BotConfig.createdAt (snd kv))
             (BotConfig.updatedAt (snd kv))))
       (MemStorage.botConfigs s))
    (MemStorage.currentId s).

(** A store that refuses to look a platform up and answers everything
    else. *)
Definition lookupFails : StorageOp -> nat -> option string := fun op _ =>
  match op with
  | GetPlatformByName => Some "connection terminated"
  | _ => None
  end.

(** A store that is down while the first message of a delivery is handled
    (two interactions: the lookup and the first log write) and back
    afterwards. *)
Definition briefOutage : StorageOp -> nat -> option string := fun _ n =>
  if Nat.leb n 2 then Some "connection terminated" else None.

Definition withRejects (r : StorageOp -> nat -> option string) (w : World) : World :=
  mkWorld (storage w) (ticks w) r (clock w) (fetches w)
          (console w) (requests w) (calls w) (wss w).

Definition textUpdate (text : string) : Telegram.Update :=
  Telegram.mkUpdate
    (Some (Telegram.mkMessage
             (Some (Telegram.mkUser 4242 (Some "Sam") None))
             (Some (Telegram.mkChat 4242))
             (Some text))).

(** A process in which no other task touches the store. *)
Definition noOthers : nat -> MemStorage.t -> MemStorage.t := fun _ s => s.

(** A WhatsApp delivery with one text message, and one whose [entry] is not
    an array. *)
Definition whatsAppText (text : string) : WhatsApp.Body :=
  WhatsApp.mkBody (Some "whatsapp_business_account")
    (Array [WhatsApp.mkEntry
              (Array [WhatsApp.mkChange (Some "messages")
                        (Array [WhatsApp.mkMessage "4915112345678" (Some "Sam")
                                  (Some text)])])]).

Definition whatsAppMalformed : WhatsApp.Body :=
  WhatsApp.mkBody (Some "whatsapp_business_account") NoArray.

(** A Messenger delivery with one text message. *)
Definition messengerText (text : string) : Messenger.Body :=
  Messenger.mkBody (Some "page")
    (Array [Messenger.mkEntry
              (Array [Messenger.mkEvent (Some (Messenger.mkSender "2468"))
                        (Some (Messenger.mkMessage (Some text)))])]).


Definition lenientWorld : World :=
  worldOf (withThreshold 0 (initialStorage 1700000000000 12 34 56)).

(** The lenient store in which the operator has switched the welcome
    template off. *)
Definition retiredWelcome : Template.t :=
  Template.mk 1 "Welcome Message" "Greetings"
    "Hello! Welcome to LuvSmithCorp. How can I assist you today?"
    (Some []) false 12 1700000000000 1700000000000.

Definition retiredWorld : World :=
  worldOf
    (Storage.setTemplates [(1, retiredWelcome)]
       (withThreshold 0 (initialStorage 1700000000000 12 34 56))).

(** The lenient store after the operator has replaced the templates by one
    greeting that declares the variable [variable] and uses it once. *)
Definition greetingWith (variable : string) : Template.t :=
  Template.mk 1 "Welcome Message" "Greetings" ("Hi {" ++ variable ++ "}!")
    (Some [variable]) true 12 1700000000000 1700000000000.

Definition greetingWorld (variable : string) : World :=
  worldOf
    (Storage.setTemplates [(1, greetingWith variable)]
       (withThreshold 0 (initialStorage 1700000000000 12 34 56))).

(** A template that uses its one declared variable twice. *)
Definition twiceNamed : Template.t :=
  Template.mk 4 "Order Greeting" "Orders" "Hi {name}, thank you {name}"
    (Some ["name"]) true 0 1700000000000 1700000000000.

End Sample.

(** ** Invariants of the store *)

(** The store answers every call. *)
Definition available (w : World) : Prop :=
  forall (op : StorageOp) (n : nat), rejects w op n = None.

(** A table files every record under its own id, once.  [MemStorage]
    establishes this in its constructor and every method keeps it. *)
Definition keyed {V} (id : V -> Z) (m : JsMap.t V) : Prop :=
  List.NoDup (JsMap.keys m) /\ List.Forall (fun kv => id (snd kv) = fst kv) m.


(** ** Vocabulary of the substitution step *)

(** The placeholder of a variable: [`{${variable}}`]. *)
Definition placeholder (variable : string) : string := "{" ++ variable ++ "}".

(** The number of positions of [s] at which [pat] starts. *)
Fixpoint occurrences (pat s : string) : nat :=
  ((if String.prefix pat s then 1 else 0)
   + match s with
     | EmptyString => 0
     | String _ s' => occurrences pat s'
     end)%nat.

(** A variable for which the lookup finds nothing to insert: its entity
    value is the empty string, or it has none and its name is not that of a
    member of [Object.prototype]. *)
Definition absent (entities : gmap string string) (variable : string) : Prop :=
  entities !! variable = Some EmptyString
  \/ (entities !! variable = None /\ JsObject.inherited variable = None).

(** No variable that the template declares has the name of a member of
    [Object.prototype]. *)
Definition plainVariables (t : Template.t) : Prop :=
  forall declared,
    Template.variables t = Some declared ->
    List.Forall (fun v => JsObject.inherited v = None) declared.

(** What the selector answers once it has matched the template [t]: the
    substituted content with the id of [t], or the error of the
    substitution. *)
Definition answerFrom (t : Template.t) (processed : ProcessedMessage.t)
  : Outcome BotResponse.t :=
  match MLTrainer.substituteVariables t (ProcessedMessage.entities processed) with
  | Ok response =>
      Ok (BotResponse.mk response (ProcessedMessage.confidence processed)
                         (Some (Template.id t)))
  | Throw e => Throw e
  end.

(** A text without a dollar sign. *)
Fixpoint dollarFree (s : string) : bool :=
  match s with
  | EmptyString => true
  | String c s' => negb (Ascii.eqb c "$") && dollarFree s'
  end.

(** A computation leaves the oracles of the surroundings alone. *)
Definition keepsOracles {A} (m : M A) : Prop :=
  forall w, rejects (snd (m w)) = rejects w.

(** Two states with the same oracles, console and outbound requests. *)
Definition sameSurroundings (w w' : World) : Prop :=
  rejects w' = rejects w /\ fetches w' = fetches w
  /\ console w' = console w /\ requests w' = requests w.

(** ** Vocabulary of the webhook routes *)

(** No other task removes or changes a Log that has been filed; the store
    has no method that would. *)
Definition keepsLogs (others : nat -> MemStorage.t -> MemStorage.t) : Prop :=
  forall (n : nat) (s : MemStorage.t) (id : Z) (log : Log.t),
    JsMap.get id (MemStorage.logs s) = Some log ->
    JsMap.get id (MemStorage.logs (others n s)) = Some log.

(** The Log that [createLog] files for [l] in the state [w]. *)
Definition logFiled (l : InsertLog.t) (w : World) : Log.t :=
  Log.mk (MemStorage.currentId (storage w)) (InsertLog.level l) (InsertLog.message l)
    (InsertLog.details l) (InsertLog.source l) (clock w (S (ticks w))).

(** The messages of a WhatsApp delivery: those of the [messages] arrays of
    the changes of field [messages], in the order of the body. *)
Definition whatsAppMessages (body : WhatsApp.Body) : list WhatsApp.Message :=
  if strictEq (WhatsApp.object body) (Some "whatsapp_business_account") then
    match WhatsApp.entry body with
    | Array entries =>
        List.flat_map
          (fun entry =>
             match WhatsApp.changes entry with
             | Array changes =>
                 List.flat_map
                   (fun change =>
                      if strictEq (WhatsApp.field change) (Some "messages") then
                        match WhatsApp.messages change with
                        | Array messages => messages
                        | _ => []
                        end
                      else [])
                   changes
             | _ => []
             end)
          entries
    | _ => []
    end
  else [].

(** The events of a Messenger delivery that carry a message. *)
Definition messengerEvents (body : Messenger.Body) : list Messenger.Event :=
  if strictEq (Messenger.object body) (Some "page") then
    match Messenger.entry body with
    | Array entries =>
        List.flat_map
          (fun entry =>
             match Messenger.messaging entry with
             | Array events =>
                 List.filter
                   (fun event =>
                      match Messenger.message event with
                      | Some _ => true
                      | None => false
                      end)
                   events
             | _ => []
             end)
          entries
    | _ => []
    end
  else [].

(** ** Vocabulary of the fan-out *)


(** What an observer's socket shows of its snapshot: the state of the socket
    and the messages of the snapshot frames sent through it. *)
Definition observed (ws : nat) (w : World)
  : option (ReadyState * list WebSocketMessage) :=
  match sockets (wss w) !! ws with
  | Some sock =>
      Some (readyState sock,
            List.map snd (List.filter WebSocketManager.isSnapshot (frames sock)))
  | None => None
  end.

(** The model that [getCurrentMlModel] returns: the first one marked ready. *)
Definition readyModel (s : MemStorage.t) : option MlModel.t :=
  List.find (fun m => String.eqb (MlModel.status m) "ready")
            (JsMap.values (MemStorage.mlModels s)).


(** A computation leaves the sockets and the client set alone. *)
Definition keepsSockets {A} (m : M A) : Prop :=
  forall w, wss (snd (m w)) = wss w.




(** The start of the UTC day. *)
Definition utcMidnight (t : Z) : Z := t - t mod 86400000.

(** ** Vocabulary of the training routines *)

(** The training samples that [MLTrainer.trainFromConversations] collects
    from a store: for every conversation in store order, the pairs found in
    its messages. *)
Definition harvest (s : MemStorage.t) : list TrainingData.t :=
  List.flat_map
    (fun c =>
       MLTrainer.trainingPairs
         (List.filter (fun m => Message.conversationId m =? Conversation.id c)
                      (JsMap.values (MemStorage.messages s))))
    (JsMap.values (MemStorage.conversations s)).

(** A world in which a recorded conversation has one exchange. *)
Module Scenario.

Definition chatted : MemStorage.t :=
  Storage.setCurrentId 13
    (Storage.setMessages
       [ (11, Message.mk 11 10 "hello" "user" None None None 1700000000100);
         (12, Message.mk 12 10 "Hello! How can I help you today?" "bot"
                (Some (75 # 100)) (Some 3) None 1700000000103) ]
       (Storage.setConversations
          [ (10, Conversation.mk 10 2 "4242" (Some "Sam") "active" 2
                   (Some 1700000000104) 1700000000099 1700000000104) ]
          (Sample.initialStorage 1700000000000 12 34 56))).

Definition chattedWorld : World := Sample.worldOf chatted.

End Scenario.

(** ** Vocabulary of the record store *)

(** Every key of a table lies below the id counter. *)
Definition below {V} (n : Z) (m : JsMap.t V) : Prop :=
  List.Forall (fun k => k < n) (JsMap.keys m).

(** A table in order: every record under its own id, once, and every id
    already handed out by the counter. *)
Definition tableOk {V} (id : V -> Z) (n : Z) (m : JsMap.t V) : Prop :=
  keyed id m /\ below n m.

(** The store in order: all seven tables are, against the one counter that
    they share. *)
Definition wellFormed (s : MemStorage.t) : Prop :=
  tableOk Platform.id (MemStorage.currentId s) (MemStorage.platforms s)
  /\ tableOk Conversation.id (MemStorage.currentId s) (MemStorage.conversations s)
  /\ tableOk Message.id (MemStorage.currentId s) (MemStorage.messages s)
  /\ tableOk Template.id (MemStorage.currentId s) (MemStorage.templates s)
  /\ tableOk MlModel.id (MemStorage.currentId s) (MemStorage.mlModels s)
  /\ tableOk Log.id (MemStorage.currentId s) (MemStorage.logs s)
  /\ tableOk BotConfig.id (MemStorage.currentId s) (MemStorage.botConfigs s).

(** A computation keeps the store in order. *)
Definition preserves {A} (m : M A) : Prop :=
  forall w, wellFormed (storage w) -> wellFormed (storage (snd (m w))).

(** [m'] is [m] with the record under [k] replaced by [v]: same keys in the
    same order, [v] under [k], every other record as before. *)
Definition replaced {V} (k : Z) (v : V) (m m' : JsMap.t V) : Prop :=
  JsMap.keys m' = JsMap.keys m
  /\ JsMap.get k m' = Some v
  /\ forall k', k' <> k -> JsMap.get k' m' = JsMap.get k' m.

(** Newest first. *)
Definition newerMessage (a b : Message.t) : Prop := Message.sentAt b <= Message.sentAt a.

Definition newerLog (a b : Log.t) : Prop := Log.createdAt b <= Log.createdAt a.

(** A store that refuses to look the current model up and answers
    everything else. *)
Definition modelLookupFails : StorageOp -> nat -> option string := fun op _ =>
  match op with
  | GetCurrentMlModel => Some "connection terminated"
  | _ => None
  end.

(** ** Vocabulary of delivery *)

Definition isOpen (sock : Socket) : bool :=
  match readyState sock with OPEN => true | _ => false end.

(** A socket after one more frame has been sent through it. *)
Definition pushed (origin : Origin) (message : WebSocketMessage) (sock : Socket) : Socket :=
  mkSocket OPEN (frames sock ++ [(origin, message)]).

(** The sockets after [message] has gone to the open ones among [targets]. *)
Definition deliveredTo (targets : list nat) (origin : Origin) (message : WebSocketMessage)
    (before : gmap nat Socket) (ws : nat) : option Socket :=
  match before !! ws with
  | Some sock =>
      Some (if bool_decide (ws ∈ targets) && isOpen sock
            then pushed origin message sock else sock)
  | None => None
  end.

(** A socket that has been closed and dropped from the client set, with the
    frames [sent] through it while it was open. *)
Definition closedAt (ws : nat) (sent : list (Origin * WebSocketMessage)) (w : World)
  : Prop :=
  sockets (wss w) !! ws = Some (mkSocket CLOSED sent) /\ ws ∉ clients (wss w).

(** Two dashboard clients: an open one, and one whose connection is gone
    while its [close] callback has not run yet. *)
Definition twoClients : World :=
  withWss (mkWsState [1%nat; 2%nat]
             (<[1%nat := mkSocket OPEN []]> (<[2%nat := mkSocket CLOSED []]> ∅)))
          Sample.freshWorld.

(** ** Vocabulary of the conversation table *)

(** Whom a conversation is with: the platform and the platform's user id. *)
Definition userKey (c : Conversation.t) : Z * string :=
  (Conversation.platformId c, Conversation.userId c).

(** No two stored conversations are with the same user of the same
    platform. *)
Definition oneConversationPerUser (s : MemStorage.t) : Prop :=
  List.NoDup (List.map userKey (JsMap.values (MemStorage.conversations s))).

(** The store in order, with one conversation per user. *)
Definition tidy (w : World) : Prop :=
  wellFormed (storage w) /\ oneConversationPerUser (storage w).

Definition keepsTidy {A} (m : M A) : Prop :=
  forall w, tidy w -> tidy (snd (m w)).

(** The client set holds each socket once, and only sockets the manager has
    been handed. *)
Definition clientsOk (w : World) : Prop :=
  NoDup (clients (wss w))
  /\ forall ws, ws ∈ clients (wss w) -> is_Some (sockets (wss w) !! ws).

(** * Properties *)

(** ** Sanity checks of the string primitives and of the classifier *)

Example processMessage_hello_there :
  let p := SimpleNLPProcessor.processMessage "hello there" in
  ProcessedMessage.intent p = "greeting" /\ ProcessedMessage.sentiment p = neutral
  /\ ProcessedMessage.keywords p = ["hello"].
Proof. vm_compute. auto. Qed.

Example replace_first_only :
  Js.replace "{a}-{a}" "{a}" "x" = "x-{a}".
Proof. reflexivity. Qed.

Example replace_dollar_patterns :
  Js.replace "<{a}>" "{a}" "$$|$&|$`|$'|$1" = "<$|{a}|<|>|$1>".
Proof. reflexivity. Qed.

(** Quotients are rounded as doubles: 23 replies to 40 messages are a rate
    of 57, because 23 / 40 is the double just below 0.575 and its product
    with 100 the double just below 57.5. *)
Example mathRound_samples :
  WebSocketManager.mathRound
    (Double.mul (Double.div (Double.ofInt 23) (Double.ofInt 40)) (Double.ofInt 100)) = 57
  /\ WebSocketManager.mathRound (Double.div (Double.ofInt 5) (Double.ofInt 2)) = 3
  /\ WebSocketManager.mathRound (Double.div (Double.ofInt (-5)) (Double.ofInt 2)) = -2
  /\ WebSocketManager.mathRound (Double.div (Double.ofInt 7) (Double.ofInt 3)) = 2
  /\ WebSocketManager.mathRound
       (Double.mul (Double.div (Double.ofInt 1) (Double.ofInt 3)) (Double.ofInt 100)) = 33.
Proof. vm_compute. auto. Qed.

Example split_trim_samples :
  Js.split_space "a  b" = ["a"; ""; "b"] /\ Js.split_space "" = [""]
  /\ Js.trim "  Hi You  " = "Hi You" /\ Js.toLowerCase "Hi You" = "hi you".
Proof. vm_compute. auto. Qed.

(** A no-break space (160) is trimmed like a space, and the capital E with
    acute (201) has the lower-case form 233; the multiplication sign (215)
    and the sharp s (223) stay. *)
Example trim_lower_latin1 :
  let nbsp := ascii_of_nat 160 in
  Js.trim (String nbsp (String " " ("Hi" ++ String nbsp EmptyString))) = "Hi"
  /\ Js.toLowerCase (String (ascii_of_nat 201) "T")
     = String (ascii_of_nat 233) "t"
  /\ Js.toLowerCase (String (ascii_of_nat 215) (String (ascii_of_nat 223) "Z"))
     = String (ascii_of_nat 215) (String (ascii_of_nat 223) "z")
  /\ ProcessedMessage.intent
       (SimpleNLPProcessor.processMessage (String nbsp ("HELLO" ++ String nbsp EmptyString)))
     = "greeting".
Proof. vm_compute. auto. Qed.

(** ** The canned response generator *)

Lemma cannedResponse_in (intent : string) :
  In (SimpleMLTrainer.cannedResponse intent) SimpleMLTrainer.cannedResponses.
Proof.
  unfold SimpleMLTrainer.cannedResponse, SimpleMLTrainer.cannedResponses.
  repeat match goal with
         | |- context [String.eqb ?a ?b] => destruct (String.eqb a b)
         end; simpl; tauto.
Qed.

(** C9.  Whatever the text and the platform id, [SimpleMLTrainer.generateResponse]
    (the generator the channel adapters call) returns normally and leaves the
    whole process state as it found it: the store is the same and no storage
    method has been called, so no bot configuration is read, no template is
    looked up and no usage counter is written.  Its response is the canned
    text of the classified intent, one of seven fixed strings, and its value
    does not depend on the platform id. *)
Theorem simple_generateResponse_pure (message : string) (platformId : Z) (w : World) :
  let processed := SimpleNLPProcessor.processMessage message in
  SimpleMLTrainer.generateResponse message platformId w
  = (Ok (SimpleResponse.mk
           (SimpleMLTrainer.cannedResponse (ProcessedMessage.intent processed))
           (ProcessedMessage.confidence processed)
           (ProcessedMessage.intent processed)), w)
  /\ In (SimpleMLTrainer.cannedResponse (ProcessedMessage.intent processed))
        SimpleMLTrainer.cannedResponses
  /\ List.length SimpleMLTrainer.cannedResponses = 7%nat
  /\ forall otherPlatform : Z,
       SimpleMLTrainer.generateResponse message otherPlatform w
       = SimpleMLTrainer.generateResponse message platformId w.
Proof.
  cbv zeta. split; [reflexivity|]. split; [apply cannedResponse_in|].
  split; reflexivity.
Qed.

(** ** The greeting scenario *)

(** C1.  On the code, ["hello there"] is classified as [greeting], but with
    confidence 0.75, not 75.  Under the default configuration (threshold 75)
    [MLTrainer.generateResponse] therefore takes the fallback branch and
    answers with the fallback message, not with a greeting; the greeting text
    is what [SimpleMLTrainer.generateResponse] answers, without consulting
    the threshold. *)
Theorem greeting_scenario_on_code :
  let processed := SimpleNLPProcessor.processMessage "hello there" in
  ProcessedMessage.intent processed = "greeting"
  /\ ProcessedMessage.confidence processed = 75 # 100
  /\ ~ (ProcessedMessage.confidence processed == 75)%Q
  /\ option_map BotConfig.confidenceThreshold
       (JsMap.get 1 (MemStorage.botConfigs (storage Sample.freshWorld))) = Some 75
  /\ fst (MLTrainer.generateResponse "hello there" 1 Sample.freshWorld)
     = Ok (BotResponse.mk "Sorry, I didn't understand that. Can you please rephrase?"
                          (75 # 100) None)
  /\ fst (SimpleMLTrainer.generateResponse "hello there" 1 Sample.freshWorld)
     = Ok (SimpleResponse.mk "Hello! How can I help you today?" (75 # 100) "greeting").
Proof.
  cbv zeta. repeat split; try (vm_compute; reflexivity).
  vm_compute. discriminate.
Qed.

(** ** The insertion-ordered map *)

Lemma JsMap_get_set_eq {V} (k : Z) (v : V) (m : JsMap.t V) :
  JsMap.get k (JsMap.set k v m) = Some v.
Proof.
  induction m as [|[k' v'] m IH]; simpl.
  - now rewrite Z.eqb_refl.
  - destruct (k' =? k) eqn:E; simpl.
    + now rewrite Z.eqb_refl.
    + now rewrite E.
Qed.

Lemma JsMap_get_set_ne {V} (k k' : Z) (v : V) (m : JsMap.t V) :
  k <> k' -> JsMap.get k' (JsMap.set k v m) = JsMap.get k' m.
Proof.
  intros Hne. induction m as [|[k0 v0] m IH]; simpl.
  - destruct (k =? k') eqn:E; [apply Z.eqb_eq in E; contradiction | reflexivity].
  - destruct (k0 =? k) eqn:E; simpl.
    + apply Z.eqb_eq in E. subst k0.
      destruct (k =? k') eqn:E'; [apply Z.eqb_eq in E'; contradiction | reflexivity].
    + destruct (k0 =? k'); [reflexivity | apply IH].
Qed.

(** ** Falsy values in [createMessage] *)

Lemma truthyNum_zero (q : Q) : (q == 0)%Q -> Js.truthyNum q = false.
Proof.
  unfold Qeq, Js.truthyNum. simpl. intros H.
  assert (Qnum q = 0) as -> by lia. reflexivity.
Qed.

(** C10.  [MemStorage.createMessage] stores [null] for a confidence of 0 and
    for a response time of 0, each on its own account.  A call with a zero
    confidence is the same computation as the call with [null] there, whatever
    the response time, and a call with a zero response time is the same
    computation as the call with [null] there, whatever the confidence: the
    stored message, the value returned and the whole resulting state coincide
    with those of a message whose field was [null], as it is for a user
    message.  When the store accepts the call the message filed under the new
    id has [null] in the zero field, while a confidence and a response time
    that are not zero are stored as they were given. *)
Theorem createMessage_zero_stored_as_null
    (conversationId : Z) (content sender : string) (zero : Q)
    (confidence : option Q) (responseTime templateId : option Z) (w : World) :
  (zero == 0)%Q ->
  Storage.createMessage
    (InsertMessage.mk conversationId content sender (Some zero) responseTime templateId) w
  = Storage.createMessage
      (InsertMessage.mk conversationId content sender None responseTime templateId) w
  /\ Storage.createMessage
       (InsertMessage.mk conversationId content sender confidence (Some 0) templateId) w
     = Storage.createMessage
         (InsertMessage.mk conversationId content sender confidence None templateId) w
  /\ (rejects w CreateMessage (ticks w) = None ->
      (exists stored w',
         Storage.createMessage
           (InsertMessage.mk conversationId content sender (Some zero) responseTime
              templateId) w
         = (Ok stored, w')
         /\ JsMap.get (Message.id stored) (MemStorage.messages (storage w')) = Some stored
         /\ Message.confidence stored = None
         /\ (forall t : Z, responseTime = Some t -> t <> 0 ->
             Message.responseTime stored = Some t))
      /\ (exists stored w',
            Storage.createMessage
              (InsertMessage.mk conversationId content sender confidence (Some 0)
                 templateId) w
            = (Ok stored, w')
            /\ JsMap.get (Message.id stored) (MemStorage.messages (storage w')) = Some stored
            /\ Message.responseTime stored = None
            /\ (forall c : Q, confidence = Some c -> ~ (c == 0)%Q ->
                Message.confidence stored = Some c))).
Proof.
  intros Hzero.
  assert (Hnull : Js.orNullNum (Some zero) = None).
  { simpl. now rewrite truthyNum_zero. }
  split; [|split].
  - unfold Storage.createMessage. cbn [InsertMessage.confidence]. now rewrite Hnull.
  - reflexivity.
  - intros Hacc. unfold Storage.createMessage, await. rewrite Hacc.
    cbn [InsertMessage.confidence InsertMessage.responseTime]. rewrite Hnull.
    split.
    + eexists. eexists. split; [reflexivity|].
      cbn. split; [apply JsMap_get_set_eq|]. split; [reflexivity|].
      intros t -> Ht. cbn. unfold Js.truthyInt.
      destruct (t =? 0) eqn:E; [apply Z.eqb_eq in E; contradiction | reflexivity].
    + eexists. eexists. split; [reflexivity|].
      cbn. split; [apply JsMap_get_set_eq|]. split; [reflexivity|].
      intros c -> Hc. cbn. unfold Js.truthyNum.
      destruct (Qnum c =? 0) eqn:E; [|reflexivity].
      apply Z.eqb_eq in E. exfalso. apply Hc. unfold Qeq. simpl. lia.
Qed.

(** ** Running the monad *)

Lemma ltNum_spec (a b : Q) : ltNum a b = true <-> (a < b)%Q.
Proof.
  unfold ltNum. rewrite negb_true_iff. split.
  - intros H. apply Qnot_le_lt. intros Hle. apply Qle_bool_iff in Hle. congruence.
  - intros H. destruct (Qle_bool b a) eqn:E; [|reflexivity].
    apply Qle_bool_iff in E. exfalso. exact (Qlt_not_le _ _ H E).
Qed.

Lemma ltNum_false (a b : Q) : ltNum a b = false <-> ~ (a < b)%Q.
Proof.
  rewrite <- ltNum_spec. destruct (ltNum a b); split; intros; congruence.
Qed.

Lemma await_accepted {A} (op : StorageOp) (method : M A) (w : World) :
  rejects w op (ticks w) = None -> await op method w = method (called op w).
Proof. intros H. unfold await. now rewrite H. Qed.

Lemma bind_eq {A B} (m : M A) (k : A -> M B) (w : World) :
  (m ≫= k) w = match m w with
               | (Ok a, w') => k a w'
               | (Throw e, w') => (Throw e, w')
               end.
Proof. reflexivity. Qed.

Ltac monad_unfold :=
  unfold mbind, M_bind, mret, M_ret, getStorage, putStorage, throw in *.

(** ** The confidence threshold *)

(** C2 (as amended).  When the classified confidence is below the configured
    threshold, the selector returns exactly the configured fallback message
    with that confidence and no template id; the only storage method it has
    called is [getBotConfig], so no template was looked up, and the store is
    the one it started from, so no usage counter was written. *)
Theorem fallback_below_threshold
    (processed : ProcessedMessage.t) (w : World) (botConfig : BotConfig.t) :
  rejects w GetBotConfig (ticks w) = None ->
  JsMap.get 1 (MemStorage.botConfigs (storage w)) = Some botConfig ->
  (ProcessedMessage.confidence processed
   < inject_Z (BotConfig.confidenceThreshold botConfig))%Q ->
  exists w',
    MLTrainer.respond processed w
    = (Ok (BotResponse.mk (BotConfig.fallbackMessage botConfig)
                          (ProcessedMessage.confidence processed) None), w')
    /\ storage w' = storage w
    /\ calls w' = (calls w ++ [GetBotConfig])%list.
Proof.
  intros Hacc Hcfg Hlt. apply ltNum_spec in Hlt.
  unfold MLTrainer.respond, Storage.getBotConfig.
  rewrite bind_eq, await_accepted by assumption.
  monad_unfold. cbn. rewrite Hcfg, Hlt. eexists. split; [reflexivity|]. split; reflexivity.
Qed.

Lemma fallback_below_threshold_witness :
  (75 # 100 < inject_Z 75)%Q
  /\ exists w',
       MLTrainer.respond (SimpleNLPProcessor.processMessage "hello there") Sample.freshWorld
       = (Ok (BotResponse.mk "Sorry, I didn't understand that. Can you please rephrase?"
                             (75 # 100) None), w')
       /\ storage w' = storage Sample.freshWorld
       /\ calls w' = [GetBotConfig].
Proof.
  split; [reflexivity|].
  apply (fallback_below_threshold
           (SimpleNLPProcessor.processMessage "hello there") Sample.freshWorld
           (Sample.defaultBotConfig 1700000000000)); reflexivity.
Defined.

(** The converse of C2 fails on the code: with the threshold at 0 the text
    ["xyzzy plugh"] has confidence 0.75, not below the threshold, and the
    selector still answers with the fallback message, because no template
    matches [general_inquiry] and the canned table has no entry for it. *)
Lemma fallback_without_low_confidence :
  ~ (forall (message : string) (w w' : World) (botConfig : BotConfig.t) (r : BotResponse.t),
       JsMap.get 1 (MemStorage.botConfigs (storage w)) = Some botConfig ->
       MLTrainer.generateResponse message 1 w = (Ok r, w') ->
       (BotResponse.response r = BotConfig.fallbackMessage botConfig
        <-> (ProcessedMessage.confidence (SimpleNLPProcessor.processMessage message)
             < inject_Z (BotConfig.confidenceThreshold botConfig))%Q)).
Proof.
  intros claim.
  destruct (MLTrainer.generateResponse "xyzzy plugh" 1 Sample.lenientWorld) as [o w'] eqn:E.
  assert (Ho : o = Ok (BotResponse.mk
                         "Sorry, I didn't understand that. Can you please rephrase?"
                         (75 # 100) None)).
  { apply (f_equal fst) in E. cbn [fst snd] in E. rewrite <- E. vm_compute. reflexivity. }
  subst o.
  pose proof (claim "xyzzy plugh" Sample.lenientWorld w' _ _ eq_refl E) as [Hlt _].
  specialize (Hlt eq_refl). vm_compute in Hlt. discriminate.
Qed.

(** ** Template selection *)

Lemma JsMap_get_in {V} (k : Z) (v : V) (m : JsMap.t V) :
  List.NoDup (JsMap.keys m) -> In (k, v) m -> JsMap.get k m = Some v.
Proof.
  induction m as [|[k' v'] m IH]; simpl; [tauto|].
  intros Hnd [Heq|Hin].
  - inversion Heq; subst. now rewrite Z.eqb_refl.
  - inversion Hnd as [|? ? Hnotin Hnd']; subst.
    destruct (k' =? k) eqn:E.
    + apply Z.eqb_eq in E. subst k'. exfalso. apply Hnotin.
      unfold JsMap.keys. apply in_map_iff. exists (k, v). split; [reflexivity|assumption].
    + now apply IH.
Qed.

Lemma keyed_get {V} (id : V -> Z) (m : JsMap.t V) (v : V) :
  keyed id m -> In v (JsMap.values m) -> JsMap.get (id v) m = Some v.
Proof.
  intros [Hnd Hid] Hin. unfold JsMap.values in Hin.
  apply in_map_iff in Hin as [[k v'] [Hv Hin]]. simpl in Hv. subst v'.
  rewrite List.Forall_forall in Hid. specialize (Hid _ Hin). simpl in Hid. rewrite Hid.
  now apply JsMap_get_in.
Qed.

Lemma find_first {A} (f : A -> bool) (pre post : list A) (x : A) :
  forallb (fun y => negb (f y)) pre = true -> f x = true ->
  List.find f (pre ++ x :: post) = Some x.
Proof.
  intros Hpre Hx. induction pre as [|y pre IH]; simpl in *.
  - now rewrite Hx.
  - apply andb_true_iff in Hpre as [Hy Hpre]. apply negb_true_iff in Hy.
    rewrite Hy. now apply IH.
Qed.

Lemma find_first_inv {A} (f : A -> bool) (l : list A) (x : A) :
  List.find f l = Some x ->
  exists pre post, l = (pre ++ x :: post)%list
                   /\ forallb (fun y => negb (f y)) pre = true /\ f x = true.
Proof.
  induction l as [|y l IH]; simpl; [discriminate|].
  destruct (f y) eqn:E.
  - intros [= ->]. exists [], l. simpl. auto.
  - intros H. destruct (IH H) as (pre & post & -> & Hpre & Hx).
    exists (y :: pre), post. simpl. rewrite E. auto.
Qed.

(** The selector on its template branch: the configuration is there, the
    confidence is not below the threshold, [find] returns [t] and the store
    holds a record under the id of [t]. *)
Lemma respond_with_template
    (processed : ProcessedMessage.t) (w : World) (botConfig : BotConfig.t)
    (t existing : Template.t) (response : string) :
  available w ->
  JsMap.get 1 (MemStorage.botConfigs (storage w)) = Some botConfig ->
  ltNum (ProcessedMessage.confidence processed)
        (inject_Z (BotConfig.confidenceThreshold botConfig)) = false ->
  List.find (MLTrainer.matchesIntent (ProcessedMessage.intent processed))
            (JsMap.values (MemStorage.templates (storage w))) = Some t ->
  JsMap.get (Template.id t) (MemStorage.templates (storage w)) = Some existing ->
  MLTrainer.substituteVariables t (ProcessedMessage.entities processed) = Ok response ->
  exists w',
    MLTrainer.respond processed w
    = (Ok (BotResponse.mk response (ProcessedMessage.confidence processed)
                          (Some (Template.id t))), w')
    /\ storage w'
       = Storage.setTemplates
           (JsMap.set (Template.id t)
              (Storage.mergeTemplate existing
                 (MLTrainer.usageUpdate (Template.usageCount t + 1))
                 (clock w (3 + ticks w)%nat))
              (MemStorage.templates (storage w)))
           (storage w)
    /\ rejects w' = rejects w
    /\ calls w' = (calls w ++ [GetBotConfig; GetAllTemplates; UpdateTemplate])%list.
Proof.
  intros Hav Hcfg Hlt Hfind Hget Hsubst.
  unfold MLTrainer.respond, Storage.getBotConfig, Storage.getAllTemplates,
    Storage.updateTemplate.
  monad_unfold.
  rewrite await_accepted by apply Hav. cbn. rewrite Hcfg, Hlt.
  rewrite await_accepted by apply Hav. cbn. rewrite Hfind, Hsubst.
  rewrite await_accepted by apply Hav. cbn. rewrite Hget. cbn.
  eexists. split; [reflexivity|]. cbn. rewrite <- !app_assoc. auto.
Qed.

(** The same branch when the substitution throws: the error leaves the
    selector before [updateTemplate] is called. *)
Lemma respond_substitution_throws
    (processed : ProcessedMessage.t) (w : World) (botConfig : BotConfig.t)
    (t : Template.t) (e : exn) :
  available w ->
  JsMap.get 1 (MemStorage.botConfigs (storage w)) = Some botConfig ->
  ltNum (ProcessedMessage.confidence processed)
        (inject_Z (BotConfig.confidenceThreshold botConfig)) = false ->
  List.find (MLTrainer.matchesIntent (ProcessedMessage.intent processed))
            (JsMap.values (MemStorage.templates (storage w))) = Some t ->
  MLTrainer.substituteVariables t (ProcessedMessage.entities processed) = Throw e ->
  exists w',
    MLTrainer.respond processed w = (Throw e, w')
    /\ storage w' = storage w
    /\ rejects w' = rejects w
    /\ calls w' = (calls w ++ [GetBotConfig; GetAllTemplates])%list.
Proof.
  intros Hav Hcfg Hlt Hfind Hsubst.
  unfold MLTrainer.respond, Storage.getBotConfig, Storage.getAllTemplates.
  monad_unfold.
  rewrite await_accepted by apply Hav. cbn. rewrite Hcfg, Hlt.
  rewrite await_accepted by apply Hav. cbn. rewrite Hfind, Hsubst.
  eexists. split; [reflexivity|]. cbn. rewrite <- !app_assoc. auto.
Qed.

(** C5.  What the code does where the specification asks for active
    templates only.  When the confidence is not below the threshold, the selector searches all
    stored templates in store order and takes the first one whose lower-cased
    category or name contains the intent label, whatever its [isActive] flag:
    if the stored templates are [pre ++ t :: post], nothing in [pre] matches
    and [t] matches, the answer is made from [t] (its content after
    substitution, with the id of [t], or the error of the substitution), be
    [t] active or not. *)
Theorem first_matching_template_selected
    (processed : ProcessedMessage.t) (w : World) (botConfig : BotConfig.t)
    (pre post : list Template.t) (t : Template.t) :
  available w ->
  keyed Template.id (MemStorage.templates (storage w)) ->
  JsMap.get 1 (MemStorage.botConfigs (storage w)) = Some botConfig ->
  ~ (ProcessedMessage.confidence processed
     < inject_Z (BotConfig.confidenceThreshold botConfig))%Q ->
  JsMap.values (MemStorage.templates (storage w)) = (pre ++ t :: post)%list ->
  (forall t', In t' pre ->
     Js.includes (Js.toLowerCase (Template.category t')) (ProcessedMessage.intent processed)
     = false
     /\ Js.includes (Js.toLowerCase (Template.name t')) (ProcessedMessage.intent processed)
        = false) ->
  (Js.includes (Js.toLowerCase (Template.category t)) (ProcessedMessage.intent processed)
   = true
   \/ Js.includes (Js.toLowerCase (Template.name t)) (ProcessedMessage.intent processed)
      = true) ->
  fst (MLTrainer.respond processed w) = answerFrom t processed.
Proof.
  intros Hav Hkeyed Hcfg Hge Hvalues Hpre Ht.
  apply ltNum_false in Hge.
  assert (Hfind : List.find (MLTrainer.matchesIntent (ProcessedMessage.intent processed))
                            (JsMap.values (MemStorage.templates (storage w))) = Some t).
  { rewrite Hvalues. apply find_first.
    - apply forallb_forall. intros t' Hin. destruct (Hpre t' Hin) as [Hc Hn].
      unfold MLTrainer.matchesIntent. now rewrite Hc, Hn.
    - unfold MLTrainer.matchesIntent. apply orb_true_iff. exact Ht. }
  assert (Hget : JsMap.get (Template.id t) (MemStorage.templates (storage w)) = Some t).
  { apply keyed_get; [assumption|]. rewrite Hvalues. apply in_or_app. right. now left. }
  unfold answerFrom.
  destruct (MLTrainer.substituteVariables t (ProcessedMessage.entities processed))
    as [response|e] eqn:Hsubst.
  - destruct (respond_with_template processed w botConfig t t response
                Hav Hcfg Hge Hfind Hget Hsubst) as (w' & -> & _).
    reflexivity.
  - destruct (respond_substitution_throws processed w botConfig t e
                Hav Hcfg Hge Hfind Hsubst) as (w' & -> & _).
    reflexivity.
Qed.

Lemma first_matching_template_selected_witness :
  Template.isActive Sample.retiredWelcome = false
  /\ fst (MLTrainer.respond (SimpleNLPProcessor.processMessage "hello there")
            Sample.retiredWorld)
     = Ok (BotResponse.mk
             "Hello! Welcome to LuvSmithCorp. How can I assist you today?"
             (75 # 100) (Some 1)).
Proof.
  split; [reflexivity|].
  eapply (first_matching_template_selected
            (SimpleNLPProcessor.processMessage "hello there") Sample.retiredWorld
            _ [] [] Sample.retiredWelcome).
  3: reflexivity.
  - intros op n. reflexivity.
  - split; simpl.
    + constructor; [simpl; tauto | constructor].
    + constructor; [reflexivity | constructor].
  - vm_compute. discriminate.
  - reflexivity.
  - intros t' [].
  - left. vm_compute. reflexivity.
Defined.

(** C5 as stated fails on the code: with the welcome template switched off,
    ["hello there"] is still answered from it. *)
Lemma inactive_template_selected :
  ~ (forall (message : string) (w w' : World) (r : BotResponse.t) (templateId : Z),
       MLTrainer.generateResponse message 1 w = (Ok r, w') ->
       BotResponse.templateId r = Some templateId ->
       exists t, In t (JsMap.values (MemStorage.templates (storage w)))
                 /\ Template.id t = templateId /\ Template.isActive t = true).
Proof.
  intros claim.
  destruct (MLTrainer.generateResponse "hello there" 1 Sample.retiredWorld) as [o w'] eqn:E.
  assert (Ho : o = Ok (BotResponse.mk
                         "Hello! Welcome to LuvSmithCorp. How can I assist you today?"
                         (75 # 100) (Some 1))).
  { apply (f_equal fst) in E. cbn [fst snd] in E. rewrite <- E. vm_compute. reflexivity. }
  subst o.
  destruct (claim "hello there" Sample.retiredWorld w' _ 1 E eq_refl) as (t & Hin & _ & Hact).
  simpl in Hin. destruct Hin as [<-|[]]. discriminate.
Qed.

(** ** The usage counter *)

Lemma JsMap_keys_set {V} (k : Z) (v : V) (m : JsMap.t V) :
  In k (JsMap.keys m) -> JsMap.keys (JsMap.set k v m) = JsMap.keys m.
Proof.
  induction m as [|[k' v'] m IH]; simpl; [tauto|].
  intros Hin. destruct (k' =? k) eqn:E; simpl.
  - apply Z.eqb_eq in E. now subst.
  - f_equal. apply IH. destruct Hin as [Heq|Hin]; [|assumption].
    apply Z.eqb_neq in E. contradiction.
Qed.

Lemma JsMap_get_some_in {V} (k : Z) (v : V) (m : JsMap.t V) :
  JsMap.get k m = Some v -> In (k, v) m.
Proof.
  induction m as [|[k' v'] m IH]; simpl; [discriminate|].
  destruct (k' =? k) eqn:E.
  - intros [= ->]. apply Z.eqb_eq in E. subst. now left.
  - intros H. right. now apply IH.
Qed.

Lemma JsMap_in_set {V} (k : Z) (v : V) (m : JsMap.t V) (kv : Z * V) :
  In kv (JsMap.set k v m) -> kv = (k, v) \/ In kv m.
Proof.
  induction m as [|[k' v'] m IH]; simpl.
  - intros [H|[]]. now left.
  - destruct (k' =? k); simpl; intros [H|H]; auto.
    destruct (IH H); auto.
Qed.

Lemma keyed_set {V} (id : V -> Z) (m : JsMap.t V) (k : Z) (v old : V) :
  keyed id m -> JsMap.get k m = Some old -> id v = k -> keyed id (JsMap.set k v m).
Proof.
  intros [Hnd Hid] Hget Hv. split.
  - rewrite JsMap_keys_set; [assumption|].
    apply JsMap_get_some_in in Hget. unfold JsMap.keys.
    apply in_map_iff. now exists (k, old).
  - rewrite List.Forall_forall in *. intros kv Hin.
    apply JsMap_in_set in Hin as [->|Hin]; [assumption|]. now apply Hid.
Qed.

Lemma find_set_same {V} (id : V -> Z) (g : V -> bool) (m : JsMap.t V) (t t' : V) :
  keyed id m -> List.find g (JsMap.values m) = Some t -> g t' = g t ->
  List.find g (JsMap.values (JsMap.set (id t) t' m)) = Some t'.
Proof.
  intros Hkeyed Hfind Hg.
  assert (Hgt : g t = true) by (apply List.find_some in Hfind; tauto).
  induction m as [|[k v] m IH]; simpl in *; [discriminate|].
  destruct Hkeyed as [Hnd Hid].
  inversion Hnd as [|? ? Hnotin Hnd']; subst.
  inversion Hid as [|? ? Hk Hid']; subst. simpl in Hk.
  destruct (g v) eqn:Egv.
  - injection Hfind as ->. rewrite Hk, Z.eqb_refl. simpl. now rewrite Hg, Hgt.
  - destruct (k =? id t) eqn:E.
    + exfalso. apply Z.eqb_eq in E. apply Hnotin.
      apply List.find_some in Hfind as [Hin _].
      unfold JsMap.values in Hin. apply in_map_iff in Hin as [[k' v'] [Hv Hin]].
      simpl in Hv. subst v'. rewrite List.Forall_forall in Hid'.
      specialize (Hid' _ Hin). simpl in Hid'.
      unfold JsMap.keys. apply in_map_iff. exists (k', t). simpl. split; [lia|assumption].
    + simpl. rewrite Egv. apply IH; [split; assumption | assumption].
Qed.





(** ** Template substitution *)

Lemma prefix_app (pat s : string) : String.prefix pat (pat ++ s) = true.
Proof.
  induction pat as [|c pat IH]; simpl.
  - now destruct s.
  - destruct (ascii_dec c c); [assumption | contradiction].
Qed.

Lemma dropChars_app (pat s : string) : Js.dropChars (String.length pat) (pat ++ s) = s.
Proof. induction pat as [|c pat IH]; simpl; [reflexivity | assumption]. Qed.

Lemma occurrences_unfold (pat s : string) :
  occurrences pat s
  = ((if String.prefix pat s then 1 else 0)
     + match s with
       | EmptyString => 0
       | String _ s' => occurrences pat s'
       end)%nat.
Proof. destruct s; reflexivity. Qed.

Lemma splitAtFirst_unfold (pat s : string) :
  Js.splitAtFirst pat s
  = if String.prefix pat s then Some (EmptyString, Js.dropChars (String.length pat) s)
    else match s with
         | EmptyString => None
         | String c s' =>
             match Js.splitAtFirst pat s' with
             | Some (b, a) => Some (String c b, a)
             | None => None
             end
         end.
Proof. destruct s; reflexivity. Qed.

Lemma getSubstitution_dollarFree (matched before after e : string) :
  dollarFree e = true -> Js.getSubstitution matched before after e = e.
Proof.
  induction e as [|c e IH]; simpl; [reflexivity|].
  intros H. apply andb_true_iff in H as [Hc He]. apply negb_true_iff in Hc.
  rewrite Hc. now rewrite IH.
Qed.

Lemma string_app_assoc (a b c : string) : (a ++ b) ++ c = a ++ b ++ c.
Proof.
  induction a as [|x a IH]; [reflexivity|].
  change (String x ((a ++ b) ++ c) = String x (a ++ b ++ c)). now rewrite IH.
Qed.

Lemma occurrences_at_end (pat pre : string) : (1 <= occurrences pat (pre ++ pat))%nat.
Proof.
  induction pre as [|c pre IH].
  - change ("" ++ pat) with pat. rewrite occurrences_unfold.
    assert (String.prefix pat pat = true) as ->; [|lia].
    induction pat as [|c pat IH]; simpl; [reflexivity|].
    destruct (ascii_dec c c); [assumption | contradiction].
  - change (String c pre ++ pat) with (String c (pre ++ pat)).
    rewrite occurrences_unfold. lia.
Qed.

Lemma length_app_ge (pat pre : string) :
  (String.length pat <= String.length (pre ++ pat))%nat.
Proof.
  induction pre as [|c pre IH].
  - change ("" ++ pat) with pat. lia.
  - change (String c pre ++ pat) with (String c (pre ++ pat)).
    cbn [String.length]. lia.
Qed.

(** Whether [pat] starts a text is decided by the first [length pat]
    characters. *)
Lemma prefix_app_long (pat : string) :
  forall x y : string,
    (String.length pat <= String.length x)%nat ->
    String.prefix pat (x ++ y) = String.prefix pat x.
Proof.
  induction pat as [|c pat IH]; intros x y Hlen.
  - destruct x; [destruct y|]; reflexivity.
  - destruct x as [|d x]; simpl in *; [lia|].
    destruct (ascii_dec c d); [apply IH; lia | reflexivity].
Qed.

(** [replace] rewrites the occurrence of the pattern that starts first,
    whatever follows it. *)
Lemma splitAtFirst_at (pat pre post : string) :
  occurrences pat (pre ++ pat) = 1%nat ->
  Js.splitAtFirst pat (pre ++ pat ++ post) = Some (pre, post).
Proof.
  induction pre as [|c pre IH]; intros Honce.
  - change ("" ++ pat ++ post) with (pat ++ post).
    now rewrite splitAtFirst_unfold, prefix_app, dropChars_app.
  - change (String c pre ++ pat) with (String c (pre ++ pat)) in Honce.
    rewrite occurrences_unfold in Honce.
    pose proof (occurrences_at_end pat pre) as Hend.
    destruct (String.prefix pat (String c (pre ++ pat))) eqn:Hhead; [lia|].
    change (String c pre ++ pat ++ post) with (String c (pre ++ pat ++ post)).
    rewrite splitAtFirst_unfold.
    assert (String.prefix pat (String c (pre ++ pat ++ post)) = false) as ->.
    { rewrite <- string_app_assoc.
      change (String c ((pre ++ pat) ++ post)) with (String c (pre ++ pat) ++ post).
      rewrite prefix_app_long; [exact Hhead|].
      pose proof (length_app_ge pat pre). simpl. lia. }
    rewrite IH by lia. reflexivity.
Qed.

Lemma replace_first (pat pre post e : string) :
  occurrences pat (pre ++ pat) = 1%nat -> dollarFree e = true ->
  Js.replace (pre ++ pat ++ post) pat e = pre ++ e ++ post.
Proof.
  intros Honce He. unfold Js.replace.
  rewrite splitAtFirst_at by assumption.
  now rewrite getSubstitution_dollarFree.
Qed.

Lemma substituteVariable_absent (entities : gmap string string) (text variable : string) :
  absent entities variable ->
  MLTrainer.substituteVariable entities text variable = Ok text.
Proof.
  unfold MLTrainer.substituteVariable, JsObject.get.
  intros [H|[H Hnone]]; rewrite H; [reflexivity|]. now rewrite Hnone.
Qed.

Lemma substitute_all_absent (entities : gmap string string) (vs : list string) (text : string) :
  List.Forall (absent entities) vs ->
  MLTrainer.substituteEach entities vs text = Ok text.
Proof.
  induction 1 as [|v vs Hv _ IH]; simpl; [reflexivity|].
  now rewrite substituteVariable_absent.
Qed.

Lemma substituteEach_app (entities : gmap string string) (skipped rest : list string)
    (text : string) :
  List.Forall (absent entities) skipped ->
  MLTrainer.substituteEach entities (skipped ++ rest) text
  = MLTrainer.substituteEach entities rest text.
Proof.
  induction 1 as [|v vs Hv _ IH]; simpl; [reflexivity|].
  now rewrite substituteVariable_absent.
Qed.

(** C4.  What the code does where the specification asks for every
    occurrence.  The substitution step goes through the variables the template declares, in
    order.  (1) A template that declares no variable list keeps its content.
    (2) When for no declared variable the lookup finds something to insert,
    the content is returned as it is, placeholders included.  (3) When that
    holds of the declared variables before [v], [v] has the non-empty,
    dollar-free value [e] and the content is [pre ++ "{v}" ++ post] with the
    placeholder of [v] starting nowhere before that place, the step continues
    with the remaining declared variables on [pre ++ e ++ post]: the first
    occurrence is rewritten and [post] is kept as it is, further occurrences
    included.  (4) The content ["Hi {name}, order {orderNumber}"] with both
    variables declared and the entities [{name: "Sam"}] yields
    ["Hi Sam, order {orderNumber}"].  (5) The content
    ["Hi {name}, thank you {name}"] with the same entities yields
    ["Hi Sam, thank you {name}"].  (6) A value with a dollar sign is read as a
    replacement pattern: with the entities [{name: "$& and $$"}] the same
    content becomes ["Hi {name} and $, thank you {name}"].  (7) With no
    entities at all, the declared variable [toString] finds the function of
    that name which every object inherits, and ["Hi {toString}!"] becomes
    ["Hi [object Undefined]!"], also as the answer of the selector to
    ["hello there"]. *)
Theorem template_substitution (t : Template.t) (entities : gmap string string) :
  (Template.variables t = None ->
   MLTrainer.substituteVariables t entities = Ok (Template.content t))
  /\ (forall declared,
        Template.variables t = Some declared ->
        List.Forall (absent entities) declared ->
        MLTrainer.substituteVariables t entities = Ok (Template.content t))
  /\ (forall skipped v rest e pre post,
        Template.variables t = Some (skipped ++ v :: rest)%list ->
        List.Forall (absent entities) skipped ->
        entities !! v = Some e ->
        e <> EmptyString ->
        dollarFree e = true ->
        Template.content t = pre ++ placeholder v ++ post ->
        occurrences (placeholder v) (pre ++ placeholder v) = 1%nat ->
        MLTrainer.substituteVariables t entities
        = MLTrainer.substituteEach entities rest (pre ++ e ++ post))
  /\ MLTrainer.substituteVariables
       (Template.mk 4 "Order Greeting" "Orders" "Hi {name}, order {orderNumber}"
          (Some ["name"; "orderNumber"]) true 0 1700000000000 1700000000000)
       {[ "name" := "Sam" ]}
     = Ok "Hi Sam, order {orderNumber}"
  /\ MLTrainer.substituteVariables Sample.twiceNamed {[ "name" := "Sam" ]}
     = Ok "Hi Sam, thank you {name}"
  /\ MLTrainer.substituteVariables Sample.twiceNamed {[ "name" := "$& and $$" ]}
     = Ok "Hi {name} and $, thank you {name}"
  /\ MLTrainer.substituteVariables (Sample.greetingWith "toString") ∅
     = Ok "Hi [object Undefined]!"
  /\ fst (MLTrainer.generateResponse "hello there" 1 (Sample.greetingWorld "toString"))
     = Ok (BotResponse.mk "Hi [object Undefined]!" (75 # 100) (Some 1)).
Proof.
  unfold MLTrainer.substituteVariables.
  split; [|split; [|split; [|split; [|split; [|split; [|split]]]]]].
  - now intros ->.
  - intros declared -> Habs. now apply substitute_all_absent.
  - intros skipped v rest e pre post -> Hskipped Hv Hne He Hcontent Honce.
    rewrite substituteEach_app by assumption.
    cbn [MLTrainer.substituteEach].
    unfold MLTrainer.substituteVariable, JsObject.get. rewrite Hv.
    destruct e as [|c e]; [contradiction|].
    cbn [JsObject.truthy Js.truthyString JsObject.replace].
    fold (placeholder v). rewrite Hcontent. now rewrite replace_first.
  - vm_compute. reflexivity.
  - vm_compute. reflexivity.
  - vm_compute. reflexivity.
  - vm_compute. reflexivity.
  - vm_compute. reflexivity.
Qed.

Lemma template_substitution_witness :
  ({[ "name" := "Sam" ]} : gmap string string) !! "name" = Some "Sam"
  /\ occurrences (placeholder "name") ("Hi " ++ placeholder "name") = 1%nat
  /\ MLTrainer.substituteVariables Sample.twiceNamed {[ "name" := "Sam" ]}
     = MLTrainer.substituteEach {[ "name" := "Sam" ]} []
         ("Hi " ++ "Sam" ++ ", thank you {name}").
Proof.
  split; [vm_compute; reflexivity|]. split; [vm_compute; reflexivity|].
  apply (proj1 (proj2 (proj2
           (template_substitution Sample.twiceNamed {[ "name" := "Sam" ]})))
           [] "name" [] "Sam" "Hi " ", thank you {name}").
  - reflexivity.
  - constructor.
  - vm_compute. reflexivity.
  - discriminate.
  - reflexivity.
  - reflexivity.
  - vm_compute. reflexivity.
Defined.

(** What the other members of [Object.prototype] do to a greeting that
    declares a variable of their name: [constructor] puts the placeholder
    back, [isPrototypeOf] inserts [false], [__proto__] inserts the name of
    the class of objects, and [valueOf], like the remaining seven, throws. *)
Example inherited_members :
  MLTrainer.substituteVariables (Sample.greetingWith "constructor") ∅
  = Ok "Hi {constructor}!"
  /\ MLTrainer.substituteVariables (Sample.greetingWith "isPrototypeOf") ∅
     = Ok "Hi false!"
  /\ MLTrainer.substituteVariables (Sample.greetingWith "__proto__") ∅
     = Ok "Hi [object Object]!"
  /\ MLTrainer.substituteVariables (Sample.greetingWith "valueOf") ∅
     = Throw (Error "Cannot convert undefined or null to object")
  /\ MLTrainer.substituteVariables (Sample.greetingWith "name") ∅
     = Ok "Hi {name}!"
  /\ MLTrainer.substituteVariables
       (Template.mk 1 "Welcome Message" "Greetings" "Hi there!" (Some ["valueOf"])
          true 12 1700000000000 1700000000000) ∅
     = Ok "Hi there!".
Proof. vm_compute. repeat split; reflexivity. Qed.

Lemma createMessage_zero_stored_as_null_witness :
  (0 == 0)%Q
  /\ Storage.createMessage
       (InsertMessage.mk 11 "Hello!" "bot" (Some 0%Q) (Some 3) None) Sample.freshWorld
     = Storage.createMessage
         (InsertMessage.mk 11 "Hello!" "bot" None (Some 3) None) Sample.freshWorld
  /\ Storage.createMessage
       (InsertMessage.mk 11 "Hello!" "bot" (Some (75 # 100)) (Some 0) None)
       Sample.freshWorld
     = Storage.createMessage
         (InsertMessage.mk 11 "Hello!" "bot" (Some (75 # 100)) None None)
         Sample.freshWorld.
Proof.
  split; [reflexivity|].
  split.
  - apply (createMessage_zero_stored_as_null 11 "Hello!" "bot" 0%Q None (Some 3) None
             Sample.freshWorld).
    reflexivity.
  - apply (createMessage_zero_stored_as_null 11 "Hello!" "bot" 0%Q (Some (75 # 100))
             None None Sample.freshWorld).
    reflexivity.
Defined.


(** ** The oracles are never written *)

Lemma keeps_ret {A} (a : A) : keepsOracles (mret a : M A).
Proof. intros w. reflexivity. Qed.

Lemma keeps_throw {A} (e : exn) : keepsOracles (throw e : M A).
Proof. intros w. reflexivity. Qed.

Lemma keeps_bind {A B} (m : M A) (k : A -> M B) :
  keepsOracles m -> (forall a, keepsOracles (k a)) -> keepsOracles (m ≫= k).
Proof.
  intros Hm Hk w. rewrite bind_eq. specialize (Hm w).
  destruct (m w) as [[a|e] w1]; simpl in *.
  - now rewrite Hk.
  - assumption.
Qed.

Lemma keeps_try {A} (m : M A) (h : exn -> M A) :
  keepsOracles m -> (forall e, keepsOracles (h e)) -> keepsOracles (try_catch m h).
Proof.
  intros Hm Hh w. unfold try_catch. specialize (Hm w).
  destruct (m w) as [[a|e] w1]; simpl in *.
  - assumption.
  - now rewrite Hh.
Qed.

Lemma keeps_await {A} (op : StorageOp) (m : M A) :
  keepsOracles m -> keepsOracles (await op m).
Proof.
  intros Hm w. unfold await. destruct (rejects w op (ticks w)); [reflexivity|].
  now rewrite Hm.
Qed.

Lemma keeps_dateNow : keepsOracles dateNow.
Proof. intros w. reflexivity. Qed.

Lemma keeps_consoleWrite (l : ConsoleLevel) (text : string) :
  keepsOracles (consoleWrite l text).
Proof. intros w. reflexivity. Qed.

Lemma keeps_fetch (r : HttpRequest) : keepsOracles (fetch r).
Proof. intros w. unfold fetch. now destruct (fetches w (ticks w)). Qed.

Lemma keeps_getStorage : keepsOracles getStorage.
Proof. intros w. reflexivity. Qed.

Lemma keeps_putStorage (s : MemStorage.t) : keepsOracles (putStorage s).
Proof. intros w. reflexivity. Qed.

Lemma keeps_yield (others : nat -> MemStorage.t -> MemStorage.t) :
  keepsOracles (yield others).
Proof. intros w. reflexivity. Qed.

Lemma keeps_awaited {A} (others : nat -> MemStorage.t -> MemStorage.t) (p : M A) :
  keepsOracles p -> keepsOracles (awaited others p).
Proof.
  intros Hp w. unfold awaited. specialize (Hp w).
  destruct (p w) as [o w1]. exact Hp.
Qed.

Lemma keeps_settled {A} (o : Outcome A) : keepsOracles (settled o).
Proof. intros w. reflexivity. Qed.

Ltac keeps :=
  repeat
    first
      [ apply keeps_ret | apply keeps_throw | apply keeps_dateNow
      | apply keeps_consoleWrite | apply keeps_fetch
      | apply keeps_getStorage | apply keeps_putStorage
      | apply keeps_yield | apply keeps_settled
      | apply keeps_await | apply keeps_awaited | apply keeps_try; [|intros ?]
      | apply keeps_bind; [|intros ?]
      | match goal with
        | |- keepsOracles (match ?x with _ => _ end) => destruct x
        | |- keepsOracles (if ?x then _ else _) => destruct x
        end ].

Lemma keeps_createLog (l : InsertLog.t) : keepsOracles (Storage.createLog l).
Proof. unfold Storage.createLog, Storage.nextId. keeps. Qed.

Lemma keeps_createMessage (m : InsertMessage.t) : keepsOracles (Storage.createMessage m).
Proof. unfold Storage.createMessage, Storage.nextId. keeps. Qed.

Lemma keeps_pipeline (botToken : string) (startTime : Z) (message : Telegram.Message) :
  keepsOracles (TelegramHandler.pipeline botToken startTime message).
Proof.
  unfold TelegramHandler.pipeline, TelegramHandler.sendMessage,
    TelegramHandler.resolvePlatform, TelegramHandler.resolveConversation,
    TelegramHandler.recordExchange, TelegramHandler.updateCounters,
    SimpleMLTrainer.generateResponse,
    Storage.getPlatformByName, Storage.createPlatform, Storage.getAllConversations,
    Storage.createConversation, Storage.updatePlatform, Storage.updateConversation,
    Storage.nextId.
  keeps; try apply keeps_createLog; try apply keeps_createMessage.
Qed.

Lemma keeps_whatsapp_pipeline
    (apiKeyEnv accessToken phoneNumberId : option string)
    (others : nat -> MemStorage.t -> MemStorage.t) (p : WhatsAppHandler.Pending) :
  keepsOracles (WhatsAppHandler.pipeline apiKeyEnv accessToken phoneNumberId others p).
Proof.
  unfold WhatsAppHandler.pipeline, WhatsAppHandler.sendMessage,
    WhatsAppHandler.resolvePlatform, WhatsAppHandler.resolveConversation,
    WhatsAppHandler.recordExchange, WhatsAppHandler.updateCounters,
    SimpleMLTrainer.generateResponse,
    Storage.createPlatform, Storage.getAllConversations,
    Storage.createConversation, Storage.updatePlatform, Storage.updateConversation,
    Storage.nextId.
  keeps; try apply keeps_createLog; try apply keeps_createMessage.
Qed.

Lemma keeps_messenger_pipeline
    (accessTokenEnv : option string)
    (others : nat -> MemStorage.t -> MemStorage.t) (p : MessengerHandler.Pending) :
  keepsOracles (MessengerHandler.pipeline accessTokenEnv others p).
Proof.
  unfold MessengerHandler.pipeline, MessengerHandler.sendMessage,
    MessengerHandler.resolvePlatform, MessengerHandler.resolveConversation,
    MessengerHandler.recordExchange, MessengerHandler.updateCounters,
    SimpleMLTrainer.generateResponse,
    Storage.createPlatform, Storage.getAllConversations,
    Storage.createConversation, Storage.updatePlatform, Storage.updateConversation,
    Storage.nextId.
  keeps; try apply keeps_createLog; try apply keeps_createMessage.
Qed.

(** ** The webhook acknowledgment *)

Lemma createLog_accepted (l : InsertLog.t) (w : World) :
  rejects w CreateLog (ticks w) = None ->
  exists w',
    Storage.createLog l w
    = (Ok (Log.mk (MemStorage.currentId (storage w)) (InsertLog.level l)
             (InsertLog.message l) (InsertLog.details l) (InsertLog.source l)
             (clock w (S (ticks w)))), w')
    /\ storage w'
       = Storage.setLogs
           (JsMap.set (MemStorage.currentId (storage w))
              (Log.mk (MemStorage.currentId (storage w)) (InsertLog.level l)
                 (InsertLog.message l) (InsertLog.details l) (InsertLog.source l)
                 (clock w (S (ticks w))))
              (MemStorage.logs (storage w)))
           (Storage.setCurrentId (MemStorage.currentId (storage w) + 1) (storage w)).
Proof.
  intros Hacc. unfold Storage.createLog. rewrite await_accepted by assumption.
  eexists. split; reflexivity.
Qed.

Lemma strictEq_spec (a b : option string) : strictEq a b = true <-> a = b.
Proof.
  destruct a as [x|], b as [y|]; cbn [strictEq]; try (split; congruence).
  rewrite String.eqb_eq. split; congruence.
Qed.

Lemma createLog_rejected (l : InsertLog.t) (w : World) (reason : string) :
  rejects w CreateLog (ticks w) = Some reason ->
  Storage.createLog l w = (Throw (Error reason), called CreateLog w).
Proof. intros H. unfold Storage.createLog, await. now rewrite H. Qed.

Lemma awaited_createLog (others : nat -> MemStorage.t -> MemStorage.t)
    (l : InsertLog.t) (w : World) :
  keepsLogs others ->
  rejects w CreateLog (ticks w) = None ->
  exists w',
    awaited others (Storage.createLog l) w = (Ok (logFiled l w), w')
    /\ JsMap.get (MemStorage.currentId (storage w)) (MemStorage.logs (storage w'))
       = Some (logFiled l w).
Proof.
  intros Hothers Hacc.
  destruct (createLog_accepted l w Hacc) as (w1 & Hcreate & Hstore).
  unfold awaited. rewrite Hcreate. eexists. split; [reflexivity|].
  cbn [storage withStorage]. apply Hothers. rewrite Hstore. cbn.
  apply JsMap_get_set_eq.
Qed.

(** A [try] whose [catch] files a Log and goes on: what the body throws is
    caught and filed, provided the store takes the Log. *)
Lemma caught_and_logged (others : nat -> MemStorage.t -> MemStorage.t)
    (body : M unit) (mk : exn -> InsertLog.t) (w : World) :
  keepsLogs others ->
  keepsOracles body ->
  (forall n, rejects w CreateLog n = None) ->
  (exists w',
     try_catch body
       (fun error => awaited others (Storage.createLog (mk error));; mret tt) w
     = (Ok tt, w'))
  /\ (forall e w1,
        body w = (Throw e, w1) ->
        exists w',
          try_catch body
            (fun error => awaited others (Storage.createLog (mk error));; mret tt) w
          = (Ok tt, w')
          /\ JsMap.get (MemStorage.currentId (storage w1)) (MemStorage.logs (storage w'))
             = Some (logFiled (mk e) w1)).
Proof.
  intros Hothers Hkeep Hlog. unfold try_catch. specialize (Hkeep w).
  destruct (body w) as [[[]|e] w1] eqn:Hrun; cbn [snd] in Hkeep.
  - split; [eexists; reflexivity|]. intros e w1' [=].
  - destruct (awaited_createLog others (mk e) w1 Hothers) as (w2 & Hcreate & Hget).
    { rewrite Hkeep. apply Hlog. }
    assert (Hresult : (awaited others (Storage.createLog (mk e));; mret tt) w1
                      = (Ok tt, w2)).
    { rewrite bind_eq, Hcreate. reflexivity. }
    split; [exists w2; exact Hresult|].
    intros e' w1' [= <- <-]. exists w2. split; [exact Hresult | exact Hget].
Qed.

(** The [catch] of a route that starts pipelines: it answers 500 once its
    Log is filed, and does not answer when the store refuses the Log. *)
Lemma route_catch (others : nat -> MemStorage.t -> MemStorage.t) {P}
    (line : string) (l : InsertLog.t) (w : World) :
  keepsLogs others ->
  match rejects w CreateLog (ticks w) with
  | None =>
      exists w',
        (consoleWrite ConsoleError line;;
         awaited others (Storage.createLog l);;
         mret (mkDelivery (P := P) (mkHttpResponse 500 "Internal Server Error") [])) w
        = (Ok (mkDelivery (mkHttpResponse 500 "Internal Server Error") []), w')
        /\ JsMap.get (MemStorage.currentId (storage w)) (MemStorage.logs (storage w'))
           = Some (logFiled l w)
  | Some reason =>
      exists w',
        (consoleWrite ConsoleError line;;
         awaited others (Storage.createLog l);;
         mret (mkDelivery (P := P) (mkHttpResponse 500 "Internal Server Error") [])) w
        = (Throw (Error reason), w')
  end.
Proof.
  intros Hothers. rewrite bind_eq.
  set (w0 := snd (consoleWrite ConsoleError line w)).
  change (consoleWrite ConsoleError line w) with (Ok tt, w0). cbv iota beta.
  change (rejects w CreateLog (ticks w)) with (rejects w0 CreateLog (ticks w0)).
  change (MemStorage.currentId (storage w)) with (MemStorage.currentId (storage w0)).
  change (logFiled l w) with (logFiled l w0).
  destruct (rejects w0 CreateLog (ticks w0)) as [reason|] eqn:Hrej.
  - rewrite bind_eq. unfold awaited. rewrite (createLog_rejected l w0 reason Hrej).
    eexists. reflexivity.
  - destruct (awaited_createLog others l w0 Hothers Hrej) as (w1 & Hcreate & Hget).
    rewrite bind_eq, Hcreate. exists w1. split; [reflexivity | exact Hget].
Qed.

(** Starting pipelines reads the clock and looks the platform up; nothing is
    written. *)
Lemma getPlatformByName_reads (name : string) (w : World) :
  storage (snd (Storage.getPlatformByName name w)) = storage w.
Proof.
  unfold Storage.getPlatformByName, await. monad_unfold.
  destruct (rejects w GetPlatformByName (ticks w)); reflexivity.
Qed.

Lemma whatsapp_start (message : WhatsApp.Message) (w : World) :
  exists p w',
    WhatsAppHandler.start message w = (Ok p, w')
    /\ storage w' = storage w
    /\ WhatsAppHandler.message p = message.
Proof.
  unfold WhatsAppHandler.start, promised, dateNow. monad_unfold.
  pose proof (getPlatformByName_reads "whatsapp" (tick w)) as Hreads.
  destruct (Storage.getPlatformByName "whatsapp" (tick w)) as [found w1].
  eexists. eexists. split; [reflexivity|]. split; [exact Hreads | reflexivity].
Qed.

Lemma whatsapp_startEach (messages : list WhatsApp.Message) :
  forall w, exists ps w',
    WhatsAppHandler.startEach messages w = (Ok ps, w')
    /\ storage w' = storage w
    /\ List.map WhatsAppHandler.message ps = messages.
Proof.
  induction messages as [|m messages IH]; intros w.
  - exists [], w. repeat split.
  - destruct (whatsapp_start m w) as (p & w1 & Hstart & Hstore1 & Hp).
    destruct (IH w1) as (ps & w2 & Hrest & Hstore2 & Hps).
    exists (p :: ps), w2. cbn [WhatsAppHandler.startEach].
    rewrite bind_eq, Hstart, bind_eq, Hrest.
    split; [reflexivity|]. split; [congruence|]. cbn. congruence.
Qed.

Lemma whatsapp_startChanges (changes : list WhatsApp.Change) :
  forall w, exists ps w',
    WhatsAppHandler.startChanges changes w = (Ok ps, w')
    /\ storage w' = storage w
    /\ List.map WhatsAppHandler.message ps
       = List.flat_map
           (fun change =>
              if strictEq (WhatsApp.field change) (Some "messages") then
                match WhatsApp.messages change with
                | Array messages => messages
                | _ => []
                end
              else [])
           changes.
Proof.
  induction changes as [|c changes IH]; intros w.
  - exists [], w. repeat split.
  - assert (Hc : exists ps w1,
               WhatsAppHandler.startChange c w = (Ok ps, w1)
               /\ storage w1 = storage w
               /\ List.map WhatsAppHandler.message ps
                  = if strictEq (WhatsApp.field c) (Some "messages") then
                      match WhatsApp.messages c with
                      | Array messages => messages
                      | _ => []
                      end
                    else []).
    { unfold WhatsAppHandler.startChange.
      destruct (strictEq (WhatsApp.field c) (Some "messages"));
        [|exists [], w; repeat split].
      destruct (WhatsApp.messages c) as [|messages|];
        [exists [], w; repeat split | apply whatsapp_startEach | exists [], w; repeat split]. }
    destruct Hc as (ps & w1 & Hstart & Hstore1 & Hps).
    destruct (IH w1) as (qs & w2 & Hrest & Hstore2 & Hqs).
    exists (ps ++ qs)%list, w2. cbn [WhatsAppHandler.startChanges List.flat_map].
    rewrite bind_eq, Hstart, bind_eq, Hrest.
    split; [reflexivity|]. split; [congruence|].
    rewrite List.map_app. congruence.
Qed.

Lemma whatsapp_startEntries (entries : list WhatsApp.Entry) :
  forall w, exists ps w',
    WhatsAppHandler.startEntries entries w = (Ok ps, w')
    /\ storage w' = storage w
    /\ List.map WhatsAppHandler.message ps
       = whatsAppMessages
           (WhatsApp.mkBody (Some "whatsapp_business_account") (Array entries)).
Proof.
  unfold whatsAppMessages. cbn [WhatsApp.object WhatsApp.entry strictEq].
  rewrite String.eqb_refl.
  induction entries as [|e entries IH]; intros w.
  - exists [], w. repeat split.
  - assert (He : exists ps w1,
               WhatsAppHandler.startEntry e w = (Ok ps, w1)
               /\ storage w1 = storage w
               /\ List.map WhatsAppHandler.message ps
                  = match WhatsApp.changes e with
                    | Array changes =>
                        List.flat_map
                          (fun change =>
                             if strictEq (WhatsApp.field change) (Some "messages") then
                               match WhatsApp.messages change with
                               | Array messages => messages
                               | _ => []
                               end
                             else [])
                          changes
                    | _ => []
                    end).
    { unfold WhatsAppHandler.startEntry.
      destruct (WhatsApp.changes e) as [|changes|];
        [exists [], w; repeat split | apply whatsapp_startChanges
        | exists [], w; repeat split]. }
    destruct He as (ps & w1 & Hstart & Hstore1 & Hps).
    destruct (IH w1) as (qs & w2 & Hrest & Hstore2 & Hqs).
    exists (ps ++ qs)%list, w2. cbn [WhatsAppHandler.startEntries List.flat_map].
    rewrite bind_eq, Hstart, bind_eq, Hrest.
    split; [reflexivity|]. split; [congruence|].
    rewrite List.map_app. congruence.
Qed.

Lemma messenger_start (event : Messenger.Event) (w : World) :
  exists p w',
    MessengerHandler.start event w = (Ok p, w')
    /\ storage w' = storage w
    /\ MessengerHandler.event p = event.
Proof.
  unfold MessengerHandler.start, promised, dateNow. monad_unfold.
  pose proof (getPlatformByName_reads "messenger" (tick w)) as Hreads.
  destruct (Storage.getPlatformByName "messenger" (tick w)) as [found w1].
  eexists. eexists. split; [reflexivity|]. split; [exact Hreads | reflexivity].
Qed.

Lemma messenger_startEach (events : list Messenger.Event) :
  forall w, exists ps w',
    MessengerHandler.startEach events w = (Ok ps, w')
    /\ storage w' = storage w
    /\ List.map MessengerHandler.event ps
       = List.filter
           (fun event =>
              match Messenger.message event with
              | Some _ => true
              | None => false
              end)
           events.
Proof.
  induction events as [|ev events IH]; intros w.
  - exists [], w. repeat split.
  - cbn [MessengerHandler.startEach List.filter].
    destruct (Messenger.message ev) as [m|].
    + destruct (messenger_start ev w) as (p & w1 & Hstart & Hstore1 & Hp).
      destruct (IH w1) as (qs & w2 & Hrest & Hstore2 & Hqs).
      exists (p :: qs), w2.
      rewrite bind_eq, bind_eq, Hstart. cbn. rewrite bind_eq, Hrest.
      split; [reflexivity|]. split; [congruence|]. cbn. congruence.
    + destruct (IH w) as (qs & w2 & Hrest & Hstore2 & Hqs).
      exists qs, w2. rewrite bind_eq. cbn. rewrite bind_eq, Hrest.
      split; [reflexivity|]. split; assumption.
Qed.

Lemma messenger_startEntries (entries : list Messenger.Entry) :
  forall w, exists ps w',
    MessengerHandler.startEntries entries w = (Ok ps, w')
    /\ storage w' = storage w
    /\ List.map MessengerHandler.event ps
       = messengerEvents (Messenger.mkBody (Some "page") (Array entries)).
Proof.
  unfold messengerEvents. cbn [Messenger.object Messenger.entry strictEq].
  rewrite String.eqb_refl.
  induction entries as [|e entries IH]; intros w.
  - exists [], w. repeat split.
  - assert (He : exists ps w1,
               MessengerHandler.startEntry e w = (Ok ps, w1)
               /\ storage w1 = storage w
               /\ List.map MessengerHandler.event ps
                  = match Messenger.messaging e with
                    | Array events =>
                        List.filter
                          (fun event =>
                             match Messenger.message event with
                             | Some _ => true
                             | None => false
                             end)
                          events
                    | _ => []
                    end).
    { unfold MessengerHandler.startEntry.
      destruct (Messenger.messaging e) as [|events|];
        [exists [], w; repeat split | apply messenger_startEach
        | exists [], w; repeat split]. }
    destruct He as (ps & w1 & Hstart & Hstore1 & Hps).
    destruct (IH w1) as (qs & w2 & Hrest & Hstore2 & Hqs).
    exists (ps ++ qs)%list, w2. cbn [MessengerHandler.startEntries List.flat_map].
    rewrite bind_eq, Hstart, bind_eq, Hrest.
    split; [reflexivity|]. split; [congruence|].
    rewrite List.map_app. congruence.
Qed.

(** The Telegram route awaits its pipeline. *)
Lemma telegram_route (botToken : string) (update : Telegram.Update) (w : World) :
  (forall n, rejects w CreateLog n = None) ->
  (exists w',
     TelegramHandler.handleMessage botToken update w
     = (Ok (mkHttpResponse 200 "OK"), w'))
  /\ (forall message e w1,
        Telegram.message update = Some message ->
        TelegramHandler.pipeline botToken (clock w (ticks w)) message (tick w)
        = (Throw e, w1) ->
        exists w',
          TelegramHandler.handleMessage botToken update w
          = (Ok (mkHttpResponse 200 "OK"), w')
          /\ JsMap.get (MemStorage.currentId (storage w1)) (MemStorage.logs (storage w'))
             = Some (Log.mk (MemStorage.currentId (storage w1)) "error"
                       "Failed to process Telegram message"
                       (Some [("error", JStr (errorMessage e))]) "telegram"
                       (clock w1 (S (ticks w1))))).
Proof.
  intros Hlog.
  assert (Hinner : forall message,
             (exists w', TelegramHandler.processIncomingMessage botToken message w
                         = (Ok tt, w'))
             /\ forall e w1,
                 TelegramHandler.pipeline botToken (clock w (ticks w)) message (tick w)
                 = (Throw e, w1) ->
                 exists w',
                   TelegramHandler.processIncomingMessage botToken message w = (Ok tt, w')
                   /\ JsMap.get (MemStorage.currentId (storage w1))
                        (MemStorage.logs (storage w'))
                      = Some (Log.mk (MemStorage.currentId (storage w1)) "error"
                                "Failed to process Telegram message"
                                (Some [("error", JStr (errorMessage e))]) "telegram"
                                (clock w1 (S (ticks w1))))).
  { intros message.
    unfold TelegramHandler.processIncomingMessage. rewrite bind_eq.
    change (dateNow w) with (Ok (clock w (ticks w)), tick w).
    cbv iota beta. unfold try_catch.
    pose proof (keeps_pipeline botToken (clock w (ticks w)) message (tick w)) as Hkeep.
    destruct (TelegramHandler.pipeline botToken (clock w (ticks w)) message (tick w))
      as [[[]|e] w1] eqn:Hrun.
    - split; [eexists; reflexivity|]. intros e w1' [=].
    - simpl in Hkeep.
      destruct (createLog_accepted
                  (InsertLog.mk "error" "Failed to process Telegram message"
                     (Some (TelegramHandler.errorDetails e)) "telegram") w1)
        as (w2 & Hcreate & Hstore).
      { rewrite Hkeep. apply Hlog. }
      assert (Hresult : (Storage.createLog
                           (InsertLog.mk "error" "Failed to process Telegram message"
                              (Some (TelegramHandler.errorDetails e)) "telegram");;
                         mret tt) w1 = (Ok tt, w2)).
      { rewrite bind_eq, Hcreate. reflexivity. }
      split.
      + exists w2. exact Hresult.
      + intros e' w1' [= <- <-]. exists w2. split; [exact Hresult|].
        rewrite Hstore. simpl. apply JsMap_get_set_eq. }
  assert (Hack : forall message w',
             TelegramHandler.processIncomingMessage botToken message w = (Ok tt, w') ->
             Telegram.message update = Some message ->
             TelegramHandler.handleMessage botToken update w
             = (Ok (mkHttpResponse 200 "OK"), w')).
  { intros message w' Hrun Hmsg. unfold TelegramHandler.handleMessage, try_catch.
    rewrite Hmsg, bind_eq, Hrun. reflexivity. }
  split.
  - destruct (Telegram.message update) as [message|] eqn:Hmsg.
    + destruct (proj1 (Hinner message)) as (w' & Hrun). exists w'. now apply (Hack message).
    + exists w. unfold TelegramHandler.handleMessage, try_catch. rewrite Hmsg. reflexivity.
  - intros message e w1 Hmsg Hthrow.
    destruct (proj2 (Hinner message) e w1 Hthrow) as (w' & Hrun & Hlogged).
    exists w'. split; [now apply (Hack message) | assumption].
Qed.

(** The Telegram route when the store refuses the Log of the pipeline's
    [catch]: the route's own [catch] takes over. *)
Lemma telegram_route_500
    (botToken : string) (update : Telegram.Update) (message : Telegram.Message)
    (w w1 : World) (e : exn) (reason : string) :
  Telegram.message update = Some message ->
  TelegramHandler.pipeline botToken (clock w (ticks w)) message (tick w) = (Throw e, w1) ->
  rejects w1 CreateLog (ticks w1) = Some reason ->
  match rejects w1 CreateLog (S (ticks w1)) with
  | None =>
      exists w',
        TelegramHandler.handleMessage botToken update w
        = (Ok (mkHttpResponse 500 "Internal Server Error"), w')
        /\ JsMap.get (MemStorage.currentId (storage w1)) (MemStorage.logs (storage w'))
           = Some (Log.mk (MemStorage.currentId (storage w1)) "error"
                     "Telegram webhook processing failed"
                     (Some [("error", JStr reason)]) "telegram"
                     (clock w1 (S (S (ticks w1)))))
  | Some reason' =>
      exists w',
        TelegramHandler.handleMessage botToken update w = (Throw (Error reason'), w')
  end.
Proof.
  intros Hmsg Hthrow Hrej.
  assert (Hinner : TelegramHandler.processIncomingMessage botToken message w
                   = (Throw (Error reason), called CreateLog w1)).
  { unfold TelegramHandler.processIncomingMessage. rewrite bind_eq.
    change (dateNow w) with (Ok (clock w (ticks w)), tick w).
    cbv iota beta. unfold try_catch. rewrite Hthrow, bind_eq.
    now rewrite (createLog_rejected _ w1 reason Hrej). }
  unfold TelegramHandler.handleMessage, try_catch.
  rewrite Hmsg, bind_eq, Hinner. rewrite bind_eq.
  set (w2 := snd (consoleWrite ConsoleError "Telegram webhook error:"
                    (called CreateLog w1))).
  change (consoleWrite ConsoleError "Telegram webhook error:" (called CreateLog w1))
    with (Ok tt, w2).
  cbv iota beta.
  change (rejects w1 CreateLog (S (ticks w1))) with (rejects w2 CreateLog (ticks w2)).
  destruct (rejects w2 CreateLog (ticks w2)) as [reason'|] eqn:Hrej2.
  - rewrite bind_eq, (createLog_rejected _ w2 reason' Hrej2). eexists. reflexivity.
  - destruct (createLog_accepted
                (InsertLog.mk "error" "Telegram webhook processing failed"
                   (Some (TelegramHandler.errorDetails (Error reason))) "telegram") w2 Hrej2)
      as (w3 & Hcreate & Hstore).
    rewrite bind_eq, Hcreate. exists w3. split; [reflexivity|].
    rewrite Hstore. cbn. apply JsMap_get_set_eq.
Qed.

(** C3 (as amended).  A pipeline covers the exceptions of its steps itself:
    what a step throws is caught by the [catch] of [processIncomingMessage]
    and filed as an error-level Log with the source of the channel and the
    message of the error, as long as the store accepts log writes.

    The Telegram route awaits its pipeline and then answers [200 OK],
    whatever the pipeline did.  When the store refuses the Log of the
    pipeline's [catch], the route's [catch] files a Log of its own and
    answers [500 Internal Server Error]; when the store refuses that one
    too, no answer is sent.

    The WhatsApp and Messenger routes start one pipeline for every message of
    the delivery and answer [200 OK] without waiting for any of them, the
    store being as it was; nothing that happens in a pipeline reaches the
    answer.  Each started pipeline, whenever it is resumed and whatever the
    other tasks do to the store in between (short of touching filed Logs),
    ends normally, with its error filed if a step threw.  A body whose
    [entry] has no [forEach] makes the route itself throw: it files a Log
    and answers 500, or does not answer when the store refuses the Log. *)
Theorem webhook_acknowledged
    (botToken : string) (apiKeyEnv accessToken phoneNumberId accessTokenEnv : option string)
    (others : nat -> MemStorage.t -> MemStorage.t) :
  keepsLogs others ->
  (forall (update : Telegram.Update) (w : World),
     (forall n, rejects w CreateLog n = None) ->
     (exists w',
        TelegramHandler.handleMessage botToken update w
        = (Ok (mkHttpResponse 200 "OK"), w'))
     /\ (forall message e w1,
           Telegram.message update = Some message ->
           TelegramHandler.pipeline botToken (clock w (ticks w)) message (tick w)
           = (Throw e, w1) ->
           exists w',
             TelegramHandler.handleMessage botToken update w
             = (Ok (mkHttpResponse 200 "OK"), w')
             /\ JsMap.get (MemStorage.currentId (storage w1))
                  (MemStorage.logs (storage w'))
                = Some (Log.mk (MemStorage.currentId (storage w1)) "error"
                          "Failed to process Telegram message"
                          (Some [("error", JStr (errorMessage e))]) "telegram"
                          (clock w1 (S (ticks w1))))))
  /\ (forall (update : Telegram.Update) (message : Telegram.Message)
             (w w1 : World) (e : exn) (reason : string),
        Telegram.message update = Some message ->
        TelegramHandler.pipeline botToken (clock w (ticks w)) message (tick w)
        = (Throw e, w1) ->
        rejects w1 CreateLog (ticks w1) = Some reason ->
        match rejects w1 CreateLog (S (ticks w1)) with
        | None =>
            exists w',
              TelegramHandler.handleMessage botToken update w
              = (Ok (mkHttpResponse 500 "Internal Server Error"), w')
              /\ JsMap.get (MemStorage.currentId (storage w1))
                   (MemStorage.logs (storage w'))
                 = Some (Log.mk (MemStorage.currentId (storage w1)) "error"
                           "Telegram webhook processing failed"
                           (Some [("error", JStr reason)]) "telegram"
                           (clock w1 (S (S (ticks w1)))))
        | Some reason' =>
            exists w',
              TelegramHandler.handleMessage botToken update w
              = (Throw (Error reason'), w')
        end)
  /\ (forall (body : WhatsApp.Body) (w : World),
        (WhatsApp.object body = Some "whatsapp_business_account" ->
         WhatsApp.entry body <> NoArray) ->
        exists started w',
          WhatsAppHandler.handleMessage others body w
          = (Ok (mkDelivery (mkHttpResponse 200 "OK") started), w')
          /\ storage w' = storage w
          /\ List.map WhatsAppHandler.message started = whatsAppMessages body)
  /\ (forall (p : WhatsAppHandler.Pending) (w : World),
        (forall n, rejects w CreateLog n = None) ->
        (exists w',
           WhatsAppHandler.resume apiKeyEnv accessToken phoneNumberId others p w
           = (Ok tt, w'))
        /\ (forall e w1,
              WhatsAppHandler.pipeline apiKeyEnv accessToken phoneNumberId others p
                (withStorage (others (ticks w) (storage w)) w)
              = (Throw e, w1) ->
              exists w',
                WhatsAppHandler.resume apiKeyEnv accessToken phoneNumberId others p w
                = (Ok tt, w')
                /\ JsMap.get (MemStorage.currentId (storage w1))
                     (MemStorage.logs (storage w'))
                   = Some (Log.mk (MemStorage.currentId (storage w1)) "error"
                             "Failed to process WhatsApp message"
                             (Some [("error", JStr (errorMessage e))]) "whatsapp"
                             (clock w1 (S (ticks w1))))))
  /\ (forall (body : WhatsApp.Body) (w : World),
        WhatsApp.object body = Some "whatsapp_business_account" ->
        WhatsApp.entry body = NoArray ->
        match rejects w CreateLog (ticks w) with
        | None =>
            exists message w',
              WhatsAppHandler.handleMessage others body w
              = (Ok (mkDelivery (mkHttpResponse 500 "Internal Server Error") []), w')
              /\ JsMap.get (MemStorage.currentId (storage w))
                   (MemStorage.logs (storage w'))
                 = Some (Log.mk (MemStorage.currentId (storage w)) "error"
                           "WhatsApp webhook processing failed"
                           (Some [("error", JStr message)]) "whatsapp"
                           (clock w (S (ticks w))))
        | Some reason =>
            exists w',
              WhatsAppHandler.handleMessage others body w = (Throw (Error reason), w')
        end)
  /\ (forall (body : Messenger.Body) (w : World),
        (Messenger.object body = Some "page" -> Messenger.entry body <> NoArray) ->
        exists started w',
          MessengerHandler.handleMessage others body w
          = (Ok (mkDelivery (mkHttpResponse 200 "OK") started), w')
          /\ storage w' = storage w
          /\ List.map MessengerHandler.event started = messengerEvents body)
  /\ (forall (p : MessengerHandler.Pending) (w : World),
        (forall n, rejects w CreateLog n = None) ->
        (exists w',
           MessengerHandler.resume accessTokenEnv others p w = (Ok tt, w'))
        /\ (forall e w1,
              MessengerHandler.pipeline accessTokenEnv others p
                (withStorage (others (ticks w) (storage w)) w)
              = (Throw e, w1) ->
              exists w',
                MessengerHandler.resume accessTokenEnv others p w = (Ok tt, w')
                /\ JsMap.get (MemStorage.currentId (storage w1))
                     (MemStorage.logs (storage w'))
                   = Some (Log.mk (MemStorage.currentId (storage w1)) "error"
                             "Failed to process Messenger message"
                             (Some [("error", JStr (errorMessage e))]) "messenger"
                             (clock w1 (S (ticks w1))))))
  /\ (forall (body : Messenger.Body) (w : World),
        Messenger.object body = Some "page" ->
        Messenger.entry body = NoArray ->
        match rejects w CreateLog (ticks w) with
        | None =>
            exists message w',
              MessengerHandler.handleMessage others body w
              = (Ok (mkDelivery (mkHttpResponse 500 "Internal Server Error") []), w')
              /\ JsMap.get (MemStorage.currentId (storage w))
                   (MemStorage.logs (storage w'))
                 = Some (Log.mk (MemStorage.currentId (storage w)) "error"
                           "Messenger webhook processing failed"
                           (Some [("error", JStr message)]) "messenger"
                           (clock w (S (ticks w))))
        | Some reason =>
            exists w',
              MessengerHandler.handleMessage others body w = (Throw (Error reason), w')
        end).
Proof.
  intros Hothers.
  split; [intros update w; apply telegram_route|].
  split; [intros update message w w1 e reason; apply telegram_route_500|].
  split; [|split; [|split; [|split; [|split]]]].
  - (* WhatsApp: the answer *)
    intros body w Hshape. unfold WhatsAppHandler.handleMessage, try_catch, whatsAppMessages.
    destruct body as [object entry]. cbn [WhatsApp.object WhatsApp.entry] in *.
    destruct (strictEq object (Some "whatsapp_business_account")) eqn:Hobject.
    + apply strictEq_spec in Hobject. specialize (Hshape Hobject).
      destruct entry as [|entries|]; [| |contradiction].
      * exists [], w. repeat split.
      * destruct (whatsapp_startEntries entries w) as (ps & w' & Hrun & Hstore & Hps).
        exists ps, w'. rewrite bind_eq, Hrun.
        split; [reflexivity|]. split; [exact Hstore|].
        rewrite Hps. unfold whatsAppMessages.
        cbn [WhatsApp.object WhatsApp.entry strictEq]. now rewrite String.eqb_refl.
    + exists [], w. repeat split.
  - (* WhatsApp: a started pipeline *)
    intros p w Hlog. unfold WhatsAppHandler.resume. rewrite !bind_eq.
    change (yield others w) with (Ok tt, withStorage (others (ticks w) (storage w)) w).
    cbv iota beta.
    apply (caught_and_logged others
             (WhatsAppHandler.pipeline apiKeyEnv accessToken phoneNumberId others p)
             (fun error =>
                InsertLog.mk "error" "Failed to process WhatsApp message"
                  (Some (WhatsAppHandler.errorDetails error)) "whatsapp")
             (withStorage (others (ticks w) (storage w)) w) Hothers).
    + apply keeps_whatsapp_pipeline.
    + exact Hlog.
  - (* WhatsApp: the route throws *)
    intros body w Hobject Hentry.
    pose proof (route_catch others (P := WhatsAppHandler.Pending)
                  "WhatsApp webhook error:"
                  (InsertLog.mk "error" "WhatsApp webhook processing failed"
                     (Some (WhatsAppHandler.errorDetails
                              (notAFunction "body.entry?.forEach"))) "whatsapp")
                  w Hothers) as Hcatch.
    unfold WhatsAppHandler.handleMessage, try_catch.
    rewrite Hobject, Hentry. cbn [strictEq]. rewrite String.eqb_refl. rewrite bind_eq.
    monad_unfold.
    destruct (rejects w CreateLog (ticks w)) as [reason|].
    + exact Hcatch.
    + destruct Hcatch as (w' & Hrun & Hget). eexists. exists w'.
      split; [exact Hrun | exact Hget].
  - (* Messenger: the answer *)
    intros body w Hshape. unfold MessengerHandler.handleMessage, try_catch, messengerEvents.
    destruct body as [object entry]. cbn [Messenger.object Messenger.entry] in *.
    destruct (strictEq object (Some "page")) eqn:Hobject.
    + apply strictEq_spec in Hobject. specialize (Hshape Hobject).
      destruct entry as [|entries|]; [| |contradiction].
      * exists [], w. repeat split.
      * destruct (messenger_startEntries entries w) as (ps & w' & Hrun & Hstore & Hps).
        exists ps, w'. rewrite bind_eq, Hrun.
        split; [reflexivity|]. split; [exact Hstore|].
        rewrite Hps. unfold messengerEvents.
        cbn [Messenger.object Messenger.entry strictEq]. now rewrite String.eqb_refl.
    + exists [], w. repeat split.
  - (* Messenger: a started pipeline *)
    intros p w Hlog. unfold MessengerHandler.resume. rewrite !bind_eq.
    change (yield others w) with (Ok tt, withStorage (others (ticks w) (storage w)) w).
    cbv iota beta.
    apply (caught_and_logged others
             (MessengerHandler.pipeline accessTokenEnv others p)
             (fun error =>
                InsertLog.mk "error" "Failed to process Messenger message"
                  (Some (MessengerHandler.errorDetails error)) "messenger")
             (withStorage (others (ticks w) (storage w)) w) Hothers).
    + apply keeps_messenger_pipeline.
    + exact Hlog.
  - (* Messenger: the route throws *)
    intros body w Hobject Hentry.
    pose proof (route_catch others (P := MessengerHandler.Pending)
                  "Messenger webhook error:"
                  (InsertLog.mk "error" "Messenger webhook processing failed"
                     (Some (MessengerHandler.errorDetails
                              (notAFunction "body.entry?.forEach"))) "messenger")
                  w Hothers) as Hcatch.
    unfold MessengerHandler.handleMessage, try_catch.
    rewrite Hobject, Hentry. cbn [strictEq]. rewrite String.eqb_refl. rewrite bind_eq.
    monad_unfold.
    destruct (rejects w CreateLog (ticks w)) as [reason|].
    + exact Hcatch.
    + destruct Hcatch as (w' & Hrun & Hget). eexists. exists w'.
      split; [exact Hrun | exact Hget].
Qed.

Lemma webhook_acknowledged_witness :
  keepsLogs Sample.noOthers
  /\ (exists w',
        TelegramHandler.handleMessage "" (Sample.textUpdate "hello there")
          (Sample.withRejects Sample.lookupFails Sample.freshWorld)
        = (Ok (mkHttpResponse 200 "OK"), w')
        /\ JsMap.get 10 (MemStorage.logs (storage w'))
           = Some (Log.mk 10 "error" "Failed to process Telegram message"
                     (Some [("error", JStr "connection terminated")]) "telegram"
                     1700000000003))
  /\ (exists started w',
        WhatsAppHandler.handleMessage Sample.noOthers (Sample.whatsAppText "hello there")
          (Sample.withRejects Sample.lookupFails Sample.freshWorld)
        = (Ok (mkDelivery (mkHttpResponse 200 "OK") started), w')
        /\ storage w' = storage Sample.freshWorld
        /\ List.map WhatsAppHandler.message started
           = [WhatsApp.mkMessage "4915112345678" (Some "Sam") (Some "hello there")])
  /\ (exists w',
        WhatsAppHandler.resume None None None Sample.noOthers
          (WhatsAppHandler.mkPending
             (WhatsApp.mkMessage "4915112345678" (Some "Sam") (Some "hello there"))
             1700000000000 (Throw (Error "connection terminated")))
          (called GetPlatformByName
             (tick (Sample.withRejects Sample.lookupFails Sample.freshWorld)))
        = (Ok tt, w')
        /\ JsMap.get 10 (MemStorage.logs (storage w'))
           = Some (Log.mk 10 "error" "Failed to process WhatsApp message"
                     (Some [("error", JStr "connection terminated")]) "whatsapp"
                     1700000000003)).
Proof.
  assert (Hothers : keepsLogs Sample.noOthers).
  { intros n s id log H. exact H. }
  destruct (webhook_acknowledged "" None None None None Sample.noOthers Hothers)
    as (Htelegram & _ & Hanswer & Hpipeline & _).
  split; [exact Hothers|]. split; [|split].
  - eapply (proj2 (Htelegram (Sample.textUpdate "hello there")
                     (Sample.withRejects Sample.lookupFails Sample.freshWorld)
                     (fun n => eq_refl))
              _ (Error "connection terminated")
              (called GetPlatformByName
                 (tick (Sample.withRejects Sample.lookupFails Sample.freshWorld)))).
    + reflexivity.
    + reflexivity.
  - apply (Hanswer (Sample.whatsAppText "hello there")
             (Sample.withRejects Sample.lookupFails Sample.freshWorld)).
    intros _. discriminate.
  - eapply (proj2 (Hpipeline
                     (WhatsAppHandler.mkPending
                        (WhatsApp.mkMessage "4915112345678" (Some "Sam")
                           (Some "hello there"))
                        1700000000000 (Throw (Error "connection terminated")))
                     (called GetPlatformByName
                        (tick (Sample.withRejects Sample.lookupFails Sample.freshWorld)))
                     (fun n => eq_refl))
              (Error "connection terminated")
              (withStorage
                 (storage (Sample.withRejects Sample.lookupFails Sample.freshWorld))
                 (called GetPlatformByName
                    (tick (Sample.withRejects Sample.lookupFails Sample.freshWorld))))).
    reflexivity.
Defined.

(** C3 as stated fails on the code: when the store is down while the first
    message is handled, the pipeline throws, its handler's own log write
    throws too, and the route's [catch] answers [500 Internal Server Error]. *)
Lemma webhook_answers_500 :
  ~ (forall (botToken : string) (update : Telegram.Update) (w : World),
       exists w',
         TelegramHandler.handleMessage botToken update w
         = (Ok (mkHttpResponse 200 "OK"), w')).
Proof.
  intros claim.
  destruct (claim "" (Sample.textUpdate "hello there")
                  (Sample.withRejects Sample.briefOutage Sample.freshWorld))
    as (w' & Hrun).
  apply (f_equal fst) in Hrun. vm_compute in Hrun. discriminate.
Qed.

(** The runs behind it, and the WhatsApp route on a body whose [entry] is no
    array. *)
Example webhook_500_run :
  fst (TelegramHandler.handleMessage "" (Sample.textUpdate "hello there")
         (Sample.withRejects Sample.briefOutage Sample.freshWorld))
  = Ok (mkHttpResponse 500 "Internal Server Error")
  /\ fst (WhatsAppHandler.handleMessage Sample.noOthers Sample.whatsAppMalformed
            Sample.freshWorld)
     = Ok (mkDelivery (mkHttpResponse 500 "Internal Server Error") []).
Proof. split; vm_compute; reflexivity. Qed.

(** A delivery with one message, on the fresh server with nothing else
    running: the answer goes out with the store untouched, and the pipeline,
    resumed afterwards, files both messages and the summary. *)
Example whatsapp_delivery_run :
  match WhatsAppHandler.handleMessage Sample.noOthers (Sample.whatsAppText "hello there")
          Sample.freshWorld with
  | (Ok delivery, w1) =>
      answer delivery = mkHttpResponse 200 "OK"
      /\ storage w1 = storage Sample.freshWorld
      /\ match pending delivery with
         | [p] =>
             match WhatsAppHandler.resume None None None Sample.noOthers p w1 with
             | (Ok _, w2) =>
                 List.map Message.content (JsMap.values (MemStorage.messages (storage w2)))
                 = ["hello there"; "Hello! How can I help you today?"]
                 /\ List.map Log.level (JsMap.values (MemStorage.logs (storage w2)))
                    = ["info"]
                 /\ console w2 = [(ConsoleWarn, "WhatsApp credentials not configured")]
             | _ => False
             end
         | _ => False
         end
  | _ => False
  end.
Proof. vm_compute. repeat split; reflexivity. Qed.

(** ** Delivery failures *)

Lemma available_same (w w' : World) :
  available w -> rejects w' = rejects w -> available w'.
Proof. intros Hav Hrej op n. rewrite Hrej. apply Hav. Qed.

Ltac run_block Hav :=
  unfold TelegramHandler.resolvePlatform, TelegramHandler.resolveConversation,
    TelegramHandler.recordExchange, TelegramHandler.updateCounters,
    TelegramHandler.sendMessage, SimpleMLTrainer.generateResponse,
    Storage.getPlatformByName, Storage.createPlatform, Storage.getAllConversations,
    Storage.createConversation, Storage.updatePlatform, Storage.updateConversation,
    Storage.createMessage, Storage.createLog, Storage.nextId, try_catch, dateNow, fetch,
    consoleWrite;
  monad_unfold; cbn;
  repeat first
    [ rewrite await_accepted by apply Hav
    | rewrite JsMap_get_set_eq
    | match goal with
      | H : List.find _ _ = _ |- _ => rewrite H
      | H : JsMap.get _ _ = _ |- _ => rewrite H
      | Hfetch : forall n, fetches ?w n <> FetchOk |- context [fetches ?w ?n] =>
          let E := fresh "E" in
          destruct (fetches w n) eqn:E; [exfalso; exact (Hfetch n E) | | ]
      end
    | progress cbn ].

Lemma resolvePlatform_run (botToken : string) (w : World) :
  available w ->
  keyed Platform.id (MemStorage.platforms (storage w)) ->
  exists platform w1,
    TelegramHandler.resolvePlatform botToken w = (Ok platform, w1)
    /\ sameSurroundings w w1
    /\ (List.find (fun p => String.eqb (Platform.name p) "telegram")
                  (JsMap.values (MemStorage.platforms (storage w))) = Some platform
        \/ (List.find (fun p => String.eqb (Platform.name p) "telegram")
                      (JsMap.values (MemStorage.platforms (storage w))) = None
            /\ Platform.messagesCount platform = 0))
    /\ JsMap.get (Platform.id platform) (MemStorage.platforms (storage w1)) = Some platform
    /\ MemStorage.conversations (storage w1) = MemStorage.conversations (storage w)
    /\ MemStorage.messages (storage w1) = MemStorage.messages (storage w)
    /\ MemStorage.logs (storage w1) = MemStorage.logs (storage w).
Proof.
  intros Hav Hkeyed.
  destruct (List.find (fun p => String.eqb (Platform.name p) "telegram")
              (JsMap.values (MemStorage.platforms (storage w)))) as [platform|] eqn:Hfind.
  - assert (Hstored : JsMap.get (Platform.id platform) (MemStorage.platforms (storage w))
                      = Some platform).
    { apply keyed_get; [assumption|]. apply List.find_some in Hfind. tauto. }
    exists platform. run_block Hav. eexists. split; [reflexivity|].
    repeat split; first [assumption | reflexivity | now left].
  - run_block Hav. eexists. eexists. split; [reflexivity|].
    cbn. rewrite JsMap_get_set_eq.
    repeat split; first [reflexivity | right; split; reflexivity].
Qed.

Lemma getAllConversations_run (w : World) :
  available w ->
  exists w1,
    Storage.getAllConversations w
    = (Ok (JsMap.values (MemStorage.conversations (storage w))), w1)
    /\ sameSurroundings w w1
    /\ storage w1 = storage w.
Proof.
  intros Hav. run_block Hav. eexists. repeat split; reflexivity.
Qed.

Lemma resolveConversation_run
    (platform : Platform.t) (from : Telegram.User) (w : World) :
  available w ->
  keyed Conversation.id (MemStorage.conversations (storage w)) ->
  exists conversation w1,
    TelegramHandler.resolveConversation platform from
      (JsMap.values (MemStorage.conversations (storage w))) w
    = (Ok conversation, w1)
    /\ sameSurroundings w w1
    /\ (List.find
          (fun c => (Conversation.platformId c =? Platform.id platform)
                    && String.eqb (Conversation.userId c) (pretty (Telegram.id from)))
          (JsMap.values (MemStorage.conversations (storage w))) = Some conversation
        \/ (List.find
              (fun c => (Conversation.platformId c =? Platform.id platform)
                        && String.eqb (Conversation.userId c) (pretty (Telegram.id from)))
              (JsMap.values (MemStorage.conversations (storage w))) = None
            /\ Conversation.messagesCount conversation = 0))
    /\ JsMap.get (Conversation.id conversation) (MemStorage.conversations (storage w1))
       = Some conversation
    /\ MemStorage.platforms (storage w1) = MemStorage.platforms (storage w)
    /\ MemStorage.messages (storage w1) = MemStorage.messages (storage w)
    /\ MemStorage.logs (storage w1) = MemStorage.logs (storage w).
Proof.
  intros Hav Hkeyed.
  destruct (List.find
              (fun c => (Conversation.platformId c =? Platform.id platform)
                        && String.eqb (Conversation.userId c) (pretty (Telegram.id from)))
              (JsMap.values (MemStorage.conversations (storage w))))
    as [conversation|] eqn:Hfind.
  - assert (Hstored : JsMap.get (Conversation.id conversation)
                        (MemStorage.conversations (storage w)) = Some conversation).
    { apply keyed_get; [assumption|]. apply List.find_some in Hfind. tauto. }
    exists conversation, w. run_block Hav. split; [reflexivity|].
    repeat split; first [assumption | reflexivity | now left].
  - run_block Hav. eexists. eexists. split; [reflexivity|].
    cbn. rewrite JsMap_get_set_eq.
    repeat split; first [reflexivity | right; split; reflexivity].
Qed.

Lemma recordExchange_run
    (startTime : Z) (message : Telegram.Message)
    (platform : Platform.t) (conversation : Conversation.t) (w : World) :
  available w ->
  exists userMessage botMessage responseTime w1,
    TelegramHandler.recordExchange startTime message platform conversation w
    = (Ok (SimpleResponse.mk (Message.content botMessage) (75 # 100)
             (ProcessedMessage.intent
                (SimpleNLPProcessor.processMessage
                   (Js.orString (Telegram.text message) ""))),
           responseTime), w1)
    /\ sameSurroundings w w1
    /\ JsMap.get (Message.id userMessage) (MemStorage.messages (storage w1))
       = Some userMessage
    /\ (Message.sender userMessage = "user"
        /\ Message.content userMessage = Js.orString (Telegram.text message) "[Media]"
        /\ Message.conversationId userMessage = Conversation.id conversation)
    /\ JsMap.get (Message.id botMessage) (MemStorage.messages (storage w1))
       = Some botMessage
    /\ (Message.sender botMessage = "bot"
        /\ Message.content botMessage
           = SimpleMLTrainer.cannedResponse
               (ProcessedMessage.intent
                  (SimpleNLPProcessor.processMessage
                     (Js.orString (Telegram.text message) "")))
        /\ Message.conversationId botMessage = Conversation.id conversation)
    /\ MemStorage.platforms (storage w1) = MemStorage.platforms (storage w)
    /\ MemStorage.conversations (storage w1) = MemStorage.conversations (storage w)
    /\ MemStorage.logs (storage w1) = MemStorage.logs (storage w).
Proof.
  intros Hav. run_block Hav.
  lazymatch goal with
  | |- context [JsMap.set _ ?b (JsMap.set _ ?u (MemStorage.messages (storage w)))] =>
      exists u, b
  end.
  eexists. eexists. split; [reflexivity|]. cbn.
  rewrite JsMap_get_set_eq, JsMap_get_set_ne, JsMap_get_set_eq by lia.
  repeat split; reflexivity.
Qed.


Lemma updateCounters_run
    (platform stored : Platform.t) (conversation storedConversation : Conversation.t)
    (from : Telegram.User) (chat : Telegram.Chat) (confidence : Q) (responseTime : Z)
    (w : World) :
  available w ->
  JsMap.get (Platform.id platform) (MemStorage.platforms (storage w)) = Some stored ->
  JsMap.get (Conversation.id conversation) (MemStorage.conversations (storage w))
  = Some storedConversation ->
  exists infoLog w1,
    TelegramHandler.updateCounters platform conversation from chat confidence responseTime w
    = (Ok tt, w1)
    /\ sameSurroundings w w1
    /\ (exists platform',
          JsMap.get (Platform.id platform) (MemStorage.platforms (storage w1))
          = Some platform'
          /\ Platform.messagesCount platform' = Platform.messagesCount platform + 1)
    /\ (exists conversation',
          JsMap.get (Conversation.id conversation) (MemStorage.conversations (storage w1))
          = Some conversation'
          /\ Conversation.messagesCount conversation'
             = Conversation.messagesCount conversation + 2)
    /\ MemStorage.messages (storage w1) = MemStorage.messages (storage w)
    /\ MemStorage.logs (storage w1)
       = JsMap.set (Log.id infoLog) infoLog (MemStorage.logs (storage w))
    /\ Log.level infoLog = "info"
    /\ Log.id infoLog = MemStorage.currentId (storage w)
    /\ Log.message infoLog = "Telegram message processed successfully".
Proof.
  intros Hav Hplatform Hconversation. run_block Hav.
  eexists (Log.mk _ _ _ _ _ _). eexists. split; [reflexivity|]. cbn.
  split; [repeat split; reflexivity|].
  split; [eexists; split; [apply JsMap_get_set_eq | reflexivity]|].
  split; [eexists; split; [apply JsMap_get_set_eq | reflexivity]|].
  repeat split; reflexivity.
Qed.




(** ** The snapshot of a new observer *)

Lemma keepsS_ret {A} (a : A) : keepsSockets (mret a : M A).
Proof. intros w. reflexivity. Qed.

Lemma keepsS_bind {A B} (m : M A) (k : A -> M B) :
  keepsSockets m -> (forall a, keepsSockets (k a)) -> keepsSockets (m ≫= k).
Proof.
  intros Hm Hk w. rewrite bind_eq. specialize (Hm w).
  destruct (m w) as [[a|e] w1]; simpl in *.
  - now rewrite Hk.
  - assumption.
Qed.

Lemma keepsS_await {A} (op : StorageOp) (m : M A) :
  keepsSockets m -> keepsSockets (await op m).
Proof.
  intros Hm w. unfold await. destruct (rejects w op (ticks w)); [reflexivity|].
  now rewrite Hm.
Qed.

Lemma keepsS_dateNow : keepsSockets dateNow.
Proof. intros w. reflexivity. Qed.

Lemma keepsS_getStorage : keepsSockets getStorage.
Proof. intros w. reflexivity. Qed.

Lemma keepsS_consoleWrite (l : ConsoleLevel) (text : string) :
  keepsSockets (consoleWrite l text).
Proof. intros w. reflexivity. Qed.

Ltac keeps_sockets :=
  repeat
    first
      [ apply keepsS_ret | apply keepsS_dateNow | apply keepsS_getStorage
      | apply keepsS_consoleWrite | apply keepsS_await
      | apply keepsS_bind; [|intros ?] ].

Lemma keepsS_getAllPlatforms : keepsSockets Storage.getAllPlatforms.
Proof. unfold Storage.getAllPlatforms. keeps_sockets. Qed.

Lemma keepsS_getRecentMessages (limit : nat) : keepsSockets (Storage.getRecentMessages limit).
Proof. unfold Storage.getRecentMessages. keeps_sockets. Qed.

Lemma keepsS_getCurrentMlModel : keepsSockets Storage.getCurrentMlModel.
Proof. unfold Storage.getCurrentMlModel. keeps_sockets. Qed.

Lemma keepsS_calculateStats (startOfDay : Z -> Z) :
  keepsSockets (WebSocketManager.calculateStats startOfDay).
Proof.
  unfold WebSocketManager.calculateStats, Storage.getAllPlatforms,
    Storage.getAllConversations, Storage.getRecentMessages, Storage.getCurrentMlModel.
  keeps_sockets.
Qed.












Ltac unfold_ws :=
  unfold WebSocketManager.exec, WebSocketManager.onConnection, WebSocketManager.onClose,
    WebSocketManager.onError, WebSocketManager.closeSocket, WebSocketManager.snapshotFailed,
    WebSocketManager.getWss, WebSocketManager.putWss, consoleWrite, observed in *;
  monad_unfold; cbn in *.








(** * Further properties of the code *)

(** ** Substrings *)

Lemma prefix_spec (p s : string) :
  String.prefix p s = true <-> exists post, s = p ++ post.
Proof.
  revert s. induction p as [|c p IH]; intros s.
  - split; [intros _; now exists s | intros _; now destruct s].
  - destruct s as [|d s]; simpl; [split; [discriminate | intros [post [=]]]|].
    destruct (ascii_dec c d) as [->|Hne].
    + rewrite IH. split; intros [post H]; exists post; [now rewrite H | now injection H].
    + split; [discriminate | intros [post H]; injection H as H _; congruence].
Qed.

Lemma includes_unfold (hay needle : string) :
  Js.includes hay needle
  = if String.prefix needle hay then true
    else match hay with
         | EmptyString => false
         | String _ hay' => Js.includes hay' needle
         end.
Proof. destruct hay; reflexivity. Qed.

(** [includes] is the substring test. *)
Lemma includes_spec (hay needle : string) :
  Js.includes hay needle = true <-> exists pre post, hay = pre ++ needle ++ post.
Proof.
  induction hay as [|c hay IH]; rewrite includes_unfold.
  - destruct (String.prefix needle "") eqn:E.
    + apply prefix_spec in E as [post E]. split; [|reflexivity].
      intros _. now exists "", post.
    + split; [discriminate|]. intros (pre & post & H).
      destruct pre; [|discriminate]. simpl in H.
      assert (String.prefix needle "" = true) by (apply prefix_spec; now exists post).
      congruence.
  - destruct (String.prefix needle (String c hay)) eqn:E.
    + apply prefix_spec in E as [post E]. split; [|reflexivity].
      intros _. now exists "", post.
    + rewrite IH. split.
      * intros (pre & post & ->). now exists (String c pre), post.
      * intros (pre & post & H). destruct pre as [|d pre].
        -- simpl in H.
           assert (String.prefix needle (String c hay) = true)
             by (apply prefix_spec; now exists post).
           congruence.
        -- injection H as _ ->. now exists pre, post.
Qed.

Lemma includes_trans (hay word needle : string) :
  Js.includes hay word = true -> Js.includes word needle = true ->
  Js.includes hay needle = true.
Proof.
  rewrite !includes_spec. intros (pre & post & ->) (pre' & post' & ->).
  exists (pre ++ pre'), (post' ++ post). now rewrite !string_app_assoc.
Qed.

(** ** The order of the classifier's rules *)

(** X1.  The greeting rule comes first and one of its triggers is ["hi"]:
    every text that contains a word containing ["hi"] is a greeting.  So a
    text that mentions ["shipping"] is classified [greeting], and the only
    way to [delivery_inquiry] is the trigger ["delivery"]. *)
Theorem greeting_rule_shadows (message : string) :
  (forall word, Js.includes word "hi" = true -> Js.includes message word = true ->
                SimpleNLPProcessor.classifyIntent message = "greeting")
  /\ (Js.includes message "shipping" = true ->
      SimpleNLPProcessor.classifyIntent message = "greeting")
  /\ (SimpleNLPProcessor.classifyIntent message = "delivery_inquiry" ->
      Js.includes message "delivery" = true /\ Js.includes message "shipping" = false).
Proof.
  assert (Hhi : forall word, Js.includes word "hi" = true ->
                             Js.includes message word = true ->
                             SimpleNLPProcessor.classifyIntent message = "greeting").
  { intros word Hword Hmessage.
    pose proof (includes_trans message word "hi" Hmessage Hword) as H.
    unfold SimpleNLPProcessor.classifyIntent. rewrite H.
    now rewrite orb_true_r. }
  split; [exact Hhi|]. split.
  - intros H. now apply (Hhi "shipping").
  - intros H. destruct (Js.includes message "shipping") eqn:Eship.
    + rewrite (Hhi "shipping" eq_refl Eship) in H. discriminate.
    + split; [|reflexivity].
      unfold SimpleNLPProcessor.classifyIntent in H. rewrite Eship in H.
      repeat match type of H with
             | (if ?c then _ else _) = _ => destruct c eqn:?; try discriminate H
             end.
      match goal with
      | E : (Js.includes message "delivery" || false)%bool = true |- _ =>
          now rewrite orb_false_r in E
      end.
Qed.

Lemma greeting_rule_shadows_witness :
  Js.includes "where is my shipping label" "shipping" = true
  /\ SimpleNLPProcessor.classifyIntent "where is my shipping label" = "greeting".
Proof.
  split; [reflexivity|].
  apply (proj1 (proj2 (greeting_rule_shadows "where is my shipping label"))).
  reflexivity.
Defined.

(** ** Letter case and surrounding white space *)

Lemma toLowerChar_idem (c : ascii) : Js.toLowerChar (Js.toLowerChar c) = Js.toLowerChar c.
Proof. destruct c as [[] [] [] [] [] [] [] []]; reflexivity. Qed.

Lemma isWhiteSpace_lower (c : ascii) : Js.isWhiteSpace (Js.toLowerChar c) = Js.isWhiteSpace c.
Proof. destruct c as [[] [] [] [] [] [] [] []]; reflexivity. Qed.

Lemma toLowerCase_idem (s : string) : Js.toLowerCase (Js.toLowerCase s) = Js.toLowerCase s.
Proof.
  induction s as [|c s IH]; [reflexivity|].
  cbn [Js.toLowerCase]. now rewrite toLowerChar_idem, IH.
Qed.

Lemma trimStart_lower (s : string) :
  Js.trimStart (Js.toLowerCase s) = Js.toLowerCase (Js.trimStart s).
Proof.
  induction s as [|c s IH]; [reflexivity|].
  cbn [Js.toLowerCase Js.trimStart]. rewrite isWhiteSpace_lower.
  now destruct (Js.isWhiteSpace c).
Qed.

Lemma trimEnd_lower (s : string) :
  Js.trimEnd (Js.toLowerCase s) = Js.toLowerCase (Js.trimEnd s).
Proof.
  induction s as [|c s IH]; [reflexivity|].
  cbn [Js.toLowerCase Js.trimEnd]. rewrite IH, isWhiteSpace_lower.
  destruct (Js.trimEnd s); cbn [Js.toLowerCase]; [|reflexivity].
  now destruct (Js.isWhiteSpace c).
Qed.

Lemma trimEnd_idem (s : string) : Js.trimEnd (Js.trimEnd s) = Js.trimEnd s.
Proof.
  induction s as [|c s IH]; [reflexivity|].
  cbn [Js.trimEnd]. destruct (Js.trimEnd s) as [|d t] eqn:E.
  - destruct (Js.isWhiteSpace c) eqn:Ec; [reflexivity|].
    cbn [Js.trimEnd]. now rewrite Ec.
  - cbn [Js.trimEnd]. cbn [Js.trimEnd] in IH. now rewrite IH.
Qed.

Lemma trimStart_trimEnd (s : string) :
  Js.trimStart (Js.trimEnd (Js.trimStart s)) = Js.trimEnd (Js.trimStart s).
Proof.
  induction s as [|c s IH]; [reflexivity|].
  cbn [Js.trimStart]. destruct (Js.isWhiteSpace c) eqn:Ec; [assumption|].
  cbn [Js.trimEnd]. destruct (Js.trimEnd s); rewrite ?Ec; cbn [Js.trimStart]; now rewrite Ec.
Qed.

Lemma trim_idem (s : string) : Js.trim (Js.trim s) = Js.trim s.
Proof. unfold Js.trim. now rewrite trimStart_trimEnd, trimEnd_idem. Qed.

Lemma trim_lower (s : string) : Js.trim (Js.toLowerCase s) = Js.toLowerCase (Js.trim s).
Proof. unfold Js.trim. now rewrite trimStart_lower, trimEnd_lower. Qed.

(** X2.  The classifier sees a text only after lower-casing and trimming:
    for every text of code units below 256, accented capitals and no-break
    spaces included, the whole result (intent, sentiment, confidence,
    keywords) is the same for the text, for its lower-cased form and for its
    trimmed form. *)
Theorem processMessage_ignores_case_and_margin (message : string) :
  SimpleNLPProcessor.processMessage (Js.toLowerCase message)
  = SimpleNLPProcessor.processMessage message
  /\ SimpleNLPProcessor.processMessage (Js.trim message)
     = SimpleNLPProcessor.processMessage message.
Proof.
  unfold SimpleNLPProcessor.processMessage. split.
  - now rewrite toLowerCase_idem.
  - now rewrite <- trim_lower, trim_idem.
Qed.

(** ** Keywords *)

Lemma includes_space_cons (c : ascii) (t : string) :
  Js.includes (String c t) " " = (Ascii.eqb c " " || Js.includes t " ")%bool.
Proof.
  rewrite includes_unfold. cbn [String.prefix].
  destruct (ascii_dec " " c) as [<-|Hne].
  - now destruct t.
  - assert (Ascii.eqb c " " = false) as -> by (apply Ascii.eqb_neq; congruence).
    reflexivity.
Qed.

Lemma split_space_pieces (s t : string) :
  In t (Js.split_space s) -> Js.includes t " " = false.
Proof.
  revert t. induction s as [|c s IH]; intros t; cbn [Js.split_space].
  - intros [<-|[]]. reflexivity.
  - destruct (Ascii.eqb c " ") eqn:Ec.
    + intros [<-|Hin]; [reflexivity | now apply IH].
    + destruct (Js.split_space s) as [|t0 ts].
      * intros [<-|[]]. rewrite includes_space_cons, Ec. reflexivity.
      * intros [<-|Hin].
        -- rewrite includes_space_cons, Ec. apply IH. now left.
        -- apply IH. now right.
Qed.

Lemma firstn_subset {A} (n : nat) (l : list A) (x : A) : In x (firstn n l) -> In x l.
Proof.
  revert l. induction n as [|n IH]; intros [|y l]; cbn [firstn In]; try tauto.
  intros [->|Hin]; [now left | right; now apply IH].
Qed.

(** X3.  The keywords of a message: at most five; each is one of the pieces
    of the cleaned text between spaces, has at least three characters, is
    not a stop word and contains no space. *)
Theorem keywords_bounded (message : string) :
  let processed := SimpleNLPProcessor.processMessage message in
  (List.length (ProcessedMessage.keywords processed) <= 5)%nat
  /\ forall keyword,
       In keyword (ProcessedMessage.keywords processed) ->
       In keyword (Js.split_space (Js.trim (Js.toLowerCase message)))
       /\ (3 <= String.length keyword)%nat
       /\ Js.arrayIncludes SimpleNLPProcessor.stopWords keyword = false
       /\ Js.includes keyword " " = false.
Proof.
  cbv zeta. unfold SimpleNLPProcessor.processMessage.
  cbn [ProcessedMessage.keywords].
  unfold SimpleNLPProcessor.extractKeywords, Js.slice0. split.
  - apply List.firstn_le_length.
  - intros keyword Hin. apply firstn_subset in Hin.
    apply List.filter_In in Hin as [Hin Hkeep].
    apply List.filter_In in Hin as [Hin _].
    apply andb_true_iff in Hkeep as [Hstop Hlen].
    apply negb_true_iff in Hstop. apply Nat.ltb_lt in Hlen.
    split; [assumption|]. split; [lia|]. split; [assumption|].
    now apply split_space_pieces with (s := Js.trim (Js.toLowerCase message)).
Qed.

Lemma keywords_bounded_witness :
  In "hello" (ProcessedMessage.keywords (SimpleNLPProcessor.processMessage "Hello there"))
  /\ (3 <= String.length "hello")%nat
  /\ Js.includes "hello" " " = false.
Proof.
  assert (Hin : In "hello"
            (ProcessedMessage.keywords (SimpleNLPProcessor.processMessage "Hello there")))
    by (vm_compute; auto).
  destruct (keywords_bounded "Hello there") as [_ H].
  destruct (H "hello" Hin) as (_ & Hlen & _ & Hspace).
  split; [exact Hin | split; [exact Hlen | exact Hspace]].
Defined.

(** ** Training *)

Lemma filter_none {A} (f : A -> bool) (l : list A) :
  (forall x, f x = false) -> List.filter f l = [].
Proof.
  intros Hf. induction l as [|x l IH]; [reflexivity|].
  cbn [List.filter]. now rewrite Hf.
Qed.

(** X4.  The keywords of [responseIntentMap] are tried in the order in which
    the table lists them, [hello] first and [shipping] last, so that a reply
    that both apologises and greets is a greeting.  The intent inferred from
    a bot response is the label of the first keyword, in that order, that the
    lower-cased response contains: the table splits into the entries before
    that keyword, none of which is contained, the entry itself and the rest.
    The result is [null] exactly when no keyword is contained.  Every label
    it can return has a canned response in the selector's table, and none of
    them is one of the classifier's labels [help_request], [pricing_inquiry]
    and [general_inquiry]. *)
Theorem inferred_intent_known (response : string) :
  List.map fst MLTrainer.responseIntentMap
  = ["hello"; "hi"; "welcome"; "goodbye"; "bye"; "help"; "assist"; "support";
     "order"; "tracking"; "price"; "cost"; "product"; "information"; "sorry";
     "apologize"; "thank"; "cancel"; "refund"; "delivery"; "shipping"]
  /\ MLTrainer.inferIntentFromResponse "Sorry, and hello again" = Some "greeting"
  /\
  match MLTrainer.inferIntentFromResponse response with
  | Some intent =>
      (exists keyword earlier later,
          MLTrainer.responseIntentMap = (earlier ++ (keyword, intent) :: later)%list
          /\ Js.includes (Js.toLowerCase response) keyword = true
          /\ forall entry,
               In entry earlier ->
               Js.includes (Js.toLowerCase response) (fst entry) = false)
      /\ MLTrainer.lookupIntent intent <> None
      /\ intent <> "help_request"
      /\ intent <> "pricing_inquiry"
      /\ intent <> "general_inquiry"
  | None =>
      forall keyword intent,
        In (keyword, intent) MLTrainer.responseIntentMap ->
        Js.includes (Js.toLowerCase response) keyword = false
  end.
Proof.
  split; [reflexivity|]. split; [reflexivity|].
  unfold MLTrainer.inferIntentFromResponse.
  destruct (List.find _ _) as [[keyword intent]|] eqn:E; cbn [option_map snd].
  - pose proof (List.find_some _ _ E) as [Hin _].
    split.
    + apply find_first_inv in E as (earlier & later & Hsplit & Hearlier & Hinc).
      exists keyword, earlier, later. cbn [fst] in Hinc.
      split; [exact Hsplit|]. split; [exact Hinc|].
      intros entry Hentry. rewrite forallb_forall in Hearlier.
      apply negb_true_iff. exact (Hearlier entry Hentry).
    + clear E. unfold MLTrainer.responseIntentMap in Hin. cbn [In] in Hin.
      repeat (destruct Hin as [Heq|Hin];
              [injection Heq as <- <-;
               repeat split; intros H; vm_compute in H; discriminate H|]).
      destruct Hin.
  - intros keyword intent Hin. exact (List.find_none _ _ E (keyword, intent) Hin).
Qed.

(** The order of the table decides: a reply that both greets and apologises
    is labelled a greeting, because [hello] comes before [sorry]. *)
Example inferred_intent_first_keyword :
  MLTrainer.inferIntentFromResponse "Sorry, and hello again" = Some "greeting".
Proof. reflexivity. Qed.

Lemma calculateAccuracy_null (trainingData : list TrainingData.t) :
  (MLTrainer.calculateAccuracy trainingData == 0)%Q.
Proof.
  unfold MLTrainer.calculateAccuracy.
  destruct trainingData as [|sample rest]; [reflexivity|].
  rewrite filter_none.
  - cbn [List.length]. destruct (Nat.ltb _ _); [|reflexivity].
    unfold Qdiv. apply Qmult_0_l.
  - intros x. cbv zeta. apply andb_false_iff. right. reflexivity.
Qed.

Lemma accuracy_percent_null (trainingData : list TrainingData.t) :
  mathRoundQ (MLTrainer.calculateAccuracy trainingData * 100) = 0.
Proof. unfold mathRoundQ. rewrite calculateAccuracy_null. reflexivity. Qed.

(** X5.  The accuracy estimate is always zero: a sample counts only when the
    classifier's confidence exceeds 70, and the classifier's confidence is
    the constant 0.75.  So the percentage derived from it is 0 as well. *)
Theorem calculateAccuracy_zero (trainingData : list TrainingData.t) :
  (MLTrainer.calculateAccuracy trainingData == 0)%Q
  /\ mathRoundQ (MLTrainer.calculateAccuracy trainingData * 100) = 0.
Proof.
  split; [apply calculateAccuracy_null | apply accuracy_percent_null].
Qed.

Lemma available_called (op : StorageOp) (w : World) : available w -> available (called op w).
Proof. intros Hav. now apply available_same with (w := w). Qed.

Lemma collectTrainingData_run (conversations : list Conversation.t) :
  forall (trainingData : list TrainingData.t) (w : World),
    available w ->
    exists w',
      MLTrainer.collectTrainingData conversations trainingData w
      = (Ok (trainingData
             ++ List.flat_map
                  (fun c =>
                     MLTrainer.trainingPairs
                       (List.filter
                          (fun m => Message.conversationId m =? Conversation.id c)
                          (JsMap.values (MemStorage.messages (storage w)))))
                  conversations)%list, w')
      /\ storage w' = storage w
      /\ rejects w' = rejects w
      /\ wss w' = wss w.
Proof.
  induction conversations as [|c rest IH]; intros trainingData w Hav.
  - exists w. cbn [MLTrainer.collectTrainingData List.flat_map].
    rewrite app_nil_r. auto.
  - cbn [MLTrainer.collectTrainingData List.flat_map].
    unfold Storage.getMessagesByConversation.
    rewrite bind_eq, await_accepted by apply Hav.
    monad_unfold. cbn [storage called].
    destruct (IH (trainingData
                  ++ MLTrainer.trainingPairs
                       (List.filter
                          (fun m => Message.conversationId m =? Conversation.id c)
                          (JsMap.values (MemStorage.messages (storage w)))))%list
                 (called GetMessagesByConversation w)
                 (available_called _ _ Hav))
      as (w' & Hrun & Hst & Hrej & Hwss).
    exists w'. rewrite Hrun. cbn [storage called] in *.
    rewrite <- app_assoc. auto.
Qed.

(** X6.  Training from the stored conversations always reports accuracy 0,
    with the number of collected samples, and overwrites the accuracy of the
    ready model with 0: the model keeps its id, name, version and creation
    time, and gets the collected samples, the status [ready] and the time of
    the training. *)
Theorem training_records_zero_accuracy (w : World) (model : MlModel.t) :
  available w ->
  keyed MlModel.id (MemStorage.mlModels (storage w)) ->
  readyModel (storage w) = Some model ->
  exists w' trainedAt,
    MLTrainer.trainFromConversations w
    = (Ok (TrainResult.mk 0 (Z.of_nat (List.length (harvest (storage w))))), w')
    /\ JsMap.get (MlModel.id model) (MemStorage.mlModels (storage w'))
       = Some (MlModel.mk (MlModel.id model) (MlModel.name model) (MlModel.version model)
                 0
                 (Some (List.map (fun d => (TrainingData.text d, TrainingData.intent d))
                                 (harvest (storage w))))
                 "ready" (Some trainedAt) (MlModel.createdAt model)).
Proof.
  intros Hav Hkeyed Hready.
  unfold MLTrainer.trainFromConversations, try_catch, Storage.getAllConversations,
    trainClassifier, consoleWrite, Storage.getCurrentMlModel, dateNow,
    Storage.updateMlModel, Storage.createLog, Storage.nextId.
  monad_unfold.
  rewrite await_accepted by apply Hav.
  cbn [storage called].
  destruct (collectTrainingData_run
              (JsMap.values (MemStorage.conversations (storage w))) []
              (called GetAllConversations w) (available_called _ _ Hav))
    as (w1 & Hrun & Hst & Hrej & Hwss).
  cbn [storage called rejects app] in Hrun, Hst, Hrej.
  fold (harvest (storage w)) in Hrun.
  rewrite Hrun.
  unfold await.
  cbn [rejects ticks storage tick called]. rewrite Hrej, !Hav.
  cbn [rejects ticks storage tick called]. rewrite Hst.
  fold (readyModel (storage w)). rewrite Hready.
  assert (Hget : JsMap.get (MlModel.id model) (MemStorage.mlModels (storage w)) = Some model).
  { apply keyed_get; [assumption|].
    apply List.find_some in Hready as [Hin _]. exact Hin. }
  cbn [rejects ticks storage tick called]. rewrite Hav.
  cbn [rejects ticks storage tick called]. rewrite Hget.
  cbn [rejects ticks storage tick called withStorage]. rewrite Hav.
  cbn [rejects ticks storage tick called withStorage MemStorage.currentId
       MemStorage.mlModels MemStorage.logs Storage.setMlModels Storage.setCurrentId
       Storage.setLogs].
  unfold dateNow. rewrite !accuracy_percent_null.
  cbn [rejects ticks storage tick called withStorage MemStorage.currentId
       MemStorage.mlModels MemStorage.logs Storage.setMlModels Storage.setCurrentId
       Storage.setLogs].
  eexists. eexists. split; [reflexivity|].
  cbn [rejects ticks storage tick called withStorage MemStorage.currentId
       MemStorage.mlModels MemStorage.logs Storage.setMlModels Storage.setCurrentId
       Storage.setLogs].
  rewrite JsMap_get_set_eq. reflexivity.
Qed.

Lemma training_records_zero_accuracy_witness :
  exists w' trainedAt,
    MLTrainer.trainFromConversations Scenario.chattedWorld
    = (Ok (TrainResult.mk 0 1), w')
    /\ JsMap.get 1 (MemStorage.mlModels (storage w'))
       = Some (MlModel.mk 1 "LuvSmithCorp NLP Model" "1.0.0" 0
                 (Some [("hello", "greeting")]) "ready" (Some trainedAt)
                 1700000000000).
Proof.
  apply (training_records_zero_accuracy Scenario.chattedWorld
           (MlModel.mk 1 "LuvSmithCorp NLP Model" "1.0.0" 94 (Some []) "ready"
              (Some (1700000000000 - 7200000)) 1700000000000)).
  - intros op n. reflexivity.
  - split; simpl.
    + repeat constructor. simpl. tauto.
    + repeat constructor.
  - reflexivity.
Defined.

(** ** The record store keeps its tables in order *)

Lemma JsMap_set_fresh {V} (k : Z) (v : V) (m : JsMap.t V) :
  ~ In k (JsMap.keys m) -> JsMap.set k v m = (m ++ [(k, v)])%list.
Proof.
  induction m as [|[k' v'] m IH]; cbn [JsMap.set JsMap.keys List.map fst In app];
    [reflexivity|].
  intros Hnotin. destruct (k' =? k) eqn:E.
  - apply Z.eqb_eq in E. tauto.
  - f_equal. apply IH. unfold JsMap.keys. tauto.
Qed.

Lemma below_fresh {V} (n : Z) (m : JsMap.t V) : below n m -> ~ In n (JsMap.keys m).
Proof.
  unfold below. rewrite List.Forall_forall. intros H Hin. specialize (H n Hin). lia.
Qed.

Lemma keys_app {V} (m m' : JsMap.t V) :
  JsMap.keys (m ++ m')%list = (JsMap.keys m ++ JsMap.keys m')%list.
Proof. unfold JsMap.keys. apply List.map_app. Qed.

Lemma NoDup_snoc {A} (l : list A) (x : A) :
  List.NoDup l -> ~ In x l -> List.NoDup (l ++ [x]).
Proof.
  induction l as [|y l IH]; cbn [app In]; intros Hnd Hnotin.
  - constructor; [tauto | constructor].
  - inversion Hnd as [|? ? Hy Hnd']; subst. constructor.
    + rewrite List.in_app_iff. cbn [In]. intros [H|[H|[]]]; [tauto|]. subst. tauto.
    + apply IH; tauto.
Qed.

Lemma tableOk_fresh {V} (id : V -> Z) (n : Z) (m : JsMap.t V) (v : V) :
  tableOk id n m -> id v = n -> tableOk id (n + 1) (JsMap.set n v m).
Proof.
  intros [[Hnd Hid] Hbelow] Hv.
  pose proof (below_fresh _ _ Hbelow) as Hfresh.
  rewrite JsMap_set_fresh by assumption.
  unfold tableOk, keyed, below. rewrite keys_app. cbn [JsMap.keys List.map fst].
  split; [split|].
  - now apply NoDup_snoc.
  - apply List.Forall_app. split; [assumption|]. constructor; [exact Hv | constructor].
  - apply List.Forall_app. split.
    + unfold below in Hbelow. eapply List.Forall_impl; [|exact Hbelow].
      cbv beta. intros. lia.
    + constructor; [lia | constructor].
Qed.

Lemma tableOk_mono {V} (id : V -> Z) (n : Z) (m : JsMap.t V) :
  tableOk id n m -> tableOk id (n + 1) m.
Proof.
  intros [Hkeyed Hbelow]. split; [assumption|].
  unfold below in *. eapply List.Forall_impl; [|exact Hbelow]. cbv beta. intros. lia.
Qed.

Lemma tableOk_update {V} (id : V -> Z) (n : Z) (m : JsMap.t V) (k : Z) (v old : V) :
  tableOk id n m -> JsMap.get k m = Some old -> id v = k ->
  tableOk id n (JsMap.set k v m).
Proof.
  intros [Hkeyed Hbelow] Hget Hv. split.
  - now apply keyed_set with (old := old).
  - unfold below. rewrite JsMap_keys_set; [assumption|].
    apply JsMap_get_some_in in Hget. unfold JsMap.keys.
    apply in_map_iff. now exists (k, old).
Qed.

Lemma JsMap_in_delete {V} (k : Z) (m : JsMap.t V) (kv : Z * V) :
  In kv (JsMap.delete k m) -> In kv m.
Proof.
  induction m as [|[k' v'] m IH]; cbn [JsMap.delete In]; [tauto|].
  destruct (k' =? k); cbn [In]; tauto.
Qed.

Lemma NoDup_keys_delete {V} (k : Z) (m : JsMap.t V) :
  List.NoDup (JsMap.keys m) -> List.NoDup (JsMap.keys (JsMap.delete k m)).
Proof.
  induction m as [|[k' v'] m IH]; cbn [JsMap.delete JsMap.keys List.map fst];
    [intros; constructor|].
  intros Hnd. inversion Hnd as [|? ? Hnotin Hnd']; subst.
  destruct (k' =? k); [assumption|].
  cbn [JsMap.keys List.map fst]. constructor; [|now apply IH].
  intros Hin. apply Hnotin. unfold JsMap.keys in *.
  apply in_map_iff in Hin as [kv [Hk Hin]]. apply in_map_iff. exists kv.
  split; [assumption|]. now apply JsMap_in_delete with (k := k).
Qed.

Lemma tableOk_delete {V} (id : V -> Z) (n : Z) (m : JsMap.t V) (k : Z) :
  tableOk id n m -> tableOk id n (JsMap.delete k m).
Proof.
  intros [[Hnd Hid] Hbelow]. split; [split|].
  - now apply NoDup_keys_delete.
  - rewrite List.Forall_forall in *. intros kv Hin. apply Hid.
    now apply JsMap_in_delete with (k := k).
  - unfold below in *. rewrite List.Forall_forall in *. intros k' Hin. apply Hbelow.
    unfold JsMap.keys in *. apply in_map_iff in Hin as [kv [Hk Hin]].
    apply in_map_iff. exists kv. split; [assumption|].
    now apply JsMap_in_delete with (k := k).
Qed.

Lemma preserves_ret {A} (a : A) : preserves (mret a : M A).
Proof. intros w H. exact H. Qed.

Lemma preserves_throw {A} (e : exn) : preserves (throw e : M A).
Proof. intros w H. exact H. Qed.

Lemma preserves_bind {A B} (m : M A) (k : A -> M B) :
  preserves m -> (forall a, preserves (k a)) -> preserves (m ≫= k).
Proof.
  intros Hm Hk w Hwf. rewrite bind_eq. specialize (Hm w Hwf).
  destruct (m w) as [[a|e] w1]; cbn [snd] in *.
  - now apply Hk.
  - assumption.
Qed.

Lemma preserves_try {A} (m : M A) (h : exn -> M A) :
  preserves m -> (forall e, preserves (h e)) -> preserves (try_catch m h).
Proof.
  intros Hm Hh w Hwf. unfold try_catch. specialize (Hm w Hwf).
  destruct (m w) as [[a|e] w1]; cbn [snd] in *.
  - assumption.
  - now apply Hh.
Qed.

Lemma preserves_dateNow : preserves dateNow.
Proof. intros w H. exact H. Qed.

Lemma preserves_consoleWrite (l : ConsoleLevel) (text : string) :
  preserves (consoleWrite l text).
Proof. intros w H. exact H. Qed.

Lemma preserves_fetch (r : HttpRequest) : preserves (fetch r).
Proof. intros w H. unfold fetch. now destruct (fetches w (ticks w)). Qed.

(** A storage method that only reads. *)
Lemma preserves_read {A} (op : StorageOp) (f : MemStorage.t -> A) :
  preserves (await op (s ← getStorage; mret (f s))).
Proof. intros w H. unfold await. now destruct (rejects w op (ticks w)). Qed.

Ltac store_step :=
  unfold await, Storage.nextId, dateNow; monad_unfold;
  cbn [storage called tick withStorage snd fst];
  repeat match goal with
    | |- context [rejects ?w ?op ?n] => destruct (rejects w op n); [assumption|]
    | |- context [match JsMap.get ?k ?m with _ => _ end] =>
        let E := fresh "Hget" in destruct (JsMap.get k m) eqn:E; [|assumption]
    end;
  cbn [storage called tick withStorage snd fst].

Ltac table_step :=
  unfold wellFormed in *;
  cbn [MemStorage.platforms MemStorage.conversations MemStorage.messages
       MemStorage.templates MemStorage.mlModels MemStorage.logs MemStorage.botConfigs
       MemStorage.currentId Storage.setPlatforms Storage.setConversations
       Storage.setMessages Storage.setTemplates Storage.setMlModels Storage.setLogs
       Storage.setBotConfigs Storage.setCurrentId] in *;
  repeat match goal with H : _ /\ _ |- _ => destruct H end;
  repeat match goal with |- _ /\ _ => split end;
  first [ assumption
        | apply tableOk_mono; assumption
        | apply tableOk_fresh; [assumption | reflexivity]
        | apply tableOk_delete; assumption
        | idtac ].

Lemma preserves_createPlatform (p : InsertPlatform.t) : preserves (Storage.createPlatform p).
Proof. intros w Hwf. unfold Storage.createPlatform. store_step. table_step. Qed.

Lemma preserves_createConversation (c : InsertConversation.t) :
  preserves (Storage.createConversation c).
Proof. intros w Hwf. unfold Storage.createConversation. store_step. table_step. Qed.

Lemma preserves_createMessage (m : InsertMessage.t) : preserves (Storage.createMessage m).
Proof. intros w Hwf. unfold Storage.createMessage. store_step. table_step. Qed.

Lemma preserves_createTemplate (t : InsertTemplate.t) : preserves (Storage.createTemplate t).
Proof. intros w Hwf. unfold Storage.createTemplate. store_step. table_step. Qed.

Lemma preserves_createMlModel (m : InsertMlModel.t) : preserves (Storage.createMlModel m).
Proof. intros w Hwf. unfold Storage.createMlModel. store_step. table_step. Qed.

Lemma preserves_createLog (l : InsertLog.t) : preserves (Storage.createLog l).
Proof. intros w Hwf. unfold Storage.createLog. store_step. table_step. Qed.

Lemma preserves_deleteTemplate (id : Z) : preserves (Storage.deleteTemplate id).
Proof. intros w Hwf. unfold Storage.deleteTemplate. store_step. table_step. Qed.

Lemma keyed_get_id {V} (id : V -> Z) (m : JsMap.t V) (k : Z) (v : V) :
  keyed id m -> JsMap.get k m = Some v -> id v = k.
Proof.
  intros [_ Hid] Hget. apply JsMap_get_some_in in Hget.
  rewrite List.Forall_forall in Hid. exact (Hid _ Hget).
Qed.

Ltac update_step :=
  match goal with
  | Hok : tableOk ?idf _ ?tbl, Hget : JsMap.get ?key ?tbl = Some ?prev
    |- tableOk ?idf _ (JsMap.set ?key _ ?tbl) =>
      apply tableOk_update with (old := prev); [exact Hok | exact Hget |];
      exact (keyed_get_id idf tbl key prev (proj1 Hok) Hget)
  end.

Lemma preserves_updatePlatform (id : Z) (u : PartialPlatform.t) :
  preserves (Storage.updatePlatform id u).
Proof. intros w Hwf. unfold Storage.updatePlatform. store_step. table_step. update_step. Qed.

Lemma preserves_updateConversation (id : Z) (u : PartialConversation.t) :
  preserves (Storage.updateConversation id u).
Proof.
  intros w Hwf. unfold Storage.updateConversation. store_step. table_step. update_step.
Qed.

Lemma preserves_updateTemplate (id : Z) (u : PartialTemplate.t) :
  preserves (Storage.updateTemplate id u).
Proof. intros w Hwf. unfold Storage.updateTemplate. store_step. table_step. update_step. Qed.

Lemma preserves_updateMlModel (id : Z) (u : PartialMlModel.t) :
  preserves (Storage.updateMlModel id u).
Proof. intros w Hwf. unfold Storage.updateMlModel. store_step. table_step. update_step. Qed.

Lemma preserves_updateBotConfig (u : PartialBotConfig.t) :
  preserves (Storage.updateBotConfig u).
Proof. intros w Hwf. unfold Storage.updateBotConfig. store_step. table_step. update_step. Qed.

Lemma wellFormed_initial (now u1 u2 u3 : Z) :
  wellFormed (Sample.initialStorage now u1 u2 u3).
Proof.
  unfold wellFormed, tableOk, keyed, below. cbn.
  repeat match goal with |- _ /\ _ => split end;
    repeat constructor; cbn; try lia; intuition congruence.
Qed.

(** X7.  The tables of the in-memory store stay in order.  The store that the
    constructor builds files every record under its own id, once per table,
    with every key below the id counter; and every writing method of the
    store, whether it succeeds, rejects or throws, leaves a store with that
    property in a store with that property. *)
Theorem store_methods_keep_order :
  (forall now u1 u2 u3, wellFormed (Sample.initialStorage now u1 u2 u3))
  /\ (forall p, preserves (Storage.createPlatform p))
  /\ (forall id u, preserves (Storage.updatePlatform id u))
  /\ (forall c, preserves (Storage.createConversation c))
  /\ (forall id u, preserves (Storage.updateConversation id u))
  /\ (forall m, preserves (Storage.createMessage m))
  /\ (forall t, preserves (Storage.createTemplate t))
  /\ (forall id u, preserves (Storage.updateTemplate id u))
  /\ (forall id, preserves (Storage.deleteTemplate id))
  /\ (forall m, preserves (Storage.createMlModel m))
  /\ (forall id u, preserves (Storage.updateMlModel id u))
  /\ (forall l, preserves (Storage.createLog l))
  /\ (forall u, preserves (Storage.updateBotConfig u)).
Proof.
  repeat match goal with |- _ /\ _ => split end.
  - apply wellFormed_initial.
  - apply preserves_createPlatform.
  - apply preserves_updatePlatform.
  - apply preserves_createConversation.
  - apply preserves_updateConversation.
  - apply preserves_createMessage.
  - apply preserves_createTemplate.
  - apply preserves_updateTemplate.
  - apply preserves_deleteTemplate.
  - apply preserves_createMlModel.
  - apply preserves_updateMlModel.
  - apply preserves_createLog.
  - apply preserves_updateBotConfig.
Qed.

Lemma store_methods_keep_order_witness :
  wellFormed
    (storage (snd (Storage.createTemplate
                     (InsertTemplate.mk "Returns" "Customer Support"
                        "You can return any item within 30 days." None None None)
                     Sample.freshWorld))).
Proof.
  destruct store_methods_keep_order as (Hinit & _ & _ & _ & _ & _ & Hcreate & _).
  apply Hcreate. apply Hinit.
Defined.

(** ** The callers keep the store in order *)

Lemma preserves_getBotConfig : preserves Storage.getBotConfig.
Proof. apply preserves_read. Qed.

Lemma preserves_getAllPlatforms : preserves Storage.getAllPlatforms.
Proof. apply preserves_read. Qed.

Lemma preserves_getPlatformByName (name : string) :
  preserves (Storage.getPlatformByName name).
Proof. unfold Storage.getPlatformByName. apply preserves_read. Qed.

Lemma preserves_getAllConversations : preserves Storage.getAllConversations.
Proof. apply preserves_read. Qed.

Lemma preserves_getMessagesByConversation (id : Z) :
  preserves (Storage.getMessagesByConversation id).
Proof. unfold Storage.getMessagesByConversation. apply preserves_read. Qed.

Lemma preserves_getRecentMessages (limit : nat) :
  preserves (Storage.getRecentMessages limit).
Proof. unfold Storage.getRecentMessages. apply preserves_read. Qed.

Lemma preserves_getAllTemplates : preserves Storage.getAllTemplates.
Proof. apply preserves_read. Qed.

Lemma preserves_getCurrentMlModel : preserves Storage.getCurrentMlModel.
Proof. apply preserves_read. Qed.

Ltac in_order :=
  repeat
    first
      [ apply preserves_ret | apply preserves_throw | apply preserves_dateNow
      | apply preserves_consoleWrite | apply preserves_fetch
      | apply preserves_getBotConfig | apply preserves_getAllPlatforms
      | apply preserves_getPlatformByName | apply preserves_getAllConversations
      | apply preserves_getMessagesByConversation | apply preserves_getRecentMessages
      | apply preserves_getAllTemplates | apply preserves_getCurrentMlModel
      | apply preserves_createPlatform | apply preserves_updatePlatform
      | apply preserves_createConversation | apply preserves_updateConversation
      | apply preserves_createMessage | apply preserves_createTemplate
      | apply preserves_updateTemplate | apply preserves_deleteTemplate
      | apply preserves_createMlModel | apply preserves_updateMlModel
      | apply preserves_createLog | apply preserves_updateBotConfig
      | match goal with
        | |- preserves (_ ≫= _) => apply preserves_bind; [|intros ?]
        | |- preserves (try_catch _ _) => apply preserves_try; [|intros ?]
        | |- preserves (match ?x with _ => _ end) => destruct x
        | |- preserves (if ?x then _ else _) => destruct x
        end ].

Lemma preserves_collectTrainingData (conversations : list Conversation.t) :
  forall trainingData, preserves (MLTrainer.collectTrainingData conversations trainingData).
Proof.
  induction conversations as [|c rest IH]; intros trainingData;
    cbn [MLTrainer.collectTrainingData].
  - apply preserves_ret.
  - apply preserves_bind; [apply preserves_getMessagesByConversation|].
    intros messages. apply IH.
Qed.

(** X8.  Every caller of the store keeps it in order: the template-backed
    selector, both training routines and the Telegram webhook handler, on
    every input and whatever the store, the clock and the platform API do. *)
Theorem callers_keep_order :
  (forall message platformId, preserves (MLTrainer.generateResponse message platformId))
  /\ preserves MLTrainer.trainFromConversations
  /\ preserves SimpleMLTrainer.trainFromConversations
  /\ (forall botToken update, preserves (TelegramHandler.handleMessage botToken update)).
Proof.
  repeat match goal with |- _ /\ _ => split end.
  - intros message platformId.
    unfold MLTrainer.generateResponse, MLTrainer.respond. in_order.
  - unfold MLTrainer.trainFromConversations, trainClassifier. in_order.
    apply preserves_collectTrainingData.
  - unfold SimpleMLTrainer.trainFromConversations, trainClassifier. in_order.
  - intros botToken update.
    unfold TelegramHandler.handleMessage, TelegramHandler.processIncomingMessage,
      TelegramHandler.pipeline, TelegramHandler.sendMessage,
      TelegramHandler.resolvePlatform, TelegramHandler.resolveConversation,
      TelegramHandler.recordExchange, TelegramHandler.updateCounters,
      SimpleMLTrainer.generateResponse.
    in_order.
Qed.

Lemma callers_keep_order_witness :
  wellFormed
    (storage (snd (TelegramHandler.handleMessage "token" (Sample.textUpdate "hello")
                     Sample.freshWorld))).
Proof.
  destruct callers_keep_order as (_ & _ & _ & Hhandle).
  apply Hhandle. apply wellFormed_initial.
Defined.

(** ** What the store's methods return *)

Lemma values_set_fresh {V} (n : Z) (v : V) (m : JsMap.t V) :
  below n m -> JsMap.values (JsMap.set n v m) = (JsMap.values m ++ [v])%list.
Proof.
  intros Hbelow. rewrite JsMap_set_fresh by now apply below_fresh.
  unfold JsMap.values. now rewrite List.map_app.
Qed.

Ltac create_step Hav Hwf :=
  rewrite await_accepted by apply Hav;
  unfold Storage.nextId, dateNow; monad_unfold;
  cbn [storage called tick withStorage snd fst];
  eexists; eexists; split; [reflexivity|];
  cbn [storage called tick withStorage snd fst
       MemStorage.platforms MemStorage.conversations MemStorage.messages
       MemStorage.templates MemStorage.mlModels MemStorage.logs MemStorage.botConfigs
       MemStorage.currentId Storage.setPlatforms Storage.setConversations
       Storage.setMessages Storage.setTemplates Storage.setMlModels Storage.setLogs
       Storage.setBotConfigs Storage.setCurrentId
       Platform.id Conversation.id Message.id Template.id MlModel.id Log.id];
  split; [reflexivity|]; split; [|reflexivity];
  apply values_set_fresh; apply Hwf.

(** X9.  Creating never overwrites.  In a store in order, each of the six
    [create] methods returns a record whose id is the current value of the
    shared counter, appends it at the end of its table, leaving the records
    already there and their order as they were, and advances the counter by
    one. *)
Theorem create_appends (w : World) :
  wellFormed (storage w) ->
  available w ->
  (forall p, exists r w',
      Storage.createPlatform p w = (Ok r, w')
      /\ Platform.id r = MemStorage.currentId (storage w)
      /\ JsMap.values (MemStorage.platforms (storage w'))
         = (JsMap.values (MemStorage.platforms (storage w)) ++ [r])%list
      /\ MemStorage.currentId (storage w') = MemStorage.currentId (storage w) + 1)
  /\ (forall c, exists r w',
      Storage.createConversation c w = (Ok r, w')
      /\ Conversation.id r = MemStorage.currentId (storage w)
      /\ JsMap.values (MemStorage.conversations (storage w'))
         = (JsMap.values (MemStorage.conversations (storage w)) ++ [r])%list
      /\ MemStorage.currentId (storage w') = MemStorage.currentId (storage w) + 1)
  /\ (forall m, exists r w',
      Storage.createMessage m w = (Ok r, w')
      /\ Message.id r = MemStorage.currentId (storage w)
      /\ JsMap.values (MemStorage.messages (storage w'))
         = (JsMap.values (MemStorage.messages (storage w)) ++ [r])%list
      /\ MemStorage.currentId (storage w') = MemStorage.currentId (storage w) + 1)
  /\ (forall t, exists r w',
      Storage.createTemplate t w = (Ok r, w')
      /\ Template.id r = MemStorage.currentId (storage w)
      /\ JsMap.values (MemStorage.templates (storage w'))
         = (JsMap.values (MemStorage.templates (storage w)) ++ [r])%list
      /\ MemStorage.currentId (storage w') = MemStorage.currentId (storage w) + 1)
  /\ (forall m, exists r w',
      Storage.createMlModel m w = (Ok r, w')
      /\ MlModel.id r = MemStorage.currentId (storage w)
      /\ JsMap.values (MemStorage.mlModels (storage w'))
         = (JsMap.values (MemStorage.mlModels (storage w)) ++ [r])%list
      /\ MemStorage.currentId (storage w') = MemStorage.currentId (storage w) + 1)
  /\ (forall l, exists r w',
      Storage.createLog l w = (Ok r, w')
      /\ Log.id r = MemStorage.currentId (storage w)
      /\ JsMap.values (MemStorage.logs (storage w'))
         = (JsMap.values (MemStorage.logs (storage w)) ++ [r])%list
      /\ MemStorage.currentId (storage w') = MemStorage.currentId (storage w) + 1).
Proof.
  intros (Hp & Hc & Hm & Ht & Hml & Hl & Hb) Hav.
  repeat match goal with |- _ /\ _ => split end.
  - intros p. unfold Storage.createPlatform. create_step Hav Hp.
  - intros c. unfold Storage.createConversation. create_step Hav Hc.
  - intros m. unfold Storage.createMessage. create_step Hav Hm.
  - intros t. unfold Storage.createTemplate. create_step Hav Ht.
  - intros m. unfold Storage.createMlModel. create_step Hav Hml.
  - intros l. unfold Storage.createLog. create_step Hav Hl.
Qed.

Lemma create_appends_witness :
  exists r w',
    Storage.createPlatform
      (InsertPlatform.mk "telegram" (Some "active") None None None) Sample.freshWorld
    = (Ok r, w')
    /\ Platform.id r = 10
    /\ JsMap.values (MemStorage.platforms (storage w'))
       = (JsMap.values (MemStorage.platforms (storage Sample.freshWorld)) ++ [r])%list
    /\ MemStorage.currentId (storage w') = 10 + 1.
Proof.
  assert (Hwf : wellFormed (storage Sample.freshWorld)) by apply wellFormed_initial.
  assert (Hav : available Sample.freshWorld) by (intros op n; reflexivity).
  destruct (create_appends Sample.freshWorld Hwf Hav) as (Hp & _).
  exact (Hp (InsertPlatform.mk "telegram" (Some "active") None None None)).
Defined.

Lemma replaced_set {V} (k : Z) (v old : V) (m : JsMap.t V) :
  JsMap.get k m = Some old -> replaced k v m (JsMap.set k v m).
Proof.
  intros Hget. repeat split.
  - apply JsMap_keys_set. apply JsMap_get_some_in in Hget. unfold JsMap.keys.
    apply in_map_iff. now exists (k, old).
  - apply JsMap_get_set_eq.
  - intros k' Hne. apply JsMap_get_set_ne. congruence.
Qed.

Ltac update_run Hav :=
  rewrite await_accepted by apply Hav;
  unfold dateNow; monad_unfold; cbn [storage called tick withStorage snd fst];
  match goal with
  | |- context [JsMap.get ?k ?m] =>
      let E := fresh "Hget" in
      destruct (JsMap.get k m) as [existing|] eqn:E; [|reflexivity];
      repeat match goal with |- exists _, _ => eexists end;
      split; [reflexivity|];
      cbn [storage called tick withStorage snd fst
           MemStorage.platforms MemStorage.conversations MemStorage.messages
           MemStorage.templates MemStorage.mlModels MemStorage.logs
           MemStorage.botConfigs MemStorage.currentId Storage.setPlatforms
           Storage.setConversations Storage.setMessages Storage.setTemplates
           Storage.setMlModels Storage.setLogs Storage.setBotConfigs
           Storage.setCurrentId];
      split; [now apply replaced_set with (old := existing) | reflexivity]
  end.

(** X10.  Updating touches one record.  When the store holds a record under
    the id, each [update] method returns the merged record and puts it in the
    place of the old one: the table keeps its keys and their order, every
    other record is as before, and the id counter does not move.  When it
    holds none, the method throws its "not found" error and the state is the
    one in which the call was entered. *)
Theorem update_replaces_one (w : World) :
  available w ->
  (forall id u,
      match JsMap.get id (MemStorage.platforms (storage w)) with
      | Some existing =>
          exists w' updatedAt,
            Storage.updatePlatform id u w
            = (Ok (Storage.mergePlatform existing u updatedAt), w')
            /\ replaced id (Storage.mergePlatform existing u updatedAt)
                 (MemStorage.platforms (storage w)) (MemStorage.platforms (storage w'))
            /\ MemStorage.currentId (storage w') = MemStorage.currentId (storage w)
      | None =>
          Storage.updatePlatform id u w
          = (Throw (Error "Platform not found"), called UpdatePlatform w)
      end)
  /\ (forall id u,
      match JsMap.get id (MemStorage.conversations (storage w)) with
      | Some existing =>
          exists w' updatedAt,
            Storage.updateConversation id u w
            = (Ok (Storage.mergeConversation existing u updatedAt), w')
            /\ replaced id (Storage.mergeConversation existing u updatedAt)
                 (MemStorage.conversations (storage w))
                 (MemStorage.conversations (storage w'))
            /\ MemStorage.currentId (storage w') = MemStorage.currentId (storage w)
      | None =>
          Storage.updateConversation id u w
          = (Throw (Error "Conversation not found"), called UpdateConversation w)
      end)
  /\ (forall id u,
      match JsMap.get id (MemStorage.templates (storage w)) with
      | Some existing =>
          exists w' updatedAt,
            Storage.updateTemplate id u w
            = (Ok (Storage.mergeTemplate existing u updatedAt), w')
            /\ replaced id (Storage.mergeTemplate existing u updatedAt)
                 (MemStorage.templates (storage w)) (MemStorage.templates (storage w'))
            /\ MemStorage.currentId (storage w') = MemStorage.currentId (storage w)
      | None =>
          Storage.updateTemplate id u w
          = (Throw (Error "Template not found"), called UpdateTemplate w)
      end)
  /\ (forall id u,
      match JsMap.get id (MemStorage.mlModels (storage w)) with
      | Some existing =>
          exists w',
            Storage.updateMlModel id u w
            = (Ok (Storage.mergeMlModel existing u), w')
            /\ replaced id (Storage.mergeMlModel existing u)
                 (MemStorage.mlModels (storage w)) (MemStorage.mlModels (storage w'))
            /\ MemStorage.currentId (storage w') = MemStorage.currentId (storage w)
      | None =>
          Storage.updateMlModel id u w
          = (Throw (Error "ML Model not found"), called UpdateMlModel w)
      end)
  /\ (forall u,
      match JsMap.get 1 (MemStorage.botConfigs (storage w)) with
      | Some existing =>
          exists w' updatedAt,
            Storage.updateBotConfig u w
            = (Ok (Storage.mergeBotConfig existing u updatedAt), w')
            /\ replaced 1 (Storage.mergeBotConfig existing u updatedAt)
                 (MemStorage.botConfigs (storage w)) (MemStorage.botConfigs (storage w'))
            /\ MemStorage.currentId (storage w') = MemStorage.currentId (storage w)
      | None =>
          Storage.updateBotConfig u w
          = (Throw (Error "Bot config not found"), called UpdateBotConfig w)
      end).
Proof.
  intros Hav. repeat match goal with |- _ /\ _ => split end.
  - intros id u. unfold Storage.updatePlatform. update_run Hav.
  - intros id u. unfold Storage.updateConversation. update_run Hav.
  - intros id u. unfold Storage.updateTemplate. update_run Hav.
  - intros id u. unfold Storage.updateMlModel. update_run Hav.
  - intros u. unfold Storage.updateBotConfig. update_run Hav.
Qed.

Lemma update_replaces_one_witness :
  Storage.updateTemplate 7 (MLTrainer.usageUpdate 1) Sample.freshWorld
  = (Throw (Error "Template not found"), called UpdateTemplate Sample.freshWorld).
Proof.
  destruct (update_replaces_one Sample.freshWorld (fun _ _ => eq_refl))
    as (_ & _ & Ht & _).
  exact (Ht 7 (MLTrainer.usageUpdate 1)).
Defined.

(** ** Deleting a template *)

Lemma JsMap_get_delete_eq {V} (k : Z) (m : JsMap.t V) :
  List.NoDup (JsMap.keys m) -> JsMap.get k (JsMap.delete k m) = None.
Proof.
  induction m as [|[k' v'] m IH]; cbn [JsMap.delete JsMap.get JsMap.keys List.map fst];
    [reflexivity|].
  intros Hnd. inversion Hnd as [|? ? Hnotin Hnd']; subst.
  destruct (k' =? k) eqn:E.
  - apply Z.eqb_eq in E. subst k'.
    destruct (JsMap.get k m) as [v|] eqn:Hget; [|reflexivity].
    exfalso. apply Hnotin. apply JsMap_get_some_in in Hget.
    apply in_map_iff. now exists (k, v).
  - cbn [JsMap.get]. rewrite E. now apply IH.
Qed.

Lemma JsMap_get_delete_ne {V} (k k' : Z) (m : JsMap.t V) :
  k' <> k -> JsMap.get k' (JsMap.delete k m) = JsMap.get k' m.
Proof.
  intros Hne. induction m as [|[k0 v0] m IH]; cbn [JsMap.delete JsMap.get];
    [reflexivity|].
  destruct (k0 =? k) eqn:E.
  - apply Z.eqb_eq in E. subst k0.
    destruct (k =? k') eqn:E'; [apply Z.eqb_eq in E'; congruence | reflexivity].
  - cbn [JsMap.get]. destruct (k0 =? k'); [reflexivity | apply IH].
Qed.

Lemma JsMap_delete_absent {V} (k : Z) (m : JsMap.t V) :
  JsMap.get k m = None -> JsMap.delete k m = m.
Proof.
  induction m as [|[k' v'] m IH]; cbn [JsMap.delete JsMap.get]; [reflexivity|].
  destruct (k' =? k); [discriminate|]. intros H. f_equal. now apply IH.
Qed.

(** A template id in a response is the id of a stored template. *)
Lemma respond_templateId
    (processed : ProcessedMessage.t) (w w' : World) (r : BotResponse.t) (i : Z) :
  MLTrainer.respond processed w = (Ok r, w') ->
  BotResponse.templateId r = Some i ->
  exists t, In t (JsMap.values (MemStorage.templates (storage w))) /\ Template.id t = i.
Proof.
  intros E Hid.
  unfold MLTrainer.respond, Storage.getBotConfig, Storage.getAllTemplates,
    Storage.updateTemplate in E.
  monad_unfold. unfold await in E.
  destruct (rejects w GetBotConfig (ticks w)); [discriminate|].
  cbn in E.
  destruct (JsMap.get 1 _) as [botConfig|]; [|discriminate].
  destruct (ltNum _ _); [injection E as <- <-; discriminate|].
  cbn in E.
  destruct (rejects w GetAllTemplates _); [discriminate|].
  cbn in E.
  destruct (List.find _ _) as [t|] eqn:Hfind; [|injection E as <- <-; discriminate].
  cbn in E.
  destruct (MLTrainer.substituteVariables t _) as [response|err]; [|discriminate].
  cbn in E.
  destruct (rejects w UpdateTemplate _); [discriminate|].
  cbn in E.
  destruct (JsMap.get (Template.id t) _) as [existing|]; [|discriminate].
  cbn in E. injection E as <- <-. cbn in Hid. injection Hid as <-.
  exists t. split; [|reflexivity].
  apply List.find_some in Hfind. tauto.
Qed.

(** X11.  Deleting a template removes the record under that id and nothing
    else: the id then resolves to nothing, every other id to what it resolved
    to before, an id that was not stored leaves the store as it was, and the
    call succeeds in each case.  From then on the selector never answers
    with that template id. *)
Theorem deleted_template_gone (w : World) (id : Z) :
  keyed Template.id (MemStorage.templates (storage w)) ->
  rejects w DeleteTemplate (ticks w) = None ->
  exists w',
    Storage.deleteTemplate id w = (Ok tt, w')
    /\ JsMap.get id (MemStorage.templates (storage w')) = None
    /\ (forall k, k <> id ->
          JsMap.get k (MemStorage.templates (storage w'))
          = JsMap.get k (MemStorage.templates (storage w)))
    /\ (JsMap.get id (MemStorage.templates (storage w)) = None -> storage w' = storage w)
    /\ (forall processed r w'',
          MLTrainer.respond processed w' = (Ok r, w'') ->
          BotResponse.templateId r <> Some id).
Proof.
  intros [Hnd Hid] Hacc. unfold Storage.deleteTemplate.
  rewrite await_accepted by assumption. monad_unfold.
  cbn [storage called withStorage].
  eexists. split; [reflexivity|].
  cbn [storage called withStorage MemStorage.templates Storage.setTemplates].
  split; [now apply JsMap_get_delete_eq|].
  split; [intros k Hne; now apply JsMap_get_delete_ne|].
  split.
  - intros Hnone. rewrite JsMap_delete_absent by assumption. now destruct (storage w).
  - intros processed r w'' Hrun Htid.
    destruct (respond_templateId _ _ _ _ _ Hrun Htid) as (t & Hin & Ht).
    cbn [storage called withStorage MemStorage.templates Storage.setTemplates] in Hin.
    unfold JsMap.values in Hin. apply in_map_iff in Hin as [[k t'] [Heq Hin]].
    cbn [snd] in Heq. subst t'.
    assert (Hk : k = id).
    { rewrite List.Forall_forall in Hid.
      specialize (Hid (k, t) (JsMap_in_delete _ _ _ Hin)). cbn [fst snd] in Hid. lia. }
    subst k.
    assert (Hget : JsMap.get id (JsMap.delete id (MemStorage.templates (storage w)))
                   = Some t).
    { apply JsMap_get_in; [now apply NoDup_keys_delete | assumption]. }
    rewrite JsMap_get_delete_eq in Hget by assumption. discriminate.
Qed.

Lemma deleted_template_gone_witness :
  exists w',
    Storage.deleteTemplate 1 Sample.lenientWorld = (Ok tt, w')
    /\ JsMap.get 1 (MemStorage.templates (storage w')) = None
    /\ (forall k, k <> 1 ->
          JsMap.get k (MemStorage.templates (storage w'))
          = JsMap.get k (MemStorage.templates (storage Sample.lenientWorld)))
    /\ (JsMap.get 1 (MemStorage.templates (storage Sample.lenientWorld)) = None ->
        storage w' = storage Sample.lenientWorld)
    /\ (forall processed r w'',
          MLTrainer.respond processed w' = (Ok r, w'') ->
          BotResponse.templateId r <> Some 1).
Proof.
  apply (deleted_template_gone Sample.lenientWorld 1).
  - split; simpl.
    + repeat constructor; simpl; intuition lia.
    + repeat constructor.
  - reflexivity.
Defined.

(** ** Newest first *)

Section InsertionSort.

Context {A : Type} (key : A -> Z) (ins : A -> list A -> list A).

Hypothesis ins_nil : forall x, ins x [] = [x].
Hypothesis ins_cons :
  forall x e r, ins x (e :: r) = if key e <=? key x then x :: e :: r else e :: ins x r.

Lemma ins_perm (x : A) (l : list A) : Permutation (ins x l) (x :: l).
Proof.
  induction l as [|e r IH].
  - rewrite ins_nil. apply Permutation_refl.
  - rewrite ins_cons. destruct (key e <=? key x).
    + apply Permutation_refl.
    + eapply perm_trans; [apply perm_skip, IH | apply perm_swap].
Qed.

Lemma ins_sorted (x : A) (l : list A) :
  StronglySorted (fun a b => key b <= key a) l ->
  StronglySorted (fun a b => key b <= key a) (ins x l).
Proof.
  induction l as [|e r IH]; intros Hs.
  - rewrite ins_nil. constructor; [constructor | constructor].
  - rewrite ins_cons. inversion Hs as [|? ? Hr He]; subst.
    destruct (key e <=? key x) eqn:E.
    + apply Z.leb_le in E. constructor; [assumption|].
      constructor; [assumption|].
      eapply List.Forall_impl; [|exact He]. cbv beta. intros. lia.
    + apply Z.leb_gt in E. constructor; [now apply IH|].
      eapply Permutation_Forall; [apply Permutation_sym, ins_perm|].
      constructor; [lia | assumption].
Qed.

Lemma sort_perm (l : list A) : Permutation (List.fold_right ins [] l) l.
Proof.
  induction l as [|x l IH]; cbn [List.fold_right]; [apply Permutation_refl|].
  eapply perm_trans; [apply ins_perm | now apply perm_skip].
Qed.

Lemma sort_sorted (l : list A) :
  StronglySorted (fun a b => key b <= key a) (List.fold_right ins [] l).
Proof.
  induction l as [|x l IH]; cbn [List.fold_right]; [constructor|].
  now apply ins_sorted.
Qed.

End InsertionSort.

(** X12.  The recent-messages and log queries return the newest records
    first: the answer is the first [limit] entries of a list that holds
    exactly the stored records, each once, ordered by descending time stamp.
    Neither query changes the store. *)
Theorem newest_first (w : World) (limit : nat) :
  available w ->
  (exists all w',
      Storage.getRecentMessages limit w = (Ok (firstn limit all), w')
      /\ Permutation all (JsMap.values (MemStorage.messages (storage w)))
      /\ StronglySorted newerMessage all
      /\ storage w' = storage w)
  /\ (exists all w',
      Storage.getLogs limit w = (Ok (firstn limit all), w')
      /\ Permutation all (JsMap.values (MemStorage.logs (storage w)))
      /\ StronglySorted newerLog all
      /\ storage w' = storage w).
Proof.
  intros Hav. split.
  - unfold Storage.getRecentMessages. rewrite await_accepted by apply Hav.
    monad_unfold. cbn [storage called]. unfold Js.slice0, Storage.sortBySentAtDesc.
    eexists. eexists. split; [reflexivity|]. split; [|split; [|reflexivity]].
    + now apply (sort_perm Message.sentAt).
    + now apply (sort_sorted Message.sentAt).
  - unfold Storage.getLogs. rewrite await_accepted by apply Hav.
    monad_unfold. cbn [storage called]. unfold Js.slice0.
    eexists. eexists. split; [reflexivity|]. split; [|split; [|reflexivity]].
    + now apply (sort_perm Log.createdAt).
    + now apply (sort_sorted Log.createdAt).
Qed.

Lemma newest_first_witness :
  exists all w',
    Storage.getRecentMessages 1 Scenario.chattedWorld = (Ok (firstn 1 all), w')
    /\ Permutation all (JsMap.values (MemStorage.messages (storage Scenario.chattedWorld)))
    /\ StronglySorted newerMessage all
    /\ storage w' = storage Scenario.chattedWorld.
Proof.
  destruct (newest_first Scenario.chattedWorld 1 (fun _ _ => eq_refl)) as [H _].
  exact H.
Defined.

(** ** The simulated training run *)

Lemma find_snoc {A} (f : A -> bool) (l : list A) (x : A) :
  List.find f l = None -> f x = true -> List.find f (l ++ [x]) = Some x.
Proof.
  intros Hnone Hx. induction l as [|y l IH]; cbn [app List.find] in *.
  - now rewrite Hx.
  - destruct (f y); [discriminate | now apply IH].
Qed.

(** X13.  The simulated training run of [SimpleMLTrainer] on a store in order
    that accepts its calls: it reports accuracy 0.85 on 4 samples, and
    afterwards the current model is ready with accuracy 85 and the time of
    the run.  If a model was ready, that is the same model with its name,
    version, training data and creation time; if none was, it is a new
    "Default Model" 1.0.0 under the id the counter had.  One info-level log
    entry of source [ml_trainer] is appended. *)
Theorem simple_training_outcome (w : World) :
  available w ->
  wellFormed (storage w) ->
  exists w' trainedAt log,
    SimpleMLTrainer.trainFromConversations w
    = (Ok (TrainResult.mk (85 # 100) 4), w')
    /\ match readyModel (storage w) with
       | Some model =>
           readyModel (storage w')
           = Some (MlModel.mk (MlModel.id model) (MlModel.name model)
                     (MlModel.version model) 85 (MlModel.trainingData model) "ready"
                     (Some trainedAt) (MlModel.createdAt model))
       | None =>
           exists createdAt,
             readyModel (storage w')
             = Some (MlModel.mk (MemStorage.currentId (storage w)) "Default Model"
                       "1.0.0" 85 None "ready" (Some trainedAt) createdAt)
       end
    /\ JsMap.values (MemStorage.logs (storage w'))
       = (JsMap.values (MemStorage.logs (storage w)) ++ [log])%list
    /\ Log.level log = "info"
    /\ Log.message log = "ML model training completed"
    /\ Log.source log = "ml_trainer".
Proof.
  intros Hav (Hp & Hc & Hm & Ht & Hml & Hl & Hb).
  unfold SimpleMLTrainer.trainFromConversations, try_catch, trainClassifier,
    consoleWrite, Storage.getCurrentMlModel, Storage.updateMlModel,
    Storage.createMlModel, Storage.createLog, Storage.nextId, dateNow.
  monad_unfold. unfold await.
  cbn [rejects ticks storage tick called withStorage]. rewrite ?Hav.
  cbn [rejects ticks storage tick called withStorage].
  fold (readyModel (storage w)).
  destruct (readyModel (storage w)) as [model|] eqn:Hready.
  - assert (Hget : JsMap.get (MlModel.id model) (MemStorage.mlModels (storage w))
                   = Some model).
    { apply keyed_get; [apply Hml|].
      apply List.find_some in Hready as [Hin _]. exact Hin. }
    cbn [rejects ticks storage tick called withStorage]. rewrite ?Hav.
    cbn [rejects ticks storage tick called withStorage]. rewrite Hget.
    cbn [rejects ticks storage tick called withStorage]. rewrite ?Hav.
    cbn [rejects ticks storage tick called withStorage MemStorage.currentId
         MemStorage.mlModels MemStorage.logs Storage.setMlModels Storage.setCurrentId
         Storage.setLogs].
    eexists. eexists. eexists. split; [reflexivity|].
    cbn [rejects ticks storage tick called withStorage MemStorage.currentId
         MemStorage.mlModels MemStorage.logs Storage.setMlModels Storage.setCurrentId
         Storage.setLogs Log.level Log.message Log.source].
    split; [|split; [apply values_set_fresh; apply Hl | auto]].
    unfold readyModel.
    cbn [MemStorage.mlModels Storage.setMlModels Storage.setCurrentId Storage.setLogs].
    apply (find_set_same MlModel.id); [apply Hml | exact Hready |].
    apply List.find_some in Hready as [_ Hst]. cbn [MlModel.status]. exact (eq_sym Hst).
  - cbn [rejects ticks storage tick called withStorage]. rewrite ?Hav.
    cbn [rejects ticks storage tick called withStorage MemStorage.currentId
         MemStorage.mlModels MemStorage.logs Storage.setMlModels Storage.setCurrentId
         Storage.setLogs].
    rewrite ?Hav.
    cbn [rejects ticks storage tick called withStorage MemStorage.currentId
         MemStorage.mlModels MemStorage.logs Storage.setMlModels Storage.setCurrentId
         Storage.setLogs].
    eexists. eexists. eexists. split; [reflexivity|].
    cbn [rejects ticks storage tick called withStorage MemStorage.currentId
         MemStorage.mlModels MemStorage.logs Storage.setMlModels Storage.setCurrentId
         Storage.setLogs Log.level Log.message Log.source].
    split; [|split; [apply values_set_fresh; exact (proj2 (tableOk_mono _ _ _ Hl)) | auto]].
    eexists. unfold readyModel.
    cbn [MemStorage.mlModels Storage.setMlModels Storage.setCurrentId Storage.setLogs].
    rewrite values_set_fresh by apply Hml.
    apply find_snoc; [exact Hready | reflexivity].
Qed.

Lemma simple_training_outcome_witness :
  exists w' trainedAt log,
    SimpleMLTrainer.trainFromConversations Sample.freshWorld
    = (Ok (TrainResult.mk (85 # 100) 4), w')
    /\ readyModel (storage w')
       = Some (MlModel.mk 1 "LuvSmithCorp NLP Model" "1.0.0" 85 (Some []) "ready"
                 (Some trainedAt) 1700000000000)
    /\ JsMap.values (MemStorage.logs (storage w'))
       = (JsMap.values (MemStorage.logs (storage Sample.freshWorld)) ++ [log])%list
    /\ Log.level log = "info"
    /\ Log.message log = "ML model training completed"
    /\ Log.source log = "ml_trainer".
Proof.
  exact (simple_training_outcome Sample.freshWorld (fun _ _ => eq_refl)
           (wellFormed_initial _ _ _ _)).
Defined.

(** X14.  When the store rejects the model lookup of the simulated training
    run and accepts the log write that follows, the run files one error-level
    log entry "Training failed" of source [ml_trainer] whose detail is the
    error as a string, leaves the models as they were, and rethrows the same
    error to its caller. *)
Theorem simple_training_failure (w : World) (reason : string) :
  wellFormed (storage w) ->
  rejects w GetCurrentMlModel (ticks w) = Some reason ->
  rejects w CreateLog (S (ticks w)) = None ->
  exists w' log,
    SimpleMLTrainer.trainFromConversations w = (Throw (Error reason), w')
    /\ JsMap.values (MemStorage.logs (storage w'))
       = (JsMap.values (MemStorage.logs (storage w)) ++ [log])%list
    /\ Log.level log = "error"
    /\ Log.message log = "Training failed"
    /\ Log.details log = Some [("error", JStr ("Error: " ++ reason))]
    /\ Log.source log = "ml_trainer"
    /\ MemStorage.mlModels (storage w') = MemStorage.mlModels (storage w).
Proof.
  intros (Hp & Hc & Hm & Ht & Hml & Hl & Hb) Hrej Hlog.
  unfold SimpleMLTrainer.trainFromConversations, try_catch, trainClassifier,
    consoleWrite, Storage.getCurrentMlModel, Storage.createLog, Storage.nextId, dateNow.
  monad_unfold. unfold await.
  cbn [rejects ticks storage tick called withStorage]. rewrite Hrej.
  cbn [rejects ticks storage tick called withStorage]. rewrite Hlog.
  cbn [rejects ticks storage tick called withStorage MemStorage.currentId
       MemStorage.mlModels MemStorage.logs Storage.setCurrentId Storage.setLogs].
  eexists. eexists. split; [reflexivity|].
  cbn [rejects ticks storage tick called withStorage MemStorage.currentId
       MemStorage.mlModels MemStorage.logs Storage.setCurrentId Storage.setLogs
       Log.level Log.message Log.source Log.details InsertLog.level
       InsertLog.message InsertLog.details InsertLog.source errorMessage].
  split; [apply values_set_fresh; apply Hl|]. repeat split.
Qed.

Lemma simple_training_failure_witness :
  exists w' log,
    SimpleMLTrainer.trainFromConversations
      (Sample.withRejects modelLookupFails Sample.freshWorld)
    = (Throw (Error "connection terminated"), w')
    /\ JsMap.values (MemStorage.logs (storage w')) = ([] ++ [log])%list
    /\ Log.level log = "error"
    /\ Log.message log = "Training failed"
    /\ Log.details log = Some [("error", JStr "Error: connection terminated")]
    /\ Log.source log = "ml_trainer"
    /\ MemStorage.mlModels (storage w')
       = MemStorage.mlModels (storage Sample.freshWorld).
Proof.
  apply (simple_training_failure
           (Sample.withRejects modelLookupFails Sample.freshWorld)
           "connection terminated").
  - apply wellFormed_initial.
  - reflexivity.
  - reflexivity.
Defined.

(** ** A delivered reply *)

Lemma sendMessage_delivering (botToken : string) (chatId : Z) (text : string) (w : World) :
  Js.truthyString botToken = true ->
  (forall n, fetches w n = FetchOk) ->
  exists w1,
    TelegramHandler.sendMessage botToken chatId text w = (Ok tt, w1)
    /\ rejects w1 = rejects w
    /\ storage w1 = storage w
    /\ console w1 = console w
    /\ requests w1
       = (requests w
          ++ [mkRequest ("https://api.telegram.org/bot" ++ botToken ++ "/sendMessage")
                        [("chat_id", JInt chatId); ("text", JStr text)]])%list.
Proof.
  intros Htoken Hfetch. unfold TelegramHandler.sendMessage. rewrite Htoken.
  cbn [negb]. unfold try_catch, fetch. monad_unfold. rewrite Hfetch.
  eexists. split; [reflexivity|]. repeat split; reflexivity.
Qed.

(** X15.  A run of the Telegram pipeline with a bot token, on a store that
    answers, for a message that names its sender and its chat, when the
    platform API accepts the request.  Exactly one request goes out, to the
    [sendMessage] method of the bot, and it carries the chat id of the message
    and the canned response for the classified intent, the same text that is
    stored as the bot message.  The run files one log entry, the info-level
    summary, writes nothing to the console, and the webhook answers 200. *)
Theorem delivery_reaches_chat
    (botToken : string) (message : Telegram.Message)
    (from : Telegram.User) (chat : Telegram.Chat) (w : World) :
  available w ->
  keyed Platform.id (MemStorage.platforms (storage w)) ->
  keyed Conversation.id (MemStorage.conversations (storage w)) ->
  Telegram.from message = Some from ->
  Telegram.chat message = Some chat ->
  Js.truthyString botToken = true ->
  (forall n, fetches w n = FetchOk) ->
  exists w' botMessage infoLog,
    TelegramHandler.handleMessage botToken (Telegram.mkUpdate (Some message)) w
    = (Ok (mkHttpResponse 200 "OK"), w')
    /\ requests w'
       = (requests w
          ++ [mkRequest ("https://api.telegram.org/bot" ++ botToken ++ "/sendMessage")
                [("chat_id", JInt (Telegram.chat_id chat));
                 ("text", JStr (Message.content botMessage))]])%list
    /\ JsMap.get (Message.id botMessage) (MemStorage.messages (storage w'))
       = Some botMessage
    /\ Message.sender botMessage = "bot"
    /\ Message.content botMessage
       = SimpleMLTrainer.cannedResponse
           (ProcessedMessage.intent
              (SimpleNLPProcessor.processMessage
                 (Js.orString (Telegram.text message) "")))
    /\ MemStorage.logs (storage w')
       = JsMap.set (Log.id infoLog) infoLog (MemStorage.logs (storage w))
    /\ Log.level infoLog = "info"
    /\ console w' = console w.
Proof.
  intros Hav Hplat Hconv Hfrom Hchat Htoken Hfetch.
  set (w0 := tick w).
  assert (Hav0 : available w0) by exact Hav.
  destruct (resolvePlatform_run botToken w0 Hav0 Hplat)
    as (platform & w1 & Hrun1 & (Hr1 & Hf1 & Hc1 & Hq1) & Hres1 & Hget1 & Hconv1 & Hmsg1 & Hlog1).
  assert (Hav1 : available w1) by (eapply available_same; eassumption).
  destruct (getAllConversations_run w1 Hav1)
    as (w2 & Hrun2 & (Hr2 & Hf2 & Hc2 & Hq2) & Hst2).
  assert (Hav2 : available w2) by (eapply available_same; eassumption).
  assert (Hkeyed2 : keyed Conversation.id (MemStorage.conversations (storage w2))).
  { rewrite Hst2, Hconv1. exact Hconv. }
  destruct (resolveConversation_run platform from w2 Hav2 Hkeyed2)
    as (conversation & w3 & Hrun3 & (Hr3 & Hf3 & Hc3 & Hq3)
        & Hres3 & Hget3 & Hplat3 & Hmsg3 & Hlog3).
  assert (Hav3 : available w3) by (eapply available_same; eassumption).
  destruct (recordExchange_run (clock w (ticks w)) message platform conversation w3 Hav3)
    as (userMessage & botMessage & responseTime & w4 & Hrun4 & (Hr4 & Hf4 & Hc4 & Hq4)
        & Huser & Huserf & Hbot & Hbotf & Hplat4 & Hconv4 & Hlog4).
  assert (Hav4 : available w4) by (eapply available_same; eassumption).
  assert (Hfetch4 : forall n, fetches w4 n = FetchOk).
  { intros n. rewrite Hf4, Hf3, Hf2, Hf1. apply Hfetch. }
  destruct (sendMessage_delivering botToken (Telegram.chat_id chat)
              (Message.content botMessage) w4 Htoken Hfetch4)
    as (w5 & Hrun5 & Hr5 & Hst5 & Hc5 & Hq5).
  assert (Hav5 : available w5) by (eapply available_same; eassumption).
  assert (Hgetp5 : JsMap.get (Platform.id platform) (MemStorage.platforms (storage w5))
                   = Some platform).
  { rewrite Hst5, Hplat4, Hplat3, Hst2. exact Hget1. }
  assert (Hgetc5 : JsMap.get (Conversation.id conversation)
                     (MemStorage.conversations (storage w5)) = Some conversation).
  { rewrite Hst5, Hconv4. exact Hget3. }
  destruct (updateCounters_run platform platform conversation conversation from chat
              (75 # 100) responseTime w5 Hav5 Hgetp5 Hgetc5)
    as (infoLog & w6 & Hrun6 & (Hr6 & Hf6 & Hc6 & Hq6)
        & Hcountp & Hcountc & Hmsg6 & Hlog6 & Hinfo & Hinfoid & Hinfomsg).
  exists w6, botMessage, infoLog.
  split.
  { unfold TelegramHandler.handleMessage, TelegramHandler.processIncomingMessage,
      TelegramHandler.pipeline, try_catch.
    cbn [Telegram.message].
    rewrite bind_eq, bind_eq.
    change (dateNow w) with (Ok (clock w (ticks w)), w0). cbv iota beta.
    rewrite bind_eq, Hrun1, bind_eq, Hrun2, Hfrom.
    rewrite <- Hst2.
    rewrite bind_eq, Hrun3, bind_eq, Hrun4, Hchat. cbn [fst snd].
    rewrite bind_eq. cbn [SimpleResponse.response SimpleResponse.confidence].
    rewrite Hrun5, Hrun6. reflexivity. }
  split; [rewrite Hq6, Hq5, Hq4, Hq3, Hq2, Hq1; reflexivity|].
  split; [rewrite Hmsg6, Hst5; exact Hbot|].
  split; [apply Hbotf|].
  split; [apply Hbotf|].
  split; [rewrite Hlog6, Hst5, Hlog4, Hlog3, Hst2, Hlog1; reflexivity|].
  split; [exact Hinfo|].
  rewrite Hc6, Hc5, Hc4, Hc3, Hc2, Hc1. reflexivity.
Qed.

Lemma delivery_reaches_chat_witness :
  exists w' botMessage infoLog,
    TelegramHandler.handleMessage "123:abc" (Sample.textUpdate "hello there")
      Sample.freshWorld
    = (Ok (mkHttpResponse 200 "OK"), w')
    /\ requests w'
       = ([]
          ++ [mkRequest "https://api.telegram.org/bot123:abc/sendMessage"
                [("chat_id", JInt 4242); ("text", JStr (Message.content botMessage))]])%list
    /\ JsMap.get (Message.id botMessage) (MemStorage.messages (storage w'))
       = Some botMessage
    /\ Message.sender botMessage = "bot"
    /\ Message.content botMessage = "Hello! How can I help you today?"
    /\ MemStorage.logs (storage w') = JsMap.set (Log.id infoLog) infoLog []
    /\ Log.level infoLog = "info"
    /\ console w' = [].
Proof.
  apply (delivery_reaches_chat "123:abc"
           (Telegram.mkMessage (Some (Telegram.mkUser 4242 (Some "Sam") None))
                               (Some (Telegram.mkChat 4242)) (Some "hello there"))
           (Telegram.mkUser 4242 (Some "Sam") None) (Telegram.mkChat 4242)
           Sample.freshWorld).
  - intros op n. reflexivity.
  - split; simpl.
    + repeat constructor; simpl; intuition lia.
    + repeat constructor.
  - split; simpl; constructor.
  - reflexivity.
  - reflexivity.
  - reflexivity.
  - intros n. reflexivity.
Defined.

(** ** Updates that are not a message from a user *)

(** X16.  An update without a [message] (an edited message, a callback
    query) is answered with 200 and leaves the whole state as it was: no
    store call, no request, no console line.  A message without a sender (a
    channel post) is answered with 200 as well; the store keeps its
    conversations and messages, nothing is sent, and one error-level log
    entry records the [TypeError] of reading the sender's id. *)
Theorem incomplete_update_acknowledged (botToken : string) (w : World) :
  (forall update,
      Telegram.message update = None ->
      TelegramHandler.handleMessage botToken update w
      = (Ok (mkHttpResponse 200 "OK"), w))
  /\ (forall message,
      available w ->
      keyed Platform.id (MemStorage.platforms (storage w)) ->
      Telegram.from message = None ->
      exists w' log,
        TelegramHandler.handleMessage botToken (Telegram.mkUpdate (Some message)) w
        = (Ok (mkHttpResponse 200 "OK"), w')
        /\ MemStorage.conversations (storage w') = MemStorage.conversations (storage w)
        /\ MemStorage.messages (storage w') = MemStorage.messages (storage w)
        /\ requests w' = requests w
        /\ MemStorage.logs (storage w')
           = JsMap.set (Log.id log) log (MemStorage.logs (storage w))
        /\ Log.level log = "error"
        /\ Log.message log = "Failed to process Telegram message"
        /\ Log.details log
           = Some [("error", JStr "Cannot read properties of undefined (reading 'id')")]).
Proof.
  split.
  - intros update Hnone. unfold TelegramHandler.handleMessage, try_catch.
    rewrite Hnone. reflexivity.
  - intros message Hav Hplat Hfrom.
    set (w0 := tick w).
    assert (Hav0 : available w0) by exact Hav.
    destruct (resolvePlatform_run botToken w0 Hav0 Hplat)
      as (platform & w1 & Hrun1 & (Hr1 & Hf1 & Hc1 & Hq1)
          & Hres1 & Hget1 & Hconv1 & Hmsg1 & Hlog1).
    assert (Hav1 : available w1) by (eapply available_same; eassumption).
    destruct (getAllConversations_run w1 Hav1)
      as (w2 & Hrun2 & (Hr2 & Hf2 & Hc2 & Hq2) & Hst2).
    assert (Hav2 : available w2) by (eapply available_same; eassumption).
    destruct (createLog_accepted
                (InsertLog.mk "error" "Failed to process Telegram message"
                   (Some (TelegramHandler.errorDetails (TelegramHandler.typeError "id")))
                   "telegram") w2 (Hav2 _ _))
      as (w3 & Hrun3 & Hst3).
    exists w3,
      (Log.mk (MemStorage.currentId (storage w2)) "error"
         "Failed to process Telegram message"
         (Some (TelegramHandler.errorDetails (TelegramHandler.typeError "id")))
         "telegram" (clock w2 (S (ticks w2)))).
    split.
    { unfold TelegramHandler.handleMessage, TelegramHandler.processIncomingMessage,
        TelegramHandler.pipeline, try_catch.
      cbn [Telegram.message].
      rewrite bind_eq, bind_eq.
      change (dateNow w) with (Ok (clock w (ticks w)), w0). cbv iota beta.
      rewrite bind_eq, Hrun1, bind_eq, Hrun2, Hfrom.
      unfold throw at 1. cbv iota beta.
      rewrite bind_eq, Hrun3. reflexivity. }
    rewrite Hst3.
    cbn [MemStorage.conversations MemStorage.messages MemStorage.logs Storage.setLogs
         Storage.setCurrentId Log.id Log.level Log.message Log.details
         InsertLog.level InsertLog.message InsertLog.details].
    rewrite Hst2, Hconv1, Hmsg1, Hlog1.
    split; [reflexivity|]. split; [reflexivity|].
    split.
    { assert (Hq3 : requests w3 = requests w2).
      { apply (f_equal snd) in Hrun3. cbn [snd] in Hrun3. rewrite <- Hrun3.
        unfold Storage.createLog, await. rewrite (Hav2 _ _). reflexivity. }
      rewrite Hq3, Hq2, Hq1. reflexivity. }
    split; [reflexivity|]. repeat split.
Qed.

Lemma incomplete_update_acknowledged_witness :
  TelegramHandler.handleMessage "123:abc" (Telegram.mkUpdate None) Sample.freshWorld
  = (Ok (mkHttpResponse 200 "OK"), Sample.freshWorld).
Proof.
  exact (proj1 (incomplete_update_acknowledged "123:abc" Sample.freshWorld)
           (Telegram.mkUpdate None) eq_refl).
Defined.

(** ** Broadcasts *)

Lemma sendToClient_sockets
    (origin : Origin) (target : nat) (message : WebSocketMessage) (w : World) :
  exists w',
    WebSocketManager.sendToClient origin target message w = (Ok tt, w')
    /\ storage w' = storage w
    /\ console w' = console w
    /\ clients (wss w') = clients (wss w)
    /\ forall ws,
         sockets (wss w') !! ws = deliveredTo [target] origin message (sockets (wss w)) ws.
Proof.
  unfold WebSocketManager.sendToClient, WebSocketManager.getWss, WebSocketManager.putWss.
  monad_unfold. unfold deliveredTo.
  assert (Hmem : forall ws, bool_decide (ws ∈ [target]) = bool_decide (ws = target)).
  { intros ws. apply bool_decide_ext. apply list_elem_of_singleton. }
  destruct (sockets (wss w) !! target) as [sock|] eqn:Htarget.
  - destruct (readyState sock) eqn:Hstate.
    2: { eexists. split; [reflexivity|].
         cbn [storage console wss withWss clients sockets].
         do 3 (split; [reflexivity|]). intros ws. rewrite Hmem.
         destruct (decide (ws = target)) as [->|Hne].
         - rewrite lookup_insert_eq, Htarget, bool_decide_eq_true_2 by reflexivity.
           unfold isOpen. rewrite Hstate. reflexivity.
         - rewrite lookup_insert_ne by congruence.
           rewrite bool_decide_eq_false_2 by assumption.
           now destruct (sockets (wss w) !! ws). }
    all: eexists; (split; [reflexivity|]); do 3 (split; [reflexivity|]);
      intros ws; rewrite Hmem;
      destruct (decide (ws = target)) as [->|Hne];
      [ rewrite Htarget, bool_decide_eq_true_2 by reflexivity;
        unfold isOpen; rewrite Hstate; reflexivity
      | rewrite bool_decide_eq_false_2 by assumption;
        now destruct (sockets (wss w) !! ws) ].
  - eexists. split; [reflexivity|]. do 3 (split; [reflexivity|]). intros ws.
    rewrite Hmem. destruct (decide (ws = target)) as [->|Hne].
    + rewrite Htarget. reflexivity.
    + rewrite bool_decide_eq_false_2 by assumption.
      now destruct (sockets (wss w) !! ws).
Qed.

Lemma forEach_delivers (message : WebSocketMessage) (targets : list nat) :
  forall w,
    NoDup targets ->
    exists w',
      WebSocketManager.forEach targets
        (fun client => WebSocketManager.sendToClient FromBroadcast client message) w
      = (Ok tt, w')
      /\ storage w' = storage w
      /\ console w' = console w
      /\ clients (wss w') = clients (wss w)
      /\ forall ws,
           sockets (wss w') !! ws
           = deliveredTo targets FromBroadcast message (sockets (wss w)) ws.
Proof.
  induction targets as [|c rest IH]; intros w Hnd.
  - exists w. cbn [WebSocketManager.forEach]. split; [reflexivity|].
    do 3 (split; [reflexivity|]). intros ws. unfold deliveredTo.
    destruct (sockets (wss w) !! ws); [|reflexivity].
    rewrite bool_decide_eq_false_2; [reflexivity|]. apply not_elem_of_nil.
  - apply NoDup_cons in Hnd as [Hc Hrest].
    destruct (sendToClient_sockets FromBroadcast c message w)
      as (w1 & Hrun1 & Hst1 & Hcon1 & Hcl1 & Hso1).
    destruct (IH w1 Hrest) as (w' & Hrun & Hst & Hcon & Hcl & Hso).
    exists w'. cbn [WebSocketManager.forEach]. rewrite bind_eq, Hrun1, Hrun.
    split; [reflexivity|].
    split; [congruence|]. split; [congruence|]. split; [congruence|].
    intros ws. rewrite Hso. unfold deliveredTo at 1. rewrite Hso1.
    unfold deliveredTo. destruct (sockets (wss w) !! ws) as [sock|]; [|reflexivity].
    f_equal. destruct (decide (ws = c)) as [->|Hne].
    + rewrite (bool_decide_eq_true_2 (c ∈ [c])) by (apply list_elem_of_singleton; reflexivity).
      rewrite (bool_decide_eq_false_2 (c ∈ rest)) by assumption.
      rewrite (bool_decide_eq_true_2 (c ∈ c :: rest)) by (apply list_elem_of_here).
      reflexivity.
    + rewrite (bool_decide_eq_false_2 (ws ∈ [c]))
        by (rewrite list_elem_of_singleton; assumption).
      cbn [andb].
      destruct (decide (ws ∈ rest)) as [Hin|Hnotin].
      * rewrite (bool_decide_eq_true_2 (ws ∈ rest)) by assumption.
        rewrite (bool_decide_eq_true_2 (ws ∈ c :: rest))
          by (apply list_elem_of_further; assumption).
        reflexivity.
      * rewrite (bool_decide_eq_false_2 (ws ∈ rest)) by assumption.
        rewrite (bool_decide_eq_false_2 (ws ∈ c :: rest)); [reflexivity|].
        rewrite elem_of_cons. tauto.
Qed.

(** X17.  A broadcast reaches every open client once and no one else.  With
    the client set holding each socket once, [broadcast] returns normally;
    every socket that is in the client set and open has the message appended
    to the frames sent through it; every other socket, closed or not in the
    set, is as it was; the client set, the store and the console are
    untouched. *)
Theorem broadcast_reaches_open_clients (message : WebSocketMessage) (w : World) :
  NoDup (clients (wss w)) ->
  exists w',
    WebSocketManager.broadcast message w = (Ok tt, w')
    /\ storage w' = storage w
    /\ console w' = console w
    /\ clients (wss w') = clients (wss w)
    /\ forall ws,
         sockets (wss w') !! ws
         = match sockets (wss w) !! ws with
           | Some sock =>
               Some (if bool_decide (ws ∈ clients (wss w)) && isOpen sock
                     then mkSocket OPEN (frames sock ++ [(FromBroadcast, message)])
                     else sock)
           | None => None
           end.
Proof.
  intros Hnd. unfold WebSocketManager.broadcast. rewrite bind_eq.
  change (WebSocketManager.getWss w) with (Ok (wss w), w). cbv iota beta.
  exact (forEach_delivers message (clients (wss w)) w Hnd).
Qed.

Lemma broadcast_reaches_open_clients_witness :
  exists w',
    WebSocketManager.broadcast
      (mkWsMessage platform_status (DataPlatforms [])) twoClients = (Ok tt, w')
    /\ sockets (wss w') !! 1%nat
       = Some (mkSocket OPEN [(FromBroadcast, mkWsMessage platform_status (DataPlatforms []))])
    /\ sockets (wss w') !! 2%nat = Some (mkSocket CLOSED []).
Proof.
  assert (Hnd : NoDup (clients (wss twoClients))).
  { apply (bool_decide_unpack _). vm_compute. reflexivity. }
  destruct (broadcast_reaches_open_clients
              (mkWsMessage platform_status (DataPlatforms [])) twoClients Hnd)
    as (w' & Hrun & _ & _ & _ & Hso).
  exists w'. split; [exact Hrun|]. split.
  - rewrite Hso. vm_compute. reflexivity.
  - rewrite Hso. vm_compute. reflexivity.
Defined.

(** ** A closed socket *)

Lemma closed_same_wss (ws : nat) (sent : list (Origin * WebSocketMessage)) (w w' : World) :
  wss w' = wss w -> closedAt ws sent w -> closedAt ws sent w'.
Proof. unfold closedAt. now intros ->. Qed.

Lemma closed_sendToClient
    (ws : nat) (sent : list (Origin * WebSocketMessage))
    (origin : Origin) (target : nat) (message : WebSocketMessage) (w : World) :
  closedAt ws sent w ->
  closedAt ws sent (snd (WebSocketManager.sendToClient origin target message w)).
Proof.
  intros [Hsock Hout].
  destruct (sendToClient_sockets origin target message w)
    as (w' & Hrun & _ & _ & Hcl & Hso).
  rewrite Hrun. cbn [snd]. split.
  - rewrite Hso. unfold deliveredTo. rewrite Hsock. unfold isOpen. cbn [readyState].
    now rewrite andb_false_r.
  - now rewrite Hcl.
Qed.

Lemma closed_stage {A} (reads : M A) (mk : A -> WebSocketMessage)
    (ws : nat) (sent : list (Origin * WebSocketMessage)) (target : nat) (w : World) :
  keepsSockets reads ->
  closedAt ws sent w ->
  closedAt ws sent
    (snd ((reads ≫= fun a => WebSocketManager.sendToClient FromSnapshot target (mk a)) w)).
Proof.
  intros Hreads Hclosed. rewrite bind_eq. specialize (Hreads w).
  destruct (reads w) as [[a|e] w1]; cbn [snd] in *.
  - apply closed_sendToClient. now apply closed_same_wss with (w := w).
  - now apply closed_same_wss with (w := w).
Qed.

Lemma closed_snapshot_stage
    (startOfDay : Z -> Z) (ws : nat) (sent : list (Origin * WebSocketMessage))
    (target : nat) (k : nat) (stage : M unit) (w : World) :
  nth_error (WebSocketManager.snapshotStages startOfDay target) k = Some stage ->
  closedAt ws sent w ->
  closedAt ws sent (snd (stage w)).
Proof.
  intros Hstage Hclosed. unfold WebSocketManager.snapshotStages in Hstage.
  destruct k as [|[|[|[|k]]]]; cbn [nth_error] in Hstage;
    try (injection Hstage as <-).
  - apply closed_stage; [apply keepsS_calculateStats | assumption].
  - apply closed_stage; [apply keepsS_getAllPlatforms | assumption].
  - apply closed_stage; [apply keepsS_getRecentMessages | assumption].
  - apply closed_stage; [apply keepsS_getCurrentMlModel | assumption].
  - destruct k; discriminate.
Qed.

Lemma closed_forEach
    (ws : nat) (sent : list (Origin * WebSocketMessage))
    (message : WebSocketMessage) (targets : list nat) :
  forall w,
    closedAt ws sent w ->
    closedAt ws sent
      (snd (WebSocketManager.forEach targets
              (fun client => WebSocketManager.sendToClient FromBroadcast client message) w)).
Proof.
  induction targets as [|c rest IH]; intros w Hclosed; [exact Hclosed|].
  cbn [WebSocketManager.forEach]. rewrite bind_eq.
  pose proof (closed_sendToClient ws sent FromBroadcast c message w Hclosed) as H1.
  destruct (sendToClient_sockets FromBroadcast c message w) as (w1 & Hrun1 & _).
  rewrite Hrun1 in *. cbn [snd] in H1. now apply IH.
Qed.

Lemma step_keeps_closed
    (startOfDay : Z -> Z) (ws : nat) (sent : list (Origin * WebSocketMessage))
    (l : WebSocketManager.Loop) (e : WebSocketManager.Event) :
  closedAt ws sent (WebSocketManager.world l) ->
  closedAt ws sent (WebSocketManager.world (WebSocketManager.step startOfDay l e)).
Proof.
  intros Hclosed. pose proof Hclosed as [Hsock Hout].
  destruct e as [ws'|ws'|message|ws'|ws'|f]; cbn [WebSocketManager.step].
  - (* a new socket *)
    destruct (sockets (wss (WebSocketManager.world l)) !! ws') as [sock|] eqn:Hnew;
      [assumption|].
    assert (Hne : ws' <> ws) by (intros ->; congruence).
    cbn [WebSocketManager.world]. unfold closedAt. unfold_ws. split.
    + now rewrite lookup_insert_ne by assumption.
    + destruct (decide (ws' ∈ clients (wss (WebSocketManager.world l)))); cbn;
        [assumption|].
      rewrite elem_of_app, list_elem_of_singleton. intros [H|H]; [tauto | congruence].
  - (* a snapshot routine resumes *)
    destruct (WebSocketManager.tasks l !! ws') as [k|]; [|assumption].
    destruct (nth_error (WebSocketManager.snapshotStages startOfDay ws') k)
      as [stage|] eqn:Hstage; [|assumption].
    pose proof (closed_snapshot_stage startOfDay ws sent ws' k stage
                  (WebSocketManager.world l) Hstage Hclosed) as Hafter.
    destruct (stage (WebSocketManager.world l)) as [[[]|err] w']; cbn [snd] in Hafter;
      cbn [WebSocketManager.world].
    + assumption.
    + now apply closed_same_wss with (w := w').
  - (* a broadcast *)
    cbn [WebSocketManager.world]. unfold WebSocketManager.exec, WebSocketManager.broadcast.
    rewrite bind_eq.
    change (WebSocketManager.getWss (WebSocketManager.world l))
      with (Ok (wss (WebSocketManager.world l)), WebSocketManager.world l).
    cbv iota beta. now apply closed_forEach.
  - (* a socket closes *)
    cbn [WebSocketManager.world]. unfold closedAt. unfold_ws. split.
    + destruct (decide (ws' = ws)) as [->|Hne].
      * rewrite lookup_alter_eq, Hsock. reflexivity.
      * now rewrite lookup_alter_ne by assumption.
    + rewrite list_elem_of_In, List.filter_In, <- list_elem_of_In. tauto.
  - (* a socket error *)
    cbn [WebSocketManager.world]. unfold closedAt. unfold_ws. split; [assumption|].
    rewrite list_elem_of_In, List.filter_In, <- list_elem_of_In. tauto.
  - (* a write to the store *)
    exact Hclosed.
Qed.

Lemma run_keeps_closed
    (startOfDay : Z -> Z) (ws : nat) (sent : list (Origin * WebSocketMessage))
    (events : list WebSocketManager.Event) :
  forall l,
    closedAt ws sent (WebSocketManager.world l) ->
    closedAt ws sent (WebSocketManager.world (WebSocketManager.run startOfDay l events)).
Proof.
  induction events as [|e events IH]; intros l Hclosed; [exact Hclosed|].
  cbn [WebSocketManager.run List.fold_left]. apply IH. now apply step_keeps_closed.
Qed.

(** X18.  Nothing is sent to a socket after it has closed.  Once the [close]
    callback of a known socket has run, whatever happens next in the event
    loop (new connections, snapshot routines resuming, broadcasts, errors,
    writes to the store), the frames sent through that socket are the ones
    sent before it closed, and it is not in the client set again. *)
Theorem closed_socket_silent
    (startOfDay : Z -> Z) (l : WebSocketManager.Loop) (ws : nat) (sock : Socket)
    (events : list WebSocketManager.Event) :
  sockets (wss (WebSocketManager.world l)) !! ws = Some sock ->
  let after :=
    WebSocketManager.run startOfDay
      (WebSocketManager.step startOfDay l (WebSocketManager.Close ws)) events in
  WebSocketManager.framesOf ws after = frames sock
  /\ ws ∉ clients (wss (WebSocketManager.world after)).
Proof.
  intros Hsock after.
  assert (Hclosed : closedAt ws (frames sock)
                      (WebSocketManager.world
                         (WebSocketManager.step startOfDay l (WebSocketManager.Close ws)))).
  { cbn [WebSocketManager.step WebSocketManager.world]. unfold closedAt. unfold_ws. split.
    - rewrite lookup_alter_eq, Hsock. reflexivity.
    - rewrite list_elem_of_In, List.filter_In. intros [_ H]. rewrite Nat.eqb_refl in H. discriminate H. }
  destruct (run_keeps_closed startOfDay ws (frames sock) events _ Hclosed) as [Hs Hout].
  split; [|exact Hout].
  unfold WebSocketManager.framesOf. fold after in Hs. now rewrite Hs.
Qed.

Lemma closed_socket_silent_witness :
  sockets (wss twoClients) !! 1%nat = Some (mkSocket OPEN [])
  /\ WebSocketManager.framesOf 1
       (WebSocketManager.run utcMidnight
          (WebSocketManager.step utcMidnight
             (WebSocketManager.mkLoop twoClients ∅) (WebSocketManager.Close 1%nat))
          [WebSocketManager.Broadcast (mkWsMessage platform_status (DataPlatforms []));
           WebSocketManager.Connect 1%nat])
     = [].
Proof.
  assert (H : sockets (wss twoClients) !! 1%nat = Some (mkSocket OPEN []))
    by (vm_compute; reflexivity).
  split; [exact H|].
  exact (proj1 (closed_socket_silent utcMidnight (WebSocketManager.mkLoop twoClients ∅)
                  1%nat (mkSocket OPEN [])
                  [WebSocketManager.Broadcast (mkWsMessage platform_status (DataPlatforms []));
                   WebSocketManager.Connect 1%nat] H)).
Defined.

(** ** What the template-backed selector answers *)

Lemma substitute_nothing (t : Template.t) :
  plainVariables t -> MLTrainer.substituteVariables t ∅ = Ok (Template.content t).
Proof.
  unfold MLTrainer.substituteVariables, plainVariables. intros Hplain.
  destruct (Template.variables t) as [vs|]; [|reflexivity].
  apply substitute_all_absent.
  specialize (Hplain vs eq_refl). rewrite List.Forall_forall in *.
  intros v Hv. right. split; [apply lookup_empty | now apply Hplain].
Qed.

Lemma fixed_confidence_below (k : Z) :
  ltNum (75 # 100) (inject_Z k) = (1 <=? k).
Proof.
  destruct (1 <=? k) eqn:E.
  - apply Z.leb_le in E. apply ltNum_spec. unfold Qlt. cbn. lia.
  - apply Z.leb_gt in E. apply ltNum_false. unfold Qlt. cbn. lia.
Qed.

(** X19.  What [MLTrainer.generateResponse] does on a store that accepts
    its calls, holds the configuration and files templates under their ids.
    With an integer threshold of 1 or more it answers the fallback message
    for every text, with the classifier's constant confidence 0.75, and the
    store is not written.  With a threshold of 0 or less and a template that
    matches the intent, the first such template is taken and its content
    goes through the substitution with the classifier's empty entities: when
    that returns, its text is the answer, under the template's id, and it is
    the content with every placeholder left as written if no declared
    variable is named like a member of [Object.prototype]; when it throws,
    the call throws that error and the store is not written.  Without a
    matching template the answer is the canned response of the intent, or the
    fallback message when the intent has none, and the store is not
    written. *)
Theorem selector_outcomes
    (message : string) (platformId : Z) (w : World) (botConfig : BotConfig.t) :
  available w ->
  keyed Template.id (MemStorage.templates (storage w)) ->
  JsMap.get 1 (MemStorage.botConfigs (storage w)) = Some botConfig ->
  let intent := ProcessedMessage.intent (SimpleNLPProcessor.processMessage message) in
  exists w',
    if 1 <=? BotConfig.confidenceThreshold botConfig
    then MLTrainer.generateResponse message platformId w
         = (Ok (BotResponse.mk (BotConfig.fallbackMessage botConfig) (75 # 100) None), w')
         /\ storage w' = storage w
    else match List.find (MLTrainer.matchesIntent intent)
                         (JsMap.values (MemStorage.templates (storage w))) with
         | Some t =>
             match MLTrainer.substituteVariables t ∅ with
             | Ok response =>
                 MLTrainer.generateResponse message platformId w
                 = (Ok (BotResponse.mk response (75 # 100) (Some (Template.id t))), w')
                 /\ (plainVariables t -> response = Template.content t)
             | Throw e =>
                 MLTrainer.generateResponse message platformId w = (Throw e, w')
                 /\ storage w' = storage w
                 /\ ~ plainVariables t
             end
         | None =>
             MLTrainer.generateResponse message platformId w
             = (Ok (BotResponse.mk
                      (Js.orString (MLTrainer.lookupIntent intent)
                                   (BotConfig.fallbackMessage botConfig))
                      (75 # 100) None), w')
             /\ storage w' = storage w
         end.
Proof.
  intros Hav Hkeyed Hcfg intent.
  unfold MLTrainer.generateResponse.
  pose proof (fixed_confidence_below (BotConfig.confidenceThreshold botConfig)) as Hlt.
  destruct (1 <=? BotConfig.confidenceThreshold botConfig) eqn:Hk.
  - unfold MLTrainer.respond, Storage.getBotConfig.
    rewrite bind_eq, await_accepted by apply Hav.
    monad_unfold. cbn [storage called fst snd]. rewrite Hcfg.
    cbn [ProcessedMessage.confidence SimpleNLPProcessor.processMessage]. rewrite Hlt.
    eexists. split; reflexivity.
  - destruct (List.find (MLTrainer.matchesIntent intent)
                (JsMap.values (MemStorage.templates (storage w)))) as [t|] eqn:Hfind.
    + assert (Hget : JsMap.get (Template.id t) (MemStorage.templates (storage w)) = Some t).
      { apply keyed_get; [assumption|]. apply List.find_some in Hfind. tauto. }
      destruct (MLTrainer.substituteVariables t ∅) as [response|e] eqn:Hsubst.
      * destruct (respond_with_template (SimpleNLPProcessor.processMessage message) w
                    botConfig t t response Hav Hcfg Hlt Hfind Hget Hsubst)
          as (w' & Hrun & _).
        exists w'. split; [exact Hrun|].
        intros Hplain. rewrite (substitute_nothing t Hplain) in Hsubst. congruence.
      * destruct (respond_substitution_throws (SimpleNLPProcessor.processMessage message)
                    w botConfig t e Hav Hcfg Hlt Hfind Hsubst)
          as (w' & Hrun & Hstore & _).
        exists w'. split; [exact Hrun|]. split; [exact Hstore|].
        intros Hplain. rewrite (substitute_nothing t Hplain) in Hsubst. discriminate.
    + unfold MLTrainer.respond, Storage.getBotConfig, Storage.getAllTemplates.
      monad_unfold.
      rewrite await_accepted by apply Hav. cbn [storage called fst snd]. rewrite Hcfg.
      cbn [ProcessedMessage.confidence SimpleNLPProcessor.processMessage]. rewrite Hlt.
      rewrite await_accepted by apply Hav. cbn [storage called fst snd].
      fold intent. rewrite Hfind.
      eexists. split; reflexivity.
Qed.

Lemma selector_outcomes_witness :
  (exists w',
     MLTrainer.generateResponse "hello there" 2 Sample.lenientWorld
     = (Ok (BotResponse.mk "Hello! Welcome to LuvSmithCorp. How can I assist you today?"
              (75 # 100) (Some 1)), w'))
  /\ (exists w',
        MLTrainer.generateResponse "hello there" 2 (Sample.greetingWorld "valueOf")
        = (Throw (Error "Cannot convert undefined or null to object"), w')
        /\ storage w' = storage (Sample.greetingWorld "valueOf")).
Proof.
  split.
  - assert (Hav : available Sample.lenientWorld) by (intros op n; reflexivity).
    assert (Hkeyed : keyed Template.id
                       (MemStorage.templates (storage Sample.lenientWorld))).
    { split; simpl.
      - repeat constructor; simpl; intuition lia.
      - repeat constructor. }
    destruct (selector_outcomes "hello there" 2 Sample.lenientWorld
                (BotConfig.mk 1 "LuvSmithCorp Bot" "en" "professional" 0 3
                   "Sorry, I didn't understand that. Can you please rephrase?" true
                   1700000000000 1700000000000)
                Hav Hkeyed eq_refl) as (w' & Hrun & _).
    exists w'. exact Hrun.
  - assert (Hav : available (Sample.greetingWorld "valueOf")) by (intros op n; reflexivity).
    assert (Hkeyed : keyed Template.id
                       (MemStorage.templates (storage (Sample.greetingWorld "valueOf")))).
    { split; simpl.
      - repeat constructor; simpl; intuition lia.
      - repeat constructor. }
    destruct (selector_outcomes "hello there" 2 (Sample.greetingWorld "valueOf")
                (BotConfig.mk 1 "LuvSmithCorp Bot" "en" "professional" 0 3
                   "Sorry, I didn't understand that. Can you please rephrase?" true
                   1700000000000 1700000000000)
                Hav Hkeyed eq_refl) as (w' & Hrun & Hstore & _).
    exists w'. split; [exact Hrun | exact Hstore].
Defined.

(** ** The dashboard statistics *)

Lemma remove_dups_length_le {A} `{EqDecision A} (l : list A) :
  (List.length (remove_dups l) <= List.length l)%nat.
Proof.
  induction l as [|x l IH]; cbn [remove_dups List.length]; [lia|].
  destruct (decide_rel elem_of x l); cbn [List.length]; lia.
Qed.

(** X20.  The statistics pushed to the dashboard, on a store that accepts the
    four reads.  The computation returns and leaves the store as it was.
    The count of today's messages is taken from the newest 1000 messages and
    so never exceeds 1000; the active platforms are at most the stored
    platforms and the active users at most the stored conversations.  A store
    without messages gives a response rate of 100 and an average response
    time of 0. *)
Theorem stats_bounded (startOfDay : Z -> Z) (w : World) :
  available w ->
  exists stats w',
    WebSocketManager.calculateStats startOfDay w = (Ok stats, w')
    /\ storage w' = storage w
    /\ 0 <= Stats.todayMessages stats <= 1000
    /\ 0 <= Stats.activePlatforms stats
       <= Z.of_nat (List.length (JsMap.values (MemStorage.platforms (storage w))))
    /\ 0 <= Stats.activeUsers stats
       <= Z.of_nat (List.length (JsMap.values (MemStorage.conversations (storage w))))
    /\ (MemStorage.messages (storage w) = [] ->
        Stats.responseRate stats = 100 /\ Stats.avgResponseTime stats = 0
        /\ Stats.todayMessages stats = 0).
Proof.
  intros Hav.
  unfold WebSocketManager.calculateStats, Storage.getAllPlatforms,
    Storage.getAllConversations, Storage.getRecentMessages, Storage.getCurrentMlModel,
    dateNow.
  monad_unfold.
  repeat (rewrite await_accepted by apply Hav; cbn [storage called fst snd tick]).
  eexists. eexists. split; [reflexivity|].
  cbn [Stats.todayMessages Stats.activePlatforms Stats.activeUsers Stats.responseRate
       Stats.avgResponseTime storage called tick].
  split; [reflexivity|].
  split.
  { split; [lia|].
    match goal with
    | |- Z.of_nat (List.length (List.filter ?f ?l)) <= _ =>
        pose proof (filter_length_le f l) as H1
    end.
    pose proof (firstn_le_length 1000
                  (Storage.sortBySentAtDesc
                     (JsMap.values (MemStorage.messages (storage w))))) as H2.
    unfold Js.slice0 in *. lia. }
  split.
  { unfold WebSocketManager.count. split; [lia|].
    apply inj_le. apply filter_length_le. }
  split.
  { split; [lia|]. apply inj_le.
    etransitivity; [apply remove_dups_length_le|].
    rewrite List.length_map. apply filter_length_le. }
  intros Hempty. rewrite Hempty. cbn. auto.
Qed.

Lemma stats_bounded_witness :
  exists stats w',
    WebSocketManager.calculateStats utcMidnight Scenario.chattedWorld = (Ok stats, w')
    /\ storage w' = storage Scenario.chattedWorld
    /\ 0 <= Stats.todayMessages stats <= 1000.
Proof.
  destruct (stats_bounded utcMidnight Scenario.chattedWorld (fun _ _ => eq_refl))
    as (stats & w' & Hrun & Hst & Htoday & _).
  exists stats, w'. auto.
Defined.

(** ** One conversation per user *)

Lemma keepsTidy_ret {A} (a : A) : keepsTidy (mret a : M A).
Proof. intros w H. exact H. Qed.

Lemma keepsTidy_throw {A} (e : exn) : keepsTidy (throw e : M A).
Proof. intros w H. exact H. Qed.

Lemma keepsTidy_bind {A B} (m : M A) (k : A -> M B) :
  keepsTidy m -> (forall a, keepsTidy (k a)) -> keepsTidy (m ≫= k).
Proof.
  intros Hm Hk w Hw. rewrite bind_eq. specialize (Hm w Hw).
  destruct (m w) as [[a|e] w1]; cbn [snd] in *.
  - now apply Hk.
  - assumption.
Qed.

Lemma keepsTidy_try {A} (m : M A) (h : exn -> M A) :
  keepsTidy m -> (forall e, keepsTidy (h e)) -> keepsTidy (try_catch m h).
Proof.
  intros Hm Hh w Hw. unfold try_catch. specialize (Hm w Hw).
  destruct (m w) as [[a|e] w1]; cbn [snd] in *.
  - assumption.
  - now apply Hh.
Qed.

(** A computation that keeps the store in order and leaves the conversations
    alone. *)
Lemma keepsTidy_aside {A} (m : M A) :
  preserves m ->
  (forall w, MemStorage.conversations (storage (snd (m w)))
             = MemStorage.conversations (storage w)) ->
  keepsTidy m.
Proof.
  intros Hp Hc w [Hwf Hone]. split; [now apply Hp|].
  unfold oneConversationPerUser. now rewrite Hc.
Qed.

Ltac aside_step :=
  intros w; unfold await, Storage.nextId, dateNow, consoleWrite, fetch; monad_unfold;
  repeat match goal with
    | |- context [rejects ?w ?op ?n] => destruct (rejects w op n)
    | |- context [match JsMap.get ?k ?m with _ => _ end] => destruct (JsMap.get k m)
    | |- context [fetches ?w ?n] => destruct (fetches w n)
    end;
  reflexivity.

Lemma keepsTidy_dateNow : keepsTidy dateNow.
Proof. intros w H. exact H. Qed.

Lemma keepsTidy_consoleWrite (l : ConsoleLevel) (text : string) :
  keepsTidy (consoleWrite l text).
Proof. intros w H. exact H. Qed.

Lemma keepsTidy_fetch (r : HttpRequest) : keepsTidy (fetch r).
Proof. intros w H. unfold fetch. now destruct (fetches w (ticks w)). Qed.

Lemma keepsTidy_getPlatformByName (name : string) :
  keepsTidy (Storage.getPlatformByName name).
Proof.
  apply keepsTidy_aside; [apply preserves_getPlatformByName|].
  unfold Storage.getPlatformByName. aside_step.
Qed.

Lemma keepsTidy_createPlatform (p : InsertPlatform.t) :
  keepsTidy (Storage.createPlatform p).
Proof.
  apply keepsTidy_aside; [apply preserves_createPlatform|].
  unfold Storage.createPlatform. aside_step.
Qed.

Lemma keepsTidy_updatePlatform (id : Z) (u : PartialPlatform.t) :
  keepsTidy (Storage.updatePlatform id u).
Proof.
  apply keepsTidy_aside; [apply preserves_updatePlatform|].
  unfold Storage.updatePlatform. aside_step.
Qed.

Lemma keepsTidy_createMessage (m : InsertMessage.t) :
  keepsTidy (Storage.createMessage m).
Proof.
  apply keepsTidy_aside; [apply preserves_createMessage|].
  unfold Storage.createMessage. aside_step.
Qed.

Lemma keepsTidy_createLog (l : InsertLog.t) : keepsTidy (Storage.createLog l).
Proof.
  apply keepsTidy_aside; [apply preserves_createLog|].
  unfold Storage.createLog. aside_step.
Qed.

Lemma values_set_same {V B} (key : V -> B) (k : Z) (v old : V) (m : JsMap.t V) :
  JsMap.get k m = Some old -> key v = key old ->
  List.map key (JsMap.values (JsMap.set k v m)) = List.map key (JsMap.values m).
Proof.
  intros Hget Hkey. unfold JsMap.values.
  induction m as [|[k' v'] m IH]; cbn [JsMap.get JsMap.set List.map snd] in *;
    [discriminate|].
  destruct (k' =? k); cbn [List.map snd].
  - injection Hget as ->. now rewrite Hkey.
  - f_equal. now apply IH.
Qed.

Lemma keepsTidy_updateConversation (id : Z) (u : PartialConversation.t) :
  PartialConversation.platformId u = None ->
  PartialConversation.userId u = None ->
  keepsTidy (Storage.updateConversation id u).
Proof.
  intros Hp Hu w [Hwf Hone]. split; [now apply preserves_updateConversation|].
  unfold Storage.updateConversation, await, dateNow. monad_unfold.
  destruct (rejects w UpdateConversation (ticks w)); [exact Hone|].
  cbn [storage called tick withStorage snd fst].
  destruct (JsMap.get id (MemStorage.conversations (storage w))) as [existing|] eqn:Hget;
    [|exact Hone].
  cbn [storage called tick withStorage snd fst]. unfold oneConversationPerUser.
  cbn [MemStorage.conversations Storage.setConversations].
  rewrite values_set_same with (old := existing); [exact Hone | exact Hget |].
  unfold userKey, Storage.mergeConversation.
  cbn [Conversation.platformId Conversation.userId]. now rewrite Hp, Hu.
Qed.

(** Looking a user's conversation up among the stored ones and creating it
    when there is none. *)
Lemma resolveConversation_tidy
    (platform : Platform.t) (from : Telegram.User) (w : World) :
  tidy w ->
  tidy (snd (TelegramHandler.resolveConversation platform from
               (JsMap.values (MemStorage.conversations (storage w))) w)).
Proof.
  intros [Hwf Hone]. unfold TelegramHandler.resolveConversation.
  destruct (List.find _ _) as [c|] eqn:Hfind; [split; assumption|].
  split; [now apply preserves_createConversation|].
  unfold Storage.createConversation, await, Storage.nextId, dateNow. monad_unfold.
  destruct (rejects w CreateConversation (ticks w)); [exact Hone|].
  cbn [storage called tick withStorage snd fst]. unfold oneConversationPerUser.
  cbn [MemStorage.conversations Storage.setConversations Storage.setCurrentId
       MemStorage.currentId].
  rewrite values_set_fresh by apply Hwf.
  rewrite List.map_app. cbn [List.map].
  apply NoDup_snoc; [exact Hone|].
  intros Hin. apply in_map_iff in Hin as (c' & Hkey & Hin).
  pose proof (List.find_none _ _ Hfind c' Hin) as Hno. cbv beta in Hno.
  unfold userKey in Hkey.
  cbn [InsertConversation.platformId InsertConversation.userId
       Conversation.platformId Conversation.userId] in Hkey.
  injection Hkey as Hp Hu. rewrite Hp, Hu, Z.eqb_refl, String.eqb_refl in Hno.
  discriminate Hno.
Qed.

Ltac tidy_step :=
  repeat
    first
      [ apply keepsTidy_ret | apply keepsTidy_throw | apply keepsTidy_dateNow
      | apply keepsTidy_consoleWrite | apply keepsTidy_fetch
      | apply keepsTidy_getPlatformByName | apply keepsTidy_createPlatform
      | apply keepsTidy_updatePlatform | apply keepsTidy_createMessage
      | apply keepsTidy_createLog
      | apply keepsTidy_updateConversation; reflexivity
      | match goal with
        | |- keepsTidy (_ ≫= _) => apply keepsTidy_bind; [|intros ?]
        | |- keepsTidy (try_catch _ _) => apply keepsTidy_try; [|intros ?]
        | |- keepsTidy (match ?x with _ => _ end) => destruct x
        | |- keepsTidy (if ?x then _ else _) => destruct x
        end ].

Lemma keepsTidy_pipeline (botToken : string) (startTime : Z) (message : Telegram.Message) :
  keepsTidy (TelegramHandler.pipeline botToken startTime message).
Proof.
  unfold TelegramHandler.pipeline.
  apply keepsTidy_bind; [unfold TelegramHandler.resolvePlatform; tidy_step|].
  intros platform w Hw. rewrite bind_eq. unfold Storage.getAllConversations, await.
  destruct (rejects w GetAllConversations (ticks w)); [exact Hw|].
  monad_unfold. cbn [storage called fst snd].
  destruct (Telegram.from message) as [from|]; [|exact Hw].
  pose proof (resolveConversation_tidy platform from (called GetAllConversations w) Hw)
    as Hres.
  cbn [storage called] in Hres.
  destruct (TelegramHandler.resolveConversation platform from
              (JsMap.values (MemStorage.conversations (storage w)))
              (called GetAllConversations w)) as [[conversation|e] w1];
    cbn [snd] in Hres; [|exact Hres].
  revert w1 Hres.
  change (keepsTidy
            (exchange ← TelegramHandler.recordExchange startTime message platform
                          conversation;
             match Telegram.chat message with
             | None => throw (TelegramHandler.typeError "id")
             | Some chat =>
                 TelegramHandler.sendMessage botToken (Telegram.chat_id chat)
                   (SimpleResponse.response (fst exchange));;
                 TelegramHandler.updateCounters platform conversation from chat
                   (SimpleResponse.confidence (fst exchange)) (snd exchange)
             end)).
  unfold TelegramHandler.recordExchange, TelegramHandler.sendMessage,
    TelegramHandler.updateCounters, SimpleMLTrainer.generateResponse.
  tidy_step.
Qed.

(** X21.  One conversation per user.  When Telegram deliveries are handled
    one after the other, on a store in order in which no two conversations
    are with the same user of the same platform, the webhook handler leaves
    a store with the same two properties, whatever the update carries and
    whatever the store, the clock and the platform API do during the run: a
    conversation is created only after the lookup found none for that
    platform and user. *)
Theorem one_conversation_per_user (botToken : string) (update : Telegram.Update) :
  keepsTidy (TelegramHandler.handleMessage botToken update).
Proof.
  unfold TelegramHandler.handleMessage, TelegramHandler.processIncomingMessage.
  apply keepsTidy_try; [|intros e; tidy_step].
  apply keepsTidy_bind; [|intros []; apply keepsTidy_ret].
  destruct (Telegram.message update) as [message|]; [|apply keepsTidy_ret].
  apply keepsTidy_bind; [apply keepsTidy_dateNow|]. intros startTime.
  apply keepsTidy_try; [apply keepsTidy_pipeline | intros e; tidy_step].
Qed.

Lemma one_conversation_per_user_witness :
  tidy Sample.freshWorld
  /\ tidy (snd (TelegramHandler.handleMessage "123:abc" (Sample.textUpdate "hello")
                  Sample.freshWorld)).
Proof.
  assert (H : tidy Sample.freshWorld).
  { split; [apply wellFormed_initial | constructor]. }
  split; [exact H|].
  exact (one_conversation_per_user "123:abc" (Sample.textUpdate "hello")
           Sample.freshWorld H).
Defined.

(** ** The client set *)

Lemma clientsOk_same_wss (w w' : World) : wss w' = wss w -> clientsOk w -> clientsOk w'.
Proof. unfold clientsOk. now intros ->. Qed.

Lemma clientsOk_sendToClient
    (origin : Origin) (target : nat) (message : WebSocketMessage) (w : World) :
  clientsOk w ->
  clientsOk (snd (WebSocketManager.sendToClient origin target message w)).
Proof.
  intros [Hnd Hdom].
  destruct (sendToClient_sockets origin target message w)
    as (w' & Hrun & _ & _ & Hcl & Hso).
  rewrite Hrun. cbn [snd]. split; rewrite Hcl; [assumption|].
  intros ws Hin. rewrite Hso. unfold deliveredTo.
  destruct (Hdom ws Hin) as [sock ->]. eexists. reflexivity.
Qed.

Lemma clientsOk_stage {A} (reads : M A) (mk : A -> WebSocketMessage)
    (target : nat) (w : World) :
  keepsSockets reads ->
  clientsOk w ->
  clientsOk
    (snd ((reads ≫= fun a => WebSocketManager.sendToClient FromSnapshot target (mk a)) w)).
Proof.
  intros Hreads Hok. rewrite bind_eq. specialize (Hreads w).
  destruct (reads w) as [[a|e] w1]; cbn [snd] in *.
  - apply clientsOk_sendToClient. now apply clientsOk_same_wss with (w := w).
  - now apply clientsOk_same_wss with (w := w).
Qed.

Lemma clientsOk_snapshot_stage
    (startOfDay : Z -> Z) (target : nat) (k : nat) (stage : M unit) (w : World) :
  nth_error (WebSocketManager.snapshotStages startOfDay target) k = Some stage ->
  clientsOk w ->
  clientsOk (snd (stage w)).
Proof.
  intros Hstage Hok. unfold WebSocketManager.snapshotStages in Hstage.
  destruct k as [|[|[|[|k]]]]; cbn [nth_error] in Hstage;
    try (injection Hstage as <-).
  - apply clientsOk_stage; [apply keepsS_calculateStats | assumption].
  - apply clientsOk_stage; [apply keepsS_getAllPlatforms | assumption].
  - apply clientsOk_stage; [apply keepsS_getRecentMessages | assumption].
  - apply clientsOk_stage; [apply keepsS_getCurrentMlModel | assumption].
  - destruct k; discriminate.
Qed.

Lemma NoDup_list_filter {A} (f : A -> bool) (l : list A) :
  NoDup l -> NoDup (List.filter f l).
Proof.
  induction 1 as [|x l Hx Hnd IH]; cbn [List.filter]; [constructor|].
  destruct (f x); [|assumption]. constructor; [|assumption].
  rewrite list_elem_of_In, List.filter_In, <- list_elem_of_In. tauto.
Qed.

Lemma step_keeps_clients
    (startOfDay : Z -> Z) (l : WebSocketManager.Loop) (e : WebSocketManager.Event) :
  clientsOk (WebSocketManager.world l) ->
  clientsOk (WebSocketManager.world (WebSocketManager.step startOfDay l e)).
Proof.
  intros Hok. pose proof Hok as [Hnd Hdom].
  destruct e as [ws'|ws'|message|ws'|ws'|f]; cbn [WebSocketManager.step].
  - (* a new socket *)
    destruct (sockets (wss (WebSocketManager.world l)) !! ws') as [sock|] eqn:Hnew;
      [assumption|].
    assert (Hout : ws' ∉ clients (wss (WebSocketManager.world l))).
    { intros Hin. destruct (Hdom ws' Hin) as [s Hs]. congruence. }
    cbn [WebSocketManager.world]. unfold clientsOk. unfold_ws.
    destruct (decide (ws' ∈ clients (wss (WebSocketManager.world l)))); [tauto|].
    cbn. split.
    + apply NoDup_app. split; [assumption|]. split; [|apply NoDup_singleton].
      intros x Hx. rewrite list_elem_of_singleton. intros ->. tauto.
    + intros ws. rewrite elem_of_app, list_elem_of_singleton. intros [Hin| ->].
      * destruct (decide (ws = ws')) as [->|Hne]; [tauto|].
        rewrite lookup_insert_ne by congruence. now apply Hdom.
      * rewrite lookup_insert_eq. eexists. reflexivity.
  - (* a snapshot routine resumes *)
    destruct (WebSocketManager.tasks l !! ws') as [k|]; [|assumption].
    destruct (nth_error (WebSocketManager.snapshotStages startOfDay ws') k)
      as [stage|] eqn:Hstage; [|assumption].
    pose proof (clientsOk_snapshot_stage startOfDay ws' k stage
                  (WebSocketManager.world l) Hstage Hok) as Hafter.
    destruct (stage (WebSocketManager.world l)) as [[[]|err] w']; cbn [snd] in Hafter;
      cbn [WebSocketManager.world].
    + assumption.
    + now apply clientsOk_same_wss with (w := w').
  - (* a broadcast *)
    cbn [WebSocketManager.world]. unfold WebSocketManager.exec, WebSocketManager.broadcast.
    rewrite bind_eq.
    change (WebSocketManager.getWss (WebSocketManager.world l))
      with (Ok (wss (WebSocketManager.world l)), WebSocketManager.world l).
    cbv iota beta.
    destruct (forEach_delivers message (clients (wss (WebSocketManager.world l)))
                (WebSocketManager.world l) Hnd) as (w' & Hrun & _ & _ & Hcl & Hso).
    rewrite Hrun. cbn [snd]. split; rewrite Hcl; [assumption|].
    intros ws Hin. rewrite Hso. unfold deliveredTo.
    destruct (Hdom ws Hin) as [sock ->]. eexists. reflexivity.
  - (* a socket closes *)
    cbn [WebSocketManager.world]. unfold clientsOk. unfold_ws. split.
    + now apply NoDup_list_filter.
    + intros ws. rewrite list_elem_of_In, List.filter_In, <- list_elem_of_In.
      intros [Hin _]. destruct (Hdom ws Hin) as [sock Hs].
      destruct (decide (ws' = ws)) as [->|Hne].
      * rewrite lookup_alter_eq, Hs. eexists. reflexivity.
      * rewrite lookup_alter_ne by assumption. rewrite Hs. eexists. reflexivity.
  - (* a socket error *)
    cbn [WebSocketManager.world]. unfold clientsOk. unfold_ws. split.
    + now apply NoDup_list_filter.
    + intros ws. rewrite list_elem_of_In, List.filter_In, <- list_elem_of_In.
      intros [Hin _]. now apply Hdom.
  - (* a write to the store *)
    exact Hok.
Qed.

(** X22.  The client set stays a set.  If the client set holds each socket
    at most once and only sockets that the manager has been handed, as it
    does when the server starts without clients, then it still does after
    whatever the event loop runs: connections, snapshot routines, broadcasts,
    closes, errors, writes to the store. *)
Theorem client_set_stays_a_set
    (startOfDay : Z -> Z) (events : list WebSocketManager.Event) (l : WebSocketManager.Loop) :
  clientsOk (WebSocketManager.world l) ->
  clientsOk (WebSocketManager.world (WebSocketManager.run startOfDay l events)).
Proof.
  revert l. induction events as [|e events IH]; intros l Hok; [exact Hok|].
  cbn [WebSocketManager.run List.fold_left]. apply IH. now apply step_keeps_clients.
Qed.

Lemma client_set_stays_a_set_witness :
  clientsOk
    (WebSocketManager.world
       (WebSocketManager.run utcMidnight
          (WebSocketManager.mkLoop Sample.freshWorld ∅)
          [WebSocketManager.Connect 1%nat; WebSocketManager.Connect 1%nat;
           WebSocketManager.Resume 1%nat; WebSocketManager.Close 1%nat])).
Proof.
  apply client_set_stays_a_set. split.
  - simpl. constructor.
  - simpl. intros ws Hin. inversion Hin.
Defined.

(** ** Webhook verification *)

(** X23.  The verification routes answer 200 with the challenge exactly when
    the mode is [subscribe] and the token of the request is the configured
    one, and 403 otherwise, without touching the store.  For WhatsApp the
    configured token is the environment variable itself, so when it is not
    set a request that carries no token is verified; for Messenger an unset
    or empty variable is taken as the empty string, so a request with the
    empty token is verified. *)
Theorem webhook_verification (query : VerifyQuery) (env : option string) (w : World) :
  (fst (WhatsAppHandler.verifyWebhook env query w)
   = Ok (if bool_decide (hub_mode query = Some "subscribe"
                         /\ hub_verify_token query = env)
         then mkVerifyResponse 200 (hub_challenge query)
         else mkVerifyResponse 403 (Some "Forbidden"))
   /\ storage (snd (WhatsAppHandler.verifyWebhook env query w)) = storage w)
  /\ (fst (MessengerHandler.verifyWebhook env query w)
      = Ok (if bool_decide (hub_mode query = Some "subscribe"
                            /\ hub_verify_token query = Some (Js.orString env ""))
            then mkVerifyResponse 200 (hub_challenge query)
            else mkVerifyResponse 403 (Some "Forbidden"))
      /\ storage (snd (MessengerHandler.verifyWebhook env query w)) = storage w)
  /\ (hub_mode query = Some "subscribe" ->
      hub_verify_token query = None ->
      fst (WhatsAppHandler.verifyWebhook None query w)
      = Ok (mkVerifyResponse 200 (hub_challenge query)))
  /\ (hub_mode query = Some "subscribe" ->
      hub_verify_token query = Some "" ->
      env = None \/ env = Some "" ->
      fst (MessengerHandler.verifyWebhook env query w)
      = Ok (mkVerifyResponse 200 (hub_challenge query))).
Proof.
  assert (Hw : forall e,
             fst (WhatsAppHandler.verifyWebhook e query w)
             = Ok (if bool_decide (hub_mode query = Some "subscribe"
                                   /\ hub_verify_token query = e)
                   then mkVerifyResponse 200 (hub_challenge query)
                   else mkVerifyResponse 403 (Some "Forbidden"))
             /\ storage (snd (WhatsAppHandler.verifyWebhook e query w)) = storage w).
  { intros e. unfold WhatsAppHandler.verifyWebhook. cbv zeta.
    destruct (strictEq (hub_mode query) (Some "subscribe")) eqn:Hmode;
      destruct (strictEq (hub_verify_token query) e) eqn:Htoken; cbn [andb].
    - apply strictEq_spec in Hmode, Htoken.
      rewrite bool_decide_eq_true_2 by tauto. split; reflexivity.
    - rewrite bool_decide_eq_false_2; [split; reflexivity|].
      intros [_ H]. apply strictEq_spec in H. congruence.
    - rewrite bool_decide_eq_false_2; [split; reflexivity|].
      intros [H _]. apply strictEq_spec in H. congruence.
    - rewrite bool_decide_eq_false_2; [split; reflexivity|].
      intros [H _]. apply strictEq_spec in H. congruence. }
  assert (Hm : forall e,
             fst (MessengerHandler.verifyWebhook e query w)
             = Ok (if bool_decide (hub_mode query = Some "subscribe"
                                   /\ hub_verify_token query = Some (Js.orString e ""))
                   then mkVerifyResponse 200 (hub_challenge query)
                   else mkVerifyResponse 403 (Some "Forbidden"))
             /\ storage (snd (MessengerHandler.verifyWebhook e query w)) = storage w).
  { intros e. unfold MessengerHandler.verifyWebhook, MessengerHandler.verifyToken.
    cbv zeta.
    destruct (strictEq (hub_mode query) (Some "subscribe")) eqn:Hmode;
      destruct (strictEq (hub_verify_token query) (Some (Js.orString e ""))) eqn:Htoken;
      cbn [andb].
    - apply strictEq_spec in Hmode, Htoken.
      rewrite bool_decide_eq_true_2 by tauto. split; reflexivity.
    - rewrite bool_decide_eq_false_2; [split; reflexivity|].
      intros [_ H]. apply strictEq_spec in H. congruence.
    - rewrite bool_decide_eq_false_2; [split; reflexivity|].
      intros [H _]. apply strictEq_spec in H. congruence.
    - rewrite bool_decide_eq_false_2; [split; reflexivity|].
      intros [H _]. apply strictEq_spec in H. congruence. }
  split; [apply Hw|]. split; [apply Hm|]. split.
  - intros Hmode Htoken. rewrite (proj1 (Hw None)).
    now rewrite bool_decide_eq_true_2 by tauto.
  - intros Hmode Htoken Henv. rewrite (proj1 (Hm env)).
    rewrite bool_decide_eq_true_2; [reflexivity|].
    split; [assumption|]. destruct Henv as [-> | ->]; exact Htoken.
Qed.

Lemma webhook_verification_witness :
  fst (WhatsAppHandler.verifyWebhook None
         (mkVerifyQuery (Some "subscribe") None (Some "1158201444")) Sample.freshWorld)
  = Ok (mkVerifyResponse 200 (Some "1158201444")).
Proof.
  destruct (webhook_verification
              (mkVerifyQuery (Some "subscribe") None (Some "1158201444")) None
              Sample.freshWorld) as (_ & _ & H & _).
  apply H; reflexivity.
Defined.

(** ** Registering the Telegram webhook *)

(** X24.  [setWebhook] without a bot token throws before any request and
    files nothing.  With a token it sends one request to the bot's
    [setWebhook] method carrying the URL; when the API accepts it, a console
    line is written and the store is untouched; when the API refuses it or
    the request fails, one error-level log entry with the error and the URL
    is filed (the store accepting the write) and the error is rethrown. *)
Theorem setWebhook_outcomes (botToken webhookUrl : string) (w : World) :
  (Js.truthyString botToken = false ->
   TelegramHandler.setWebhook botToken webhookUrl w
   = (Throw (Error "Telegram bot token not configured"), w))
  /\ (Js.truthyString botToken = true ->
      rejects w CreateLog (S (ticks w)) = None ->
      exists outcome w',
        TelegramHandler.setWebhook botToken webhookUrl w = (outcome, w')
        /\ requests w'
           = (requests w
              ++ [mkRequest ("https://api.telegram.org/bot" ++ botToken ++ "/setWebhook")
                            [("url", JStr webhookUrl)]])%list
        /\ match fetches w (ticks w) with
           | FetchOk =>
               outcome = Ok tt
               /\ storage w' = storage w
               /\ console w' = (console w ++ [(ConsoleLog, "Telegram webhook set:")])%list
           | FetchNotOk statusText =>
               outcome = Throw (Error ("Failed to set Telegram webhook: " ++ statusText))
               /\ exists log,
                    MemStorage.logs (storage w')
                    = JsMap.set (Log.id log) log (MemStorage.logs (storage w))
                    /\ Log.level log = "error"
                    /\ Log.message log = "Failed to set Telegram webhook"
                    /\ Log.details log
                       = Some [("error",
                                JStr ("Failed to set Telegram webhook: " ++ statusText));
                               ("webhookUrl", JStr webhookUrl)]
           | FetchThrows reason =>
               outcome = Throw (Error reason)
               /\ exists log,
                    MemStorage.logs (storage w')
                    = JsMap.set (Log.id log) log (MemStorage.logs (storage w))
                    /\ Log.level log = "error"
                    /\ Log.message log = "Failed to set Telegram webhook"
                    /\ Log.details log
                       = Some [("error", JStr reason); ("webhookUrl", JStr webhookUrl)]
           end).
Proof.
  split.
  - intros Htoken. unfold TelegramHandler.setWebhook. now rewrite Htoken.
  - intros Htoken Hlog. unfold TelegramHandler.setWebhook. rewrite Htoken. cbn [negb].
    unfold try_catch, fetch, consoleWrite, Storage.createLog, Storage.nextId, dateNow,
      await.
    monad_unfold.
    destruct (fetches w (ticks w)) as [|statusText|reason];
      cbn [rejects ticks storage tick called withStorage fst snd];
      rewrite ?Hlog;
      cbn [rejects ticks storage tick called withStorage fst snd];
      eexists; eexists; (split; [reflexivity|]);
      cbn [requests storage console]; (split; [reflexivity|]).
    + repeat split.
    + split; [reflexivity|].
      eexists (Log.mk _ _ _ _ _ _).
      cbn [MemStorage.logs Storage.setLogs Storage.setCurrentId Log.id Log.level
           Log.message Log.details InsertLog.level InsertLog.message InsertLog.details
           TelegramHandler.errorDetails errorMessage app].
      repeat split.
    + split; [reflexivity|].
      eexists (Log.mk _ _ _ _ _ _).
      cbn [MemStorage.logs Storage.setLogs Storage.setCurrentId Log.id Log.level
           Log.message Log.details InsertLog.level InsertLog.message InsertLog.details
           TelegramHandler.errorDetails errorMessage app].
      repeat split.
Qed.

Lemma setWebhook_outcomes_witness :
  TelegramHandler.setWebhook "" "https://bot.example/webhook/telegram" Sample.freshWorld
  = (Throw (Error "Telegram bot token not configured"), Sample.freshWorld).
Proof.
  exact (proj1 (setWebhook_outcomes "" "https://bot.example/webhook/telegram"
                  Sample.freshWorld) eq_refl).
Defined.

(** ** The samples collected from a conversation *)

Lemma inferred_truthy (response intent : string) :
  MLTrainer.inferIntentFromResponse response = Some intent ->
  Js.truthyString intent = true.
Proof.
  unfold MLTrainer.inferIntentFromResponse.
  destruct (List.find _ _) as [[keyword label]|] eqn:E; cbn [option_map snd];
    [|discriminate].
  intros [= <-]. apply List.find_some in E as [Hin _].
  unfold MLTrainer.responseIntentMap in Hin. cbn [In] in Hin.
  repeat (destruct Hin as [Heq|Hin]; [injection Heq as <- <-; reflexivity|]).
  destruct Hin.
Qed.

(** X25.  The training samples taken from the messages of a conversation are
    exactly the adjacent pairs of a user message followed by a bot message
    whose text lets an intent be inferred: the sample carries the user's
    text, the inferred intent and the bot's text. *)
Theorem training_pairs_adjacent (messages : list Message.t) (sample : TrainingData.t) :
  In sample (MLTrainer.trainingPairs messages)
  <-> exists pre userMessage botMessage post,
        messages = (pre ++ userMessage :: botMessage :: post)%list
        /\ Message.sender userMessage = "user"
        /\ Message.sender botMessage = "bot"
        /\ MLTrainer.inferIntentFromResponse (Message.content botMessage)
           = Some (TrainingData.intent sample)
        /\ sample = TrainingData.mk (Message.content userMessage)
                      (TrainingData.intent sample)
                      (Some (Message.content botMessage)).
Proof.
  split.
  - induction messages as [|u rest IH]; cbn [MLTrainer.trainingPairs]; [intros []|].
    destruct rest as [|b rest']; [intros []|].
    intros Hin. apply List.in_app_or in Hin as [Hin|Hin].
    + destruct (String.eqb (Message.sender u) "user") eqn:Hu; cbn [andb] in Hin;
        [|destruct Hin].
      destruct (String.eqb (Message.sender b) "bot") eqn:Hb; [|destruct Hin].
      destruct (MLTrainer.inferIntentFromResponse (Message.content b)) as [intent|] eqn:Hi;
        [|destruct Hin].
      rewrite (inferred_truthy _ _ Hi) in Hin. destruct Hin as [<-|[]].
      exists [], u, b, rest'. cbn [app TrainingData.intent].
      apply String.eqb_eq in Hu, Hb. auto.
    + destruct (IH Hin) as (pre & um & bm & post & Heq & Hrest).
      exists (u :: pre), um, bm, post. cbn [app]. rewrite Heq. auto.
  - intros (pre & um & bm & post & -> & Hu & Hb & Hi & Hs).
    induction pre as [|x pre IH]; cbn [app MLTrainer.trainingPairs].
    + apply List.in_or_app. left.
      rewrite Hu, Hb, Hi. cbn [String.eqb andb].
      rewrite ?String.eqb_refl. cbn [andb].
      rewrite (inferred_truthy _ _ Hi). left. now rewrite Hs.
    + destruct (pre ++ um :: bm :: post)%list as [|y l] eqn:Hl.
      * destruct pre; discriminate.
      * apply List.in_or_app. right. exact IH.
Qed.

Lemma training_pairs_adjacent_witness :
  In (TrainingData.mk "hello" "greeting" (Some "Hello! How can I help you today?"))
     (MLTrainer.trainingPairs
        (JsMap.values (MemStorage.messages Scenario.chatted))).
Proof.
  apply training_pairs_adjacent.
  exists [], (Message.mk 11 10 "hello" "user" None None None 1700000000100),
    (Message.mk 12 10 "Hello! How can I help you today?" "bot"
       (Some (75 # 100)) (Some 3) None 1700000000103), [].
  repeat split; reflexivity.
Defined.

(** ** Reading back what was created *)

(** X26.  A record can be read back under the id that [create] returned: on
    a store that accepts the calls, creating a platform, a conversation or a
    template and then asking for the returned id gives that record, with the
    defaults the store filled in (counts at 0, a template active unless said
    otherwise). *)
Theorem created_record_found (w : World) :
  available w ->
  (forall p, exists r w',
      (r ← Storage.createPlatform p; Storage.getPlatform (Platform.id r)) w
      = (Ok (Some r), w')
      /\ Platform.messagesCount r = 0)
  /\ (forall c, exists r w',
      (r ← Storage.createConversation c; Storage.getConversation (Conversation.id r)) w
      = (Ok (Some r), w')
      /\ Conversation.messagesCount r = 0)
  /\ (forall t, exists r w',
      (r ← Storage.createTemplate t; Storage.getTemplate (Template.id r)) w
      = (Ok (Some r), w')
      /\ Template.usageCount r = 0
         /\ Template.isActive r = default true (InsertTemplate.isActive t)).
Proof.
  intros Hav. repeat match goal with |- _ /\ _ => split end.
  - intros p. unfold Storage.createPlatform, Storage.getPlatform at 1.
    rewrite bind_eq, await_accepted by apply Hav.
    unfold Storage.nextId, dateNow. monad_unfold.
    cbn [storage called tick withStorage snd fst].
    unfold Storage.getPlatform. rewrite await_accepted by apply Hav. monad_unfold.
    cbn [storage called tick withStorage snd fst MemStorage.platforms
         Storage.setPlatforms Storage.setCurrentId Platform.id].
    rewrite JsMap_get_set_eq. eexists. eexists. split; reflexivity.
  - intros c. unfold Storage.createConversation.
    rewrite bind_eq, await_accepted by apply Hav.
    unfold Storage.nextId, dateNow. monad_unfold.
    cbn [storage called tick withStorage snd fst].
    unfold Storage.getConversation. rewrite await_accepted by apply Hav. monad_unfold.
    cbn [storage called tick withStorage snd fst MemStorage.conversations
         Storage.setConversations Storage.setCurrentId Conversation.id].
    rewrite JsMap_get_set_eq. eexists. eexists. split; reflexivity.
  - intros t. unfold Storage.createTemplate.
    rewrite bind_eq, await_accepted by apply Hav.
    unfold Storage.nextId, dateNow. monad_unfold.
    cbn [storage called tick withStorage snd fst].
    unfold Storage.getTemplate. rewrite await_accepted by apply Hav. monad_unfold.
    cbn [storage called tick withStorage snd fst MemStorage.templates
         Storage.setTemplates Storage.setCurrentId Template.id].
    rewrite JsMap_get_set_eq. eexists. eexists. split; [reflexivity|].
    split; reflexivity.
Qed.

Lemma created_record_found_witness :
  exists r w',
    (r ← Storage.createTemplate
           (InsertTemplate.mk "Returns" "Customer Support"
              "You can return any item within 30 days." None None (Some 7));
     Storage.getTemplate (Template.id r)) Sample.freshWorld
    = (Ok (Some r), w')
    /\ Template.usageCount r = 0
       /\ Template.isActive r = true.
Proof.
  destruct (created_record_found Sample.freshWorld (fun _ _ => eq_refl)) as (_ & _ & H).
  exact (H (InsertTemplate.mk "Returns" "Customer Support"
              "You can return any item within 30 days." None None (Some 7))).
Defined.
